(** * Lightspeed Intelligence: the sales aggregation engine

    A shallow embedding of [src/lightspeed-intelligence.js] (class
    [LightspeedIntelligence]): the response-shape normalisation of
    [getSales], the aggregator [getSalesMetrics], the channel heuristic
    [classifyChannel], the ranker [getTopProducts] and the comparator
    [getComparison].

    Conventions of the embedding.
    - A JavaScript number whose value comes from [parseFloat] and from
      [+ - * /] is a [Number]: an exact rational, [+Infinity], [-Infinity]
      or [NaN], with the special-value rules of IEEE 754.  Rounding to
      binary64, overflow of finite values and the sign of zero are not
      modelled.
    - A counter that is only ever incremented from 0 ([totalTransactions],
      the channel counts, the hourly buckets) is a [nat].
    - A JSON field that may be missing is an [option]; a field that holds
      either one record or an array of records is a [Shape].
    - A JavaScript object used as a dictionary is an association list kept
      in insertion order; [Dict.values] applies the own-property order of
      the language (array-index keys first, in ascending order).
      The identifiers used as keys are assumed not to be names of
      members of [Object.prototype].
    - The HTTP round trip, the clock and the time zone of the host are
      parameters of the section [Engine]; the arguments of the operations
      are their values after the defaults are applied, except for
      [getComparison], whose default is modelled.  The hour of a
      completion time is an hour below 24 or, for a text that the host
      does not parse as a date, the [NaN] of [getHours].
    - [Array.prototype.sort] is the stable sort when the comparator is
      consistent on the elements of the array; for a comparator that is
      not, the language leaves the order to the implementation, and the
      order is a parameter of the section [Engine].
    - Strings are sequences of bytes; [toLowerCase] and [trim] are
      modelled on ASCII letters and ASCII white space. *)

From Stdlib Require Import Ascii String DecimalString QArith Qcanon Lqa.
From stdpp Require Import base tactics option numbers strings fin sorting list.

Open Scope string_scope.

(** ** JavaScript numbers *)

Module JS.

Inductive Number : Type :=
  | Fin (q : Qc)
  | PInf
  | NInf
  | NaN.

#[global] Instance Number_eq_dec : EqDecision Number.
Proof. solve_decision. Defined.

Definition zero : Number := Fin 0%Qc.
Definition hundred : Number := Fin (Q2Qc 100).

Definition isFinite (x : Number) : bool :=
  match x with Fin _ => true | _ => false end.

Definition neg (x : Number) : Number :=
  match x with
  | Fin q => Fin (- q)%Qc
  | PInf => NInf
  | NInf => PInf
  | NaN => NaN
  end.

Definition add (x y : Number) : Number :=
  match x, y with
  | NaN, _ | _, NaN => NaN
  | Fin a, Fin b => Fin (a + b)%Qc
  | PInf, NInf | NInf, PInf => NaN
  | PInf, _ | _, PInf => PInf
  | NInf, _ | _, NInf => NInf
  end.

Definition sub (x y : Number) : Number := add x (neg y).

(** The sign of an infinity scaled by a finite factor. *)
Definition scaleInf (pos : bool) (q : Qc) : Number :=
  match (q ?= 0)%Qc with
  | Eq => NaN
  | Gt => if pos then PInf else NInf
  | Lt => if pos then NInf else PInf
  end.

Definition mul (x y : Number) : Number :=
  match x, y with
  | NaN, _ | _, NaN => NaN
  | Fin a, Fin b => Fin (a * b)%Qc
  | PInf, Fin q | Fin q, PInf => scaleInf true q
  | NInf, Fin q | Fin q, NInf => scaleInf false q
  | PInf, PInf | NInf, NInf => PInf
  | PInf, NInf | NInf, PInf => NInf
  end.

Definition div (x y : Number) : Number :=
  match x, y with
  | NaN, _ | _, NaN => NaN
  | Fin a, Fin b =>
      match (b ?= 0)%Qc with
      | Eq => scaleInf true a
      | _ => Fin (a / b)%Qc
      end
  | Fin _, (PInf | NInf) => zero
  | PInf, Fin q => match (q ?= 0)%Qc with Lt => NInf | _ => PInf end
  | NInf, Fin q => match (q ?= 0)%Qc with Lt => PInf | _ => NInf end
  | (PInf | NInf), (PInf | NInf) => NaN
  end.

(** [x < y]; every comparison with [NaN] is false. *)
Definition lt (x y : Number) : bool :=
  match x, y with
  | NaN, _ | _, NaN => false
  | Fin a, Fin b => bool_decide (a < b)%Qc
  | NInf, (Fin _ | PInf) | Fin _, PInf => true
  | _, _ => false
  end.

Definition gt (x y : Number) : bool := lt y x.

(** [x <= y]. *)
Definition le (x y : Number) : bool :=
  match x, y with
  | NaN, _ | _, NaN => false
  | Fin a, Fin b => bool_decide (a <= b)%Qc
  | NInf, _ | _, PInf => true
  | _, _ => false
  end.

Definition isNaN (x : Number) : bool :=
  match x with NaN => true | _ => false end.

(** The sign of a comparator result, [NaN] counting as 0. *)
Definition sign (x : Number) : comparison :=
  match x with
  | Fin q => (q ?= 0)%Qc
  | PInf => Gt
  | NInf => Lt
  | NaN => Eq
  end.

Definition ofZ (z : Z) : Number := Fin (Q2Qc (inject_Z z)).
Definition ofNat (n : nat) : Number := ofZ (Z.of_nat n).

End JS.

Declare Scope js_scope.
Delimit Scope js_scope with js.
Bind Scope js_scope with JS.Number.
Infix "+" := JS.add : js_scope.
Infix "-" := JS.sub : js_scope.
Infix "*" := JS.mul : js_scope.
Infix "/" := JS.div : js_scope.

(** ** Strings

    Strings are byte strings; [toLowerCase] folds the letters A-Z and
    [trim] removes the ASCII white space characters. *)

Module Str.

Definition isSpace (c : ascii) : bool :=
  let n := N_of_ascii c in
  ((9 <=? n) && (n <=? 13) || (n =? 32))%N.

Definition lowerChar (c : ascii) : ascii :=
  let n := N_of_ascii c in
  if ((65 <=? n) && (n <=? 90))%N then ascii_of_N (n + 32) else c.

Fixpoint toLowerCase (s : string) : string :=
  match s with
  | EmptyString => EmptyString
  | String c s' => String (lowerChar c) (toLowerCase s')
  end.

Fixpoint trimStart (s : string) : string :=
  match s with
  | String c s' => if isSpace c then trimStart s' else s
  | EmptyString => EmptyString
  end.

(** [trimEnd] keeps a character when it is not a space or when something
    that is kept follows it. *)
Fixpoint trimEnd (s : string) : string :=
  match s with
  | EmptyString => EmptyString
  | String c s' =>
      match trimEnd s' with
      | EmptyString => if isSpace c then EmptyString else String c EmptyString
      | t => String c t
      end
  end.

Definition trim (s : string) : string := trimEnd (trimStart s).

(** [s.includes(pat)] *)
Fixpoint includes (s pat : string) : bool :=
  String.prefix pat s ||
  match s with
  | EmptyString => false
  | String _ s' => includes s' pat
  end.

End Str.

(** ** [parseFloat]

    The longest prefix of the trimmed argument that is a
    [StrDecimalLiteral] is converted; without such a prefix the result is
    [NaN]. *)

Module Parse.

Definition digitOf (c : ascii) : option Z :=
  let n := Z.of_N (N_of_ascii c) in
  if ((48 <=? n) && (n <=? 57))%Z then Some (n - 48)%Z else None.

(** Reads decimal digits: their value, how many were read, and the rest. *)
Fixpoint readDigits (s : string) (acc : Z) (cnt : nat) : Z * nat * string :=
  match s with
  | String c s' =>
      match digitOf c with
      | Some d => readDigits s' (10 * acc + d)%Z (S cnt)
      | None => (acc, cnt, s)
      end
  | EmptyString => (acc, cnt, s)
  end.

(** An [ExponentPart] at the head of [s], or 0 when there is none. *)
Definition readExponent (s : string) : Z :=
  match s with
  | String c s' =>
      if bool_decide (c = "e"%char) || bool_decide (c = "E"%char) then
        let '(sgn, r) :=
          match s' with
          | String "+"%char r => (1%Z, r)
          | String "-"%char r => ((-1)%Z, r)
          | _ => (1%Z, s')
          end in
        let '(v, n, _) := readDigits r 0 0 in
        if n is O then 0%Z else (sgn * v)%Z
      else 0%Z
  | EmptyString => 0%Z
  end.

Definition pow10 (e : Z) : Qc :=
  if (0 <=? e)%Z then Q2Qc (inject_Z (10 ^ e))
  else Q2Qc (1 # Z.to_pos (10 ^ (- e))).

Definition readUnsigned (s : string) : option Qc :=
  let '(i, ni, r1) := readDigits s 0 0 in
  let '(f, nf, r2) :=
    match r1 with
    | String "."%char r => readDigits r 0 0
    | _ => (0%Z, O, r1)
    end in
  if (ni + nf)%nat is O then None
  else Some (Q2Qc (inject_Z (i * 10 ^ Z.of_nat nf + f))
             * pow10 (readExponent r2 - Z.of_nat nf))%Qc.

Definition parseFloat (s : string) : JS.Number :=
  let t := Str.trimStart s in
  let '(negative, u) :=
    match t with
    | String "-"%char r => (true, r)
    | String "+"%char r => (false, r)
    | _ => (false, t)
    end in
  if String.prefix "Infinity" u then (if negative then JS.NInf else JS.PInf)
  else match readUnsigned u with
       | Some q => JS.Fin (if negative then - q else q)%Qc
       | None => JS.NaN
       end.

End Parse.

(** ** Data model: the records of the POS API *)

(** A field of the response that holds nothing, one record, or an array of
    records. *)
Inductive Shape (A : Type) : Type :=
  | Absent
  | Single (a : A)
  | Many (l : list A).
Arguments Absent {A}.
Arguments Single {A} a.
Arguments Many {A} l.

Record ItemRec := { description : option string }.

Record Line := {
  itemID : option string;
  unitQuantity : option string;
  calcSubtotal : option string;
  fifoCost : option string;
  avgCost : option string;
  Item : option ItemRec
}.

Record LinesBox := { SaleLine : Shape Line }.

Record CustomerRec := {
  firstName : option string;
  lastName : option string
}.

Record SaleRec := {
  voided : option string;
  calcTotal : option string;
  completeTime : string;
  Customer : option CustomerRec;
  SaleLines : option LinesBox
}.

Record Response := { Sale : Shape SaleRec }.

Record DateRange := {
  start : string;
  end_ : string;
  dateStr : string
}.

(** ** Values of the language *)

(** [x || alt] for a field that is a string or missing: the empty string
    and [undefined] are falsy. *)
Definition orElse (x : option string) (alt : option string) : option string :=
  match x with
  | Some s => if bool_decide (s = "") then alt else x
  | None => alt
  end.

(** [parseFloat(x || 0)]: the number 0 is converted to the string ["0"]
    before it is parsed. *)
Definition parseFloatOr0 (x : option string) : JS.Number :=
  match orElse x None with
  | Some s => Parse.parseFloat s
  | None => Parse.parseFloat "0"
  end.

(** [x || ''] *)
Definition orEmpty (x : option string) : string := default "" x.

(** The line items of a sale, under the guard
    [sale.SaleLines && sale.SaleLines.SaleLine]. *)
Definition linesOf (sale : SaleRec) : list Line :=
  match SaleLines sale with
  | Some box =>
      match SaleLine box with
      | Many l => l
      | Single a => [a]
      | Absent => []
      end
  | None => []
  end.

(** [sale.voided === 'true'] *)
Definition isVoided (sale : SaleRec) : bool :=
  bool_decide (voided sale = Some "true").

(** ** Objects used as dictionaries *)

Module Dict.

Section Ops.
Context {V : Type}.

Fixpoint get (k : string) (d : list (string * V)) : option V :=
  match d with
  | [] => None
  | (k', v) :: d' => if bool_decide (k' = k) then Some v else get k d'
  end.

(** [d[k] = v]: an existing key keeps its position, a new one goes last. *)
Fixpoint set (k : string) (v : V) (d : list (string * V)) : list (string * V) :=
  match d with
  | [] => [(k, v)]
  | (k', v') :: d' =>
      if bool_decide (k' = k) then (k, v) :: d' else (k', v') :: set k v d'
  end.

End Ops.

(** An array index is the canonical decimal form of an integer below
    [2^32 - 1]. *)
Definition arrayIndex (k : string) : option Z :=
  let '(v, n, rest) := Parse.readDigits k 0 0 in
  if bool_decide (rest = "") && negb (bool_decide (n = O))
     && (bool_decide (n = 1%nat) || negb (String.prefix "0" k))
     && (v <? 4294967295)%Z
  then Some v else None.

(** Stable insertion of an array-index key among those already placed. *)
Fixpoint insertIndex {V} (i : Z) (v : V) (l : list (Z * V)) : list (Z * V) :=
  match l with
  | [] => [(i, v)]
  | (j, w) :: l' =>
      if (i <? j)%Z then (i, v) :: l else (j, w) :: insertIndex i v l'
  end.

Definition indexed {V} (d : list (string * V)) : list (Z * V) :=
  foldr (fun kv acc =>
           match arrayIndex kv.1 with
           | Some i => insertIndex i kv.2 acc
           | None => acc
           end) [] d.

Definition named {V} (d : list (string * V)) : list V :=
  omap (fun kv => match arrayIndex kv.1 with
                  | Some _ => None
                  | None => Some kv.2
                  end) d.

(** [Object.values(d)]: array-index keys in ascending order, then the
    other keys in insertion order. *)
Definition values {V} (d : list (string * V)) : list V :=
  (snd <$> indexed d) ++ named d.

End Dict.

(** ** Errors: a rejected promise or a thrown exception *)

Inductive Error : Type :=
  | UpstreamError (msg : string)
  | TypeError (msg : string).

Inductive Result (A : Type) : Type :=
  | Ok (a : A)
  | Throw (e : Error).
Arguments Ok {A} a.
Arguments Throw {A} e.

#[global] Instance Result_ret : MRet Result := fun _ a => Ok a.
#[global] Instance Result_bind : MBind Result := fun _ _ f m =>
  match m with
  | Ok a => f a
  | Throw e => Throw e
  end.

(** ** Channel classification ([classifyChannel]) *)

Definition classifyChannel (sale : SaleRec) : string :=
  match Customer sale with
  | None => "In-Store"
  | Some customer =>
      let firstName := Str.toLowerCase (orEmpty (firstName customer)) in
      let lastName := Str.toLowerCase (orEmpty (lastName customer)) in
      let fullName := Str.trim (firstName ++ " " ++ lastName) in
      if Str.includes fullName "ubereats" || Str.includes fullName "uber eats"
      then "UberEats"
      else if Str.includes fullName "doordash" || bool_decide (firstName = "doordash")
      then "DoorDash"
      else if Str.includes fullName "grubhub" then "GrubHub"
      else if Str.includes fullName "cityhive" then "CityHive"
      else "In-Store"
  end.

(** ** Results of the operations *)

Module Fetched.
Record t := {
  sales : list SaleRec;
  dateRange : DateRange;
  count : nat
}.
End Fetched.

(** The local variables of [getSalesMetrics] that its loop updates. *)
Module Acc.
Record t := {
  totalRevenue : JS.Number;
  totalCost : JS.Number;
  totalTransactions : nat;
  totalItems : JS.Number;
  channels : list (string * nat);
  hourly : list nat
}.
End Acc.

Record SalesMetrics := {
  dateRange : string;
  totalRevenue : JS.Number;
  totalCost : JS.Number;
  profit : JS.Number;
  profitMargin : JS.Number;
  totalTransactions : nat;
  totalItems : JS.Number;
  avgSale : JS.Number;
  avgItems : JS.Number;
  channels : list (string * nat);
  hourly : list nat;
  peakHour : Z
}.

(** An entry of [productSales] in [getTopProducts]. *)
Module Product.
Record t := {
  itemId : option string;
  description : string;
  quantity : JS.Number;
  revenue : JS.Number
}.
End Product.

(** The [changes] object of [getComparison]. *)
Module Changes.
Record t := {
  revenue : JS.Number;
  transactions : JS.Number;
  avgSale : JS.Number
}.
End Changes.

Record ComparisonResult := {
  current : SalesMetrics;
  previous : SalesMetrics;
  changes : Changes.t
}.

(** ** Array helpers *)

(** [Math.max(...l)] on counters; [None] stands for the [-Infinity] of an
    empty argument list. *)
Definition Math_max (l : list nat) : option nat :=
  match l with
  | [] => None
  | x :: l' => Some (foldl Nat.max x l')
  end.

(** [l.indexOf(v)]: the first position holding [v], or [-1]. *)
Fixpoint indexOf (l : list nat) (v : option nat) : Z :=
  match l with
  | [] => (-1)%Z
  | x :: l' =>
      if bool_decide (Some x = v) then 0%Z
      else let r := indexOf l' v in
           if (r <? 0)%Z then (-1)%Z else (r + 1)%Z
  end.

(** [l.slice(0, limit)] for an integral [limit]. *)
Definition slice0 {A} (l : list A) (limit : Z) : list A :=
  let len := Z.of_nat (length l) in
  let final := if (limit <? 0)%Z then Z.max (len + limit) 0 else Z.min limit len in
  take (Z.to_nat final) l.

(** The stable sort: [after a b], the test [cmp(a, b) > 0], puts [b]
    first. *)
Section Sort.
Context {A : Type} (after : A -> A -> bool).

Fixpoint insertSorted (x : A) (l : list A) : list A :=
  match l with
  | [] => [x]
  | y :: l' => if after x y then y :: insertSorted x l' else x :: l
  end.

Definition sortBy (l : list A) : list A := foldr insertSorted [] l.

End Sort.

(** [l.sort(cmp)] as the language defines it.  When [cmp] is a consistent
    comparator for the elements of [l] ([cmp(a, b)] is never [NaN], each
    element is equal to itself, equality is symmetric and transitive, [<]
    and [>] are transitive, under the sign of [cmp(a, b)]) the result is
    the stable sort.  Otherwise the order is implementation-defined: the
    host gives every position of [l] a rank, and the elements come in the
    order of their ranks. *)
Section HostSort.
Context {A : Type} (cmp : A -> A -> JS.Number) (hostOrder : list A -> list nat).

Definition order (a b : A) : comparison := JS.sign (cmp a b).

Definition consistentAt (a b c : A) : bool :=
  negb (JS.isNaN (cmp a b))
  && bool_decide (order a a = Eq)
  && implb (bool_decide (order a b = Eq)) (bool_decide (order b a = Eq))
  && implb (bool_decide (order a b = Eq) && bool_decide (order b c = Eq))
           (bool_decide (order a c = Eq))
  && implb (bool_decide (order a b = Lt) && bool_decide (order b c = Lt))
           (bool_decide (order a c = Lt))
  && implb (bool_decide (order a b = Gt) && bool_decide (order b c = Gt))
           (bool_decide (order a c = Gt)).

Definition consistent (l : list A) : bool :=
  forallb (fun a => forallb (fun b => forallb (consistentAt a b) l) l) l.

(** The elements of [l] in the order of the ranks of their positions; a
    position without a rank has rank 0. *)
Definition reorder (ranks : list nat) (l : list A) : list A :=
  (sortBy (fun x y => (y.1 <? x.1)%nat)
          (imap (fun i a => (default 0%nat (ranks !! i), a)) l)).*2.

Definition sort (l : list A) : list A :=
  if consistent l then sortBy (fun a b => JS.gt (cmp a b) JS.zero) l
  else reorder (hostOrder l) l.

End HostSort.

(** ** The engine *)

Section Engine.

(** The configuration and the host: the shop, the reply of the POS API to
    a GET, the date window computed from the clock, and the hour of a
    completion time in the time zone of the host
    ([new Date(t).getHours()]): an hour below 24, or [None] for the [NaN]
    of a time that the host cannot parse. *)
Variable shopId : string.
Variable query : string -> list (string * string) -> Result Response.
Variable getDateRange : Z -> Z -> DateRange.
Variable getHours : string -> option (fin 24).

(** The order in which the [sort] of the host leaves the product table
    when the comparator is not consistent on it. *)
Variable sortOrder : list Product.t -> list nat.

Definition quote : string := String "034"%char EmptyString.

(** The parameters of the GET in [getSales]. *)
Definition saleParams (dateRange : DateRange) : list (string * string) :=
  [("completeTime", "><," ++ start dateRange ++ "," ++ end_ dateRange);
   ("completed", "true");
   ("shopID", shopId);
   ("load_relations",
    "[" ++ quote ++ "SaleLines" ++ quote ++ "," ++ quote ++ "Customer" ++ quote ++ "]")].

(** [getSales(daysAgo, daysSpan)] *)
Definition getSales (daysAgo daysSpan : Z) : Result Fetched.t :=
  let dateRange := getDateRange daysAgo daysSpan in
  data ← query "Sale.json" (saleParams dateRange);
  let sales :=
    match Sale data with
    | Many l => l
    | Single a => [a]
    | Absent => []
    end in
  mret {| Fetched.sales := sales;
          Fetched.dateRange := dateRange;
          Fetched.count := length sales |}.

(** *** [getSalesMetrics] *)

Definition initial : Acc.t :=
  {| Acc.totalRevenue := JS.zero;
     Acc.totalCost := JS.zero;
     Acc.totalTransactions := 0;
     Acc.totalItems := JS.zero;
     Acc.channels := [];
     Acc.hourly := replicate 24 0%nat |}.

(** The body of the inner [lines.forEach]. *)
Definition lineStep (a : Acc.t) (line : Line) : Acc.t :=
  let qty := parseFloatOr0 (unitQuantity line) in
  let revenue := parseFloatOr0 (calcSubtotal line) in
  let cost := (parseFloatOr0 (orElse (fifoCost line) (avgCost line)) * qty)%js in
  {| Acc.totalRevenue := (Acc.totalRevenue a + revenue)%js;
     Acc.totalCost := (Acc.totalCost a + cost)%js;
     Acc.totalTransactions := Acc.totalTransactions a;
     Acc.totalItems := (Acc.totalItems a + qty)%js;
     Acc.channels := Acc.channels a;
     Acc.hourly := Acc.hourly a |}.

(** [hourly[hour]++]: for the [NaN] of an unparsable time the statement
    sets a property named [NaN] on the array object and leaves the 24
    buckets as they are. *)
Definition bump (hour : option (fin 24)) (hourly : list nat) : list nat :=
  match hour with
  | Some h => alter S (fin_to_nat h) hourly
  | None => hourly
  end.

(** The body of [sales.forEach]; both [return]s leave the totals as they
    are. *)
Definition saleStep (a : Acc.t) (sale : SaleRec) : Acc.t :=
  if isVoided sale then a
  else
    let total := parseFloatOr0 (calcTotal sale) in
    if JS.le total JS.zero then a
    else
      let channel := classifyChannel sale in
      let hour := getHours (completeTime sale) in
      let counted :=
        {| Acc.totalRevenue := Acc.totalRevenue a;
           Acc.totalCost := Acc.totalCost a;
           Acc.totalTransactions := S (Acc.totalTransactions a);
           Acc.totalItems := Acc.totalItems a;
           Acc.channels :=
             Dict.set channel (default 0%nat (Dict.get channel (Acc.channels a)) + 1)%nat
                      (Acc.channels a);
           Acc.hourly := bump hour (Acc.hourly a) |} in
      foldl lineStep counted (linesOf sale).

(** The statements of [getSalesMetrics] after the loop. *)
Definition finish (dateStr : string) (a : Acc.t) : SalesMetrics :=
  let totalRevenue := Acc.totalRevenue a in
  let totalCost := Acc.totalCost a in
  let totalTransactions := Acc.totalTransactions a in
  let totalItems := Acc.totalItems a in
  let profit := (totalRevenue - totalCost)%js in
  let profitMargin :=
    if JS.gt totalRevenue JS.zero then (profit / totalRevenue * JS.hundred)%js
    else JS.zero in
  let avgSale :=
    if bool_decide (0 < totalTransactions)%nat
    then (totalRevenue / JS.ofNat totalTransactions)%js else JS.zero in
  let avgItems :=
    if bool_decide (0 < totalTransactions)%nat
    then (totalItems / JS.ofNat totalTransactions)%js else JS.zero in
  {| dateRange := dateStr;
     totalRevenue := totalRevenue;
     totalCost := totalCost;
     profit := profit;
     profitMargin := profitMargin;
     totalTransactions := totalTransactions;
     totalItems := totalItems;
     avgSale := avgSale;
     avgItems := avgItems;
     channels := Acc.channels a;
     hourly := Acc.hourly a;
     peakHour := indexOf (Acc.hourly a) (Math_max (Acc.hourly a)) |}.

(** What [getSalesMetrics] computes once the sales are fetched. *)
Definition summarize (dateStr : string) (sales : list SaleRec) : SalesMetrics :=
  finish dateStr (foldl saleStep initial sales).

Definition getSalesMetrics (daysAgo daysSpan : Z) : Result SalesMetrics :=
  fetched ← getSales daysAgo daysSpan;
  mret (summarize (dateStr (Fetched.dateRange fetched)) (Fetched.sales fetched)).

(** *** [getTopProducts] *)

(** The property key that an [itemID] is converted to. *)
Definition keyOf (itemId : option string) : string := default "undefined" itemId.

(** The object stored for an item on its first line. *)
Definition freshEntry (line : Line) : Product.t :=
  {| Product.itemId := itemID line;
     Product.description :=
       default "Unknown" (orElse (Item line ≫= description) None);
     Product.quantity := JS.zero;
     Product.revenue := JS.zero |}.

(** [entry.quantity += qty; entry.revenue += revenue] *)
Definition addLine (entry : Product.t) (line : Line) : Product.t :=
  let qty := parseFloatOr0 (unitQuantity line) in
  let revenue := parseFloatOr0 (calcSubtotal line) in
  {| Product.itemId := Product.itemId entry;
     Product.description := Product.description entry;
     Product.quantity := (Product.quantity entry + qty)%js;
     Product.revenue := (Product.revenue entry + revenue)%js |}.

(** The body of the inner [lines.forEach]: the entry is created on the
    first line of an item and then updated in place. *)
Definition productStep (productSales : list (string * Product.t)) (line : Line)
  : list (string * Product.t) :=
  let itemId := itemID line in
  let created :=
    match Dict.get (keyOf itemId) productSales with
    | Some _ => productSales
    | None => Dict.set (keyOf itemId) (freshEntry line) productSales
    end in
  match Dict.get (keyOf itemId) created with
  | Some entry => Dict.set (keyOf itemId) (addLine entry line) created
  | None => created
  end.

(** The body of [sales.forEach]. *)
Definition rankStep (productSales : list (string * Product.t)) (sale : SaleRec)
  : list (string * Product.t) :=
  if isVoided sale then productSales
  else foldl productStep productSales (linesOf sale).

(** The comparator [(a, b) => b.revenue - a.revenue]. *)
Definition revenueOrder (a b : Product.t) : JS.Number :=
  (Product.revenue b - Product.revenue a)%js.

(** The comparator is positive. *)
Definition lowerRevenue (a b : Product.t) : bool :=
  JS.gt (revenueOrder a b) JS.zero.

(** [Object.values(productSales).sort(...)] *)
Definition sortedValues (productSales : list (string * Product.t)) : list Product.t :=
  sort revenueOrder sortOrder (Dict.values productSales).

(** The sorted table after the loop. *)
Definition ranking (sales : list SaleRec) : list Product.t :=
  let productSales := foldl rankStep [] sales in
  sortedValues productSales.

(** What [getTopProducts] computes once the sales are fetched. *)
Definition rank (sales : list SaleRec) (limit : Z) : list Product.t :=
  slice0 (ranking sales) limit.

Definition getTopProducts (daysAgo daysSpan limit : Z) : Result (list Product.t) :=
  fetched ← getSales daysAgo daysSpan;
  mret (rank (Fetched.sales fetched) limit).

(** *** [getComparison] *)

(** [previous > 0 ? ((current - previous) / previous) * 100 : 0] *)
Definition percentChange (current previous : JS.Number) : JS.Number :=
  if JS.gt previous JS.zero
  then ((current - previous) / previous * JS.hundred)%js
  else JS.zero.

(** [period] is the argument, ['daily'] when it is omitted; [current] and
    [previous] stay [undefined] unless a branch assigns them. *)
Definition getComparison (arg : option string) : Result ComparisonResult :=
  let period := default "daily" arg in
  '(current, previous) ←
    (if bool_decide (period = "daily") then
       current ← getSalesMetrics 0 1;
       previous ← getSalesMetrics 1 1;
       mret (Some current, Some previous)
     else if bool_decide (period = "weekly") then
       current ← getSalesMetrics 0 7;
       previous ← getSalesMetrics 7 7;
       mret (Some current, Some previous)
     else if bool_decide (period = "monthly") then
       current ← getSalesMetrics 0 30;
       previous ← getSalesMetrics 30 30;
       mret (Some current, Some previous)
     else mret (None, None));
  match current, previous with
  | Some current, Some previous =>
      let revenueChange :=
        percentChange (totalRevenue current) (totalRevenue previous) in
      let transactionChange :=
        percentChange (JS.ofNat (totalTransactions current))
                      (JS.ofNat (totalTransactions previous)) in
      mret {| current := current;
              previous := previous;
              changes :=
                {| Changes.revenue := revenueChange;
                   Changes.transactions := transactionChange;
                   Changes.avgSale := (avgSale current - avgSale previous)%js |} |}
  | _, _ =>
      Throw (TypeError "Cannot read properties of undefined (reading 'totalRevenue')")
  end.

End Engine.

Arguments getSales shopId query getDateRange daysAgo daysSpan : assert.
Arguments summarize getHours dateStr sales : assert.
Arguments getSalesMetrics shopId query getDateRange getHours daysAgo daysSpan : assert.
Arguments getTopProducts shopId query getDateRange sortOrder daysAgo daysSpan limit : assert.
Arguments getComparison shopId query getDateRange getHours arg : assert.

(** ** A concrete host and a few records, for the examples *)

Module Sample.

Definition digitAt (i : nat) (t : string) : option nat :=
  c ← String.get i t; Z.to_nat <$> Parse.digitOf c.

(** The hour field of an ISO 8601 time, for a host whose zone is the one
    the time is written in; a text without an hour below 24 at that place
    is not a date. *)
Definition isoHour (t : string) : option (fin 24) :=
  tens ← digitAt 11 t;
  units ← digitAt 12 t;
  match decide (10 * tens + units < 24)%nat with
  | left H => Some (nat_to_fin H)
  | right _ => None
  end.

Definition window (daysAgo daysSpan : Z) : DateRange :=
  {| start := "2024-01-15T00:00:00-05:00";
     end_ := "2024-01-16T23:59:59-05:00";
     dateStr := "1/15/2024" |}.

(** An API that answers every sales query with [data]. *)
Definition api (data : Response) (endpoint : string) (params : list (string * string))
  : Result Response :=
  if bool_decide (endpoint = "Sale.json") then Ok data
  else Throw (UpstreamError "Request failed with status code 404").

Definition line (id qty subtotal cost : string) : Line :=
  {| itemID := Some id;
     unitQuantity := Some qty;
     calcSubtotal := Some subtotal;
     fifoCost := Some cost;
     avgCost := None;
     Item := Some {| description := Some ("Item " ++ id) |} |}.

Definition sale (isVoid total time : string) (customer : option CustomerRec)
  (lines : list Line) : SaleRec :=
  {| voided := Some isVoid;
     calcTotal := Some total;
     completeTime := time;
     Customer := customer;
     SaleLines := Some {| SaleLine := Many lines |} |}.

(** The scenario of the specification: a voided sale of 50 and a valid
    sale with subtotal 30 and cost 10. *)
Definition scenario : list SaleRec :=
  [ sale "true" "50.00" "2024-01-15T10:05:00-05:00" None [line "7" "1" "50.00" "20.00"];
    sale "false" "32.66" "2024-01-15T14:30:00-05:00" None [line "9" "2" "30.00" "5.00"] ].

(** A refund: the total and the line are negative. *)
Definition refund : SaleRec :=
  sale "false" "-12.00" "2024-01-15T16:45:00-05:00" None [line "9" "-1" "-12.00" "5.00"].

Definition reply (sales : list SaleRec) : Response := {| Sale := Many sales |}.

(** A host whose sort leaves an array as it is when the comparator is not
    consistent on it: every position has the same rank. *)
Definition keepOrder (l : list Product.t) : list nat := [].

(** A sale whose completion time is not a date. *)
Definition undated : SaleRec :=
  sale "false" "10.00" "not recorded" None [line "9" "1" "10.00" "4.00"].

Definition walkIn (time : string) : SaleRec :=
  sale "false" "10.00" time None [line "9" "1" "10.00" "4.00"].

(** Five sales after midnight and five after one o'clock. *)
Definition tie : list SaleRec :=
  replicate 5 (walkIn "2024-01-15T00:10:00-05:00")
  ++ replicate 5 (walkIn "2024-01-15T01:20:00-05:00").

(** Three items: A with revenue 50, B with 120, C with 80. *)
Definition abc : list SaleRec :=
  [ sale "false" "200.00" "2024-01-15T11:00:00-05:00" None
         [line "A" "1" "20.00" "8.00"; line "B" "2" "120.00" "30.00"];
    sale "false" "110.00" "2024-01-15T12:00:00-05:00" None
         [line "C" "4" "80.00" "10.00"; line "A" "2" "30.00" "8.00"] ].


(** A sale whose line has the text Infinity as its sub-total, and one
    whose line has the text -Infinity as its cost. *)
Definition boundless : SaleRec :=
  sale "false" "10.00" "2024-01-15T09:00:00-05:00" None [line "9" "1" "Infinity" "4.00"].

Definition costless : SaleRec :=
  sale "false" "10.00" "2024-01-15T09:00:00-05:00" None
       [line "9" "1" "10.00" "-Infinity"].

(** Three items in one sale; the sub-total of item B is not a number. *)
Definition unpriced : list SaleRec :=
  [ sale "false" "15.00" "2024-01-15T11:00:00-05:00" None
         [line "A" "1" "5.00" "2.00"; line "B" "1" "n/a" "2.00";
          line "C" "1" "10.00" "2.00"] ].

Definition named (first last : string) : option CustomerRec :=
  Some {| firstName := Some first; lastName := Some last |}.

(** A delivery order, a regular customer and a walk-in sale. *)
Definition doorDashOrder : SaleRec :=
  sale "false" "25.00" "2024-01-15T19:00:00-05:00" (named "DoorDash" "Orders")
       [line "9" "1" "25.00" "9.00"].

Definition regularOrder : SaleRec :=
  sale "false" "25.00" "2024-01-15T19:00:00-05:00" (named "Jane" "Doe")
       [line "9" "1" "25.00" "9.00"].

(** A host whose windows differ, and an API that answers the query of
    the window of today with [today] and every other one with [before]. *)
Definition days (daysAgo daysSpan : Z) : DateRange :=
  if (daysAgo =? 0)%Z then window daysAgo daysSpan
  else {| start := "2024-01-14T00:00:00-05:00";
          end_ := "2024-01-15T23:59:59-05:00";
          dateStr := "1/14/2024" |}.

Definition sales (today before : list SaleRec) (endpoint : string)
  (params : list (string * string)) : Result Response :=
  if bool_decide (endpoint = "Sale.json") then
    if bool_decide (params = saleParams "1" (days 0 1)) then Ok (reply today)
    else Ok (reply before)
  else Throw (UpstreamError "Request failed with status code 404").

(** What [getComparison] returns when both windows hold the scenario. *)
Definition comparison : ComparisonResult :=
  let m := summarize isoHour "1/15/2024" scenario in
  {| current := m;
     previous := m;
     changes :=
       {| Changes.revenue := percentChange (totalRevenue m) (totalRevenue m);
          Changes.transactions :=
            percentChange (JS.ofNat (totalTransactions m))
                          (JS.ofNat (totalTransactions m));
          Changes.avgSale := (avgSale m - avgSale m)%js |} |}.

(** What [getComparison] returns on the first day of business: the
    scenario today, no sale yesterday. *)
Definition firstDay : ComparisonResult :=
  let cur := summarize isoHour "1/15/2024" scenario in
  let prev := summarize isoHour "1/14/2024" [] in
  {| current := cur;
     previous := prev;
     changes :=
       {| Changes.revenue := percentChange (totalRevenue cur) (totalRevenue prev);
          Changes.transactions :=
            percentChange (JS.ofNat (totalTransactions cur))
                          (JS.ofNat (totalTransactions prev));
          Changes.avgSale := (avgSale cur - avgSale prev)%js |} |}.

End Sample.

#[global] Instance SalesMetrics_eq_dec : EqDecision SalesMetrics.
Proof. solve_decision. Defined.

#[global] Instance Product_eq_dec : EqDecision Product.t.
Proof. solve_decision. Defined.

(** The host reply with every voided sale taken out. *)
Definition withoutVoided (data : Response) : Response :=
  {| Sale :=
       match Sale data with
       | Many l => Many (filter (fun sale => isVoided sale = false) l)
       | Single a => if isVoided a then Many [] else Single a
       | Absent => Absent
       end |}.

Definition mapReply (f : Response -> Response)
  (query : string -> list (string * string) -> Result Response)
  : string -> list (string * string) -> Result Response :=
  fun endpoint params =>
    match query endpoint params with
    | Ok data => Ok (f data)
    | Throw e => Throw e
    end.

(** [sale.voided] is not ['true'] and [total <= 0] holds. *)
Definition nonPositiveTotal (sale : SaleRec) : bool :=
  negb (isVoided sale) && JS.le (parseFloatOr0 (calcTotal sale)) JS.zero.

(** The loop body as the open question of the specification reads it: a
    sale with a non-positive total is not counted, and its line items are
    accumulated all the same. *)
Definition saleStep_linesUnguarded (getHours : string -> option (fin 24))
  (a : Acc.t) (sale : SaleRec) : Acc.t :=
  if nonPositiveTotal sale then foldl lineStep a (linesOf sale)
  else saleStep getHours a sale.

Definition summarize_linesUnguarded (getHours : string -> option (fin 24))
  (dateStr : string) (sales : list SaleRec) : SalesMetrics :=
  finish dateStr (foldl (saleStep_linesUnguarded getHours) initial sales).

(** The platform list: a substring of the folded name and the channel
    it stands for, in the order in which they are tried. *)
Definition platforms : list (string * string) :=
  [ ("ubereats", "UberEats");
    ("uber eats", "UberEats");
    ("doordash", "DoorDash");
    ("grubhub", "GrubHub");
    ("cityhive", "CityHive") ].

(** The channel of a folded name: the first platform whose substring it
    contains, ["In-Store"] when there is none. *)
Definition channelOfName (name : string) : string :=
  match List.find (fun platform => Str.includes name platform.1) platforms with
  | Some platform => platform.2
  | None => "In-Store"
  end.

(** The policy in the words of the specification: no customer is
    ["In-Store"]; otherwise the first and the last name are concatenated,
    case-folded and matched against the platform list. *)
Definition channelPolicy (sale : SaleRec) : string :=
  match Customer sale with
  | None => "In-Store"
  | Some customer =>
      channelOfName
        (Str.toLowerCase (orEmpty (firstName customer) ++ " " ++ orEmpty (lastName customer)))
  end.

(** A pattern that neither starts nor ends with white space. *)
Definition startsClean (p : string) : bool :=
  match p with
  | String c _ => negb (Str.isSpace c)
  | EmptyString => false
  end.

Fixpoint endsClean (p : string) : bool :=
  match p with
  | EmptyString => true
  | String c EmptyString => negb (Str.isSpace c)
  | String _ p' => endsClean p'
  end.

(** The line items of the sales that are not voided, in the order of the
    reply. *)
Definition soldLines (sales : list SaleRec) : list Line :=
  concat (linesOf <$> filter (fun sale => isVoided sale = false) sales).

Definition lineKey (line : Line) : string := keyOf (itemID line).
Definition lineQuantity (line : Line) : JS.Number := parseFloatOr0 (unitQuantity line).
Definition lineRevenue (line : Line) : JS.Number := parseFloatOr0 (calcSubtotal line).

(** The sum of [f] over [lines], added up from 0 in the order of the
    lines. *)
Definition total (f : Line -> JS.Number) (lines : list Line) : JS.Number :=
  foldl (fun acc line => (acc + f line)%js) JS.zero lines.

(** The accumulated entry of an item: the identifier and the description
    of its first line, the quantity and the revenue of all its lines;
    [None] when no line has that key. *)
Definition entryOf (lines : list Line) (key : string) : option Product.t :=
  match filter (fun line => lineKey line = key) lines with
  | [] => None
  | (first :: _) as own =>
      Some {| Product.itemId := itemID first;
              Product.description :=
                default "Unknown" (orElse (Item first ≫= description) None);
              Product.quantity := total lineQuantity own;
              Product.revenue := total lineRevenue own |}
  end.

(** [a] does not rank below [b]: the revenue of [b] is at most that of
    [a]. *)
Definition revenueAtLeast (a b : Product.t) : Prop :=
  JS.le (Product.revenue b) (Product.revenue a) = true.

(** The invariant of the loop of [getSalesMetrics]: the counters agree
    after every sale, [unplaced] being the number of sales counted so far
    without a bucket of their own. *)
Definition countsAgree (unplaced : nat) (a : Acc.t) : Prop :=
  length (Acc.hourly a) = 24%nat /\
  Acc.totalTransactions a = sum_list ((Acc.channels a).*2) /\
  Acc.totalTransactions a = (sum_list (Acc.hourly a) + unplaced)%nat.

(** The periods for which [getComparison] has a branch. *)
Definition knownPeriod (period : string) : Prop :=
  period = "daily" \/ period = "weekly" \/ period = "monthly".

(** ** The aggregates as counts and sums *)

(** A sale that the loop of [getSalesMetrics] counts: neither of its two
    [return]s is taken. *)
Definition counted (sale : SaleRec) : bool :=
  negb (isVoided sale) && negb (JS.le (parseFloatOr0 (calcTotal sale)) JS.zero).

(** The counted sales completed in hour [h] of the host, and those of
    channel [c]. *)
Definition hourIndex (hour : option (fin 24)) : option nat :=
  match hour with
  | Some h => Some (fin_to_nat h)
  | None => None
  end.

Definition inHour (getHours : string -> option (fin 24)) (h : nat) (sale : SaleRec)
  : bool :=
  counted sale && bool_decide (hourIndex (getHours (completeTime sale)) = Some h).

(** The counted sales whose completion time the host cannot parse. *)
Definition timeless (getHours : string -> option (fin 24)) (sale : SaleRec) : bool :=
  counted sale && bool_decide (getHours (completeTime sale) = None).

Definition inChannel (c : string) (sale : SaleRec) : bool :=
  counted sale && bool_decide (classifyChannel sale = c).

Definition countIf (P : SaleRec -> bool) (sales : list SaleRec) : nat :=
  length (filter (fun sale => P sale = true) sales).

(** The line items of the counted sales, in the order of the reply. *)
Definition countedLines (sales : list SaleRec) : list Line :=
  concat (linesOf <$> filter (fun sale => counted sale = true) sales).

(** [parseFloat(line.fifoCost || line.avgCost || 0) * qty] *)
Definition lineCost (line : Line) : JS.Number :=
  (parseFloatOr0 (orElse (fifoCost line) (avgCost line)) * lineQuantity line)%js.

(** The five channel names. *)
Definition channelNames : list string :=
  ["In-Store"; "UberEats"; "DoorDash"; "GrubHub"; "CityHive"].

(** The metrics of a window without a counted sale. *)
Definition zeroMetrics (dateStr : string) : SalesMetrics :=
  {| dateRange := dateStr;
     totalRevenue := JS.zero;
     totalCost := JS.zero;
     profit := JS.zero;
     profitMargin := JS.zero;
     totalTransactions := 0;
     totalItems := JS.zero;
     avgSale := JS.zero;
     avgItems := JS.zero;
     channels := [];
     hourly := replicate 24 0%nat;
     peakHour := 0 |}.

(** The number of distinct item keys among [lines]. *)
Definition itemCount (lines : list Line) : nat :=
  length (remove_dups (lineKey <$> lines)).

(** The number of days of the windows that [getComparison] compares. *)
Definition periodSpan (period : string) : option Z :=
  if bool_decide (period = "daily") then Some 1%Z
  else if bool_decide (period = "weekly") then Some 7%Z
  else if bool_decide (period = "monthly") then Some 30%Z
  else None.

(** ** Dates of the host ([getDateRange])

    A [Date] is modelled by what the local getters and setters of the host
    see: the number of its calendar day and its time of day.  The calendar
    of the host ([civil], the year, the month index and the day of the
    month of a day number), the wall clock of the business zone read as a
    local date ([estDate]), the formatted time with the zone name
    ([zoneStamp]) and [toLocaleDateString] are given by the host.  Local
    times that the zone of the host skips are not modelled. *)

Module Clock.

Record Date := {
  dayNumber : Z;
  hours : nat;
  minutes : nat;
  seconds : nat;
  milliseconds : nat
}.

Record Host := {
  civil : Z -> nat * nat * nat;
  estDate : Date;
  zoneStamp : string;
  toLocaleDateString : Date -> string
}.

(** [String(n)] for a counter. *)
Definition decimal (n : nat) : string :=
  NilZero.string_of_uint (Nat.to_uint n).

(** [pad] repeated and cut to [n] characters. *)
Fixpoint fill (n : nat) (pad rest : string) : string :=
  match n with
  | O => ""
  | S n' =>
      match rest with
      | String c rest' => String c (fill n' pad rest')
      | EmptyString =>
          match pad with
          | String c pad' => String c (fill n' pad pad')
          | EmptyString => ""
          end
      end
  end.

(** [s.padStart(n, pad)] *)
Definition padStart (n : nat) (pad s : string) : string :=
  if (n <=? String.length s)%nat then s
  else fill (n - String.length s) pad pad ++ s.

Section Host.
Variable host : Host.

Definition getFullYear (d : Date) : nat := (civil host (dayNumber d)).1.1.
Definition getMonth (d : Date) : nat := (civil host (dayNumber d)).1.2.
Definition getDate (d : Date) : nat := (civil host (dayNumber d)).2.

(** [d.setDate(v)]: the day of the month is set, and a value outside the
    month carries over into the neighbouring months. *)
Definition setDate (v : Z) (d : Date) : Date :=
  {| dayNumber := dayNumber d - Z.of_nat (getDate d) + v;
     hours := hours d;
     minutes := minutes d;
     seconds := seconds d;
     milliseconds := milliseconds d |}.

(** [d.setHours(h, min, s, ms)] *)
Definition setHours (h min s ms : nat) (d : Date) : Date :=
  {| dayNumber := dayNumber d;
     hours := h;
     minutes := min;
     seconds := s;
     milliseconds := ms |}.

(** The offset chosen from the zone name in the formatted time. *)
Definition offset : string :=
  let isDST := Str.includes (zoneStamp host) "EDT" in
  if isDST then "-04:00" else "-05:00".

Definition formatDate (date : Date) : string :=
  let y := getFullYear date in
  let m := padStart 2 "0" (decimal (getMonth date + 1)) in
  let d := padStart 2 "0" (decimal (getDate date)) in
  let h := padStart 2 "0" (decimal (hours date)) in
  let min := padStart 2 "0" (decimal (minutes date)) in
  let s := padStart 2 "0" (decimal (seconds date)) in
  decimal y ++ "-" ++ m ++ "-" ++ d ++ "T" ++ h ++ ":" ++ min ++ ":" ++ s ++ offset.

(** [getDateRange(daysAgo, daysSpan)] *)
Definition getDateRange (daysAgo daysSpan : Z) : DateRange :=
  let startDate := estDate host in
  let startDate := setDate (Z.of_nat (getDate startDate) - daysAgo) startDate in
  let startDate := setHours 0 0 0 0 startDate in
  let endDate := startDate in
  let endDate := setDate (Z.of_nat (getDate endDate) + daysSpan) endDate in
  let endDate := setHours 23 59 59 999 endDate in
  {| start := formatDate startDate;
     end_ := formatDate endDate;
     dateStr := toLocaleDateString host startDate |}.

(** The date part of [formatDate] for the day [n]. *)
Definition dayText (n : Z) : string :=
  let '(y, m, d) := civil host n in
  decimal y ++ "-" ++ padStart 2 "0" (decimal (m + 1)) ++ "-" ++ padStart 2 "0" (decimal d).

End Host.

End Clock.

(** A host for the examples: the proleptic Gregorian calendar on day
    numbers counted from 1 January 1970, on 15 January 2024 at half past
    two in the afternoon, Eastern Standard Time. *)
Module SampleHost.

Definition civilFromDays (n : Z) : nat * nat * nat :=
  let z := (n + 719468)%Z in
  let era := (z / 146097)%Z in
  let doe := (z - era * 146097)%Z in
  let yoe := ((doe - doe / 1460 + doe / 36524 - doe / 146096) / 365)%Z in
  let doy := (doe - (365 * yoe + yoe / 4 - yoe / 100))%Z in
  let mp := ((5 * doy + 2) / 153)%Z in
  let d := (doy - (153 * mp + 2) / 5 + 1)%Z in
  let m := (if (mp <? 10)%Z then mp + 3 else mp - 9)%Z in
  let y := (yoe + era * 400 + (if (m <=? 2)%Z then 1 else 0))%Z in
  (Z.to_nat y, Z.to_nat (m - 1), Z.to_nat d).

Definition localeDate (d : Clock.Date) : string :=
  let '(y, m, day) := civilFromDays (Clock.dayNumber d) in
  Clock.decimal (m + 1) ++ "/" ++ Clock.decimal day ++ "/" ++ Clock.decimal y.

Definition host : Clock.Host :=
  {| Clock.civil := civilFromDays;
     Clock.estDate :=
       {| Clock.dayNumber := 19737;
          Clock.hours := 14;
          Clock.minutes := 30;
          Clock.seconds := 5;
          Clock.milliseconds := 0 |};
     Clock.zoneStamp := "1/15/2024, 2:30:05 PM EST";
     Clock.toLocaleDateString := localeDate |}.

(** The same host on the fourth of July. *)
Definition summer : Clock.Host :=
  {| Clock.civil := civilFromDays;
     Clock.estDate :=
       {| Clock.dayNumber := 19908;
          Clock.hours := 9;
          Clock.minutes := 0;
          Clock.seconds := 0;
          Clock.milliseconds := 0 |};
     Clock.zoneStamp := "7/4/2024, 9:00:00 AM EDT";
     Clock.toLocaleDateString := localeDate |}.

End SampleHost.

(** ** Search ([searchSales]) *)

(** A field that is a string or missing, inside a template literal. *)
Definition templateText (x : option string) : string := default "undefined" x.

(** [line.Item && line.Item.description], folded to lower case. *)
Definition lineText (line : Line) : option string :=
  Str.toLowerCase <$> orElse (Item line ≫= description) None.

(** The callback of [sales.filter]; [term] is already in lower case. *)
Definition matchesTerm (term : string) (sale : SaleRec) : bool :=
  match Customer sale with
  | Some customer =>
      let name :=
        Str.toLowerCase
          (templateText (firstName customer) ++ " " ++ templateText (lastName customer)) in
      Str.includes name term
  | None => false
  end
  || existsb (fun line =>
                match lineText line with
                | Some text => Str.includes text term
                | None => false
                end) (linesOf sale).

(** [searchSales(searchTerm, daysAgo, daysSpan)] *)
Definition searchSales (shopId : string)
  (query : string -> list (string * string) -> Result Response)
  (getDateRange : Z -> Z -> DateRange)
  (searchTerm : string) (daysAgo daysSpan : Z) : Result (list SaleRec) :=
  fetched ← getSales shopId query getDateRange daysAgo daysSpan;
  let term := Str.toLowerCase searchTerm in
  mret (filter (fun sale => matchesTerm term sale = true) (Fetched.sales fetched)).

(** A sale with something to search in: a customer, or a line whose item
    has a non-empty description. *)
Definition searchable (sale : SaleRec) : bool :=
  bool_decide (is_Some (Customer sale))
  || existsb (fun line => bool_decide (is_Some (lineText line))) (linesOf sale).

(** ** The query router ([getIntelligentResponse]) *)

Definition newline : string := String "010"%char EmptyString.

(** [String(z)] for an integer. *)
Definition integerText (z : Z) : string := NilZero.string_of_int (Z.to_int z).

Definition fallbackText : string :=
  "I can fetch that data for you! Please specify what you'd like to know.".

Section Router.

(** The engine, and the two conversions of a number to text that the
    language provides: [x.toFixed(digits)] and [String(x)]. *)
Variable shopId : string.
Variable query : string -> list (string * string) -> Result Response.
Variable getDateRange : Z -> Z -> DateRange.
Variable getHours : string -> option (fin 24).
Variable sortOrder : list Product.t -> list nat.
Variable toFixed : nat -> JS.Number -> string.
Variable numberText : JS.Number -> string.

(** [x > 0 ? '+' : ''] *)
Definition plusSign (x : JS.Number) : string :=
  if JS.gt x JS.zero then "+" else "".

(** The body of [topProducts.forEach((p, i) => ...)], from index [i]. *)
Fixpoint productLines (i : nat) (products : list Product.t) : string :=
  match products with
  | [] => ""
  | p :: rest =>
      (Clock.decimal (i + 1) ++ ". " ++ Product.description p ++ ": $"
       ++ toFixed 2 (Product.revenue p) ++ " (" ++ numberText (Product.quantity p)
       ++ " units)" ++ newline)
      ++ productLines (S i) rest
  end.

(** The body of [Object.entries(metrics.channels).forEach(...)]. *)
Fixpoint channelLines (entries : list (string * nat)) : string :=
  match entries with
  | [] => ""
  | (channel, count) :: rest =>
      ("• " ++ channel ++ ": " ++ Clock.decimal count ++ " orders" ++ newline)
      ++ channelLines rest
  end.

Definition todaySection (data : string) (question : string) : Result string :=
  if Str.includes question "today" then
    metrics ← getSalesMetrics shopId query getDateRange getHours 0 1;
    let data := data ++ "📊 TODAY'S PERFORMANCE:" ++ newline in
    let data := data ++ "• Revenue: $" ++ toFixed 2 (totalRevenue metrics) ++ newline in
    let data :=
      data ++ "• Transactions: " ++ Clock.decimal (totalTransactions metrics) ++ newline in
    let data := data ++ "• Avg Sale: $" ++ toFixed 2 (avgSale metrics) ++ newline in
    let data :=
      data ++ "• Profit: $" ++ toFixed 2 (profit metrics) ++ " ("
      ++ toFixed 1 (profitMargin metrics) ++ "%)" ++ newline in
    let data :=
      data ++ "• Peak Hour: " ++ integerText (peakHour metrics) ++ ":00"
      ++ newline ++ newline in
    if Str.includes question "compare" || Str.includes question "yesterday" then
      comparison ← getComparison shopId query getDateRange getHours (Some "daily");
      let data := data ++ "📈 VS YESTERDAY:" ++ newline in
      let data :=
        data ++ "• Revenue: " ++ plusSign (Changes.revenue (changes comparison))
        ++ toFixed 1 (Changes.revenue (changes comparison)) ++ "%" ++ newline in
      let data :=
        data ++ "• Transactions: " ++ plusSign (Changes.transactions (changes comparison))
        ++ toFixed 1 (Changes.transactions (changes comparison)) ++ "%"
        ++ newline ++ newline in
      mret data
    else mret data
  else mret data.

Definition topSection (data : string) (question : string) : Result string :=
  if Str.includes question "top" || Str.includes question "best"
     || Str.includes question "selling" then
    topProducts ← getTopProducts shopId query getDateRange sortOrder 0 1 5;
    let data := data ++ "🏆 TOP PRODUCTS TODAY:" ++ newline in
    let data := data ++ productLines 0 topProducts in
    mret (data ++ newline)
  else mret data.

Definition weekSection (data : string) (question : string) : Result string :=
  if Str.includes question "week" then
    metrics ← getSalesMetrics shopId query getDateRange getHours 0 7;
    let data := data ++ "📅 THIS WEEK:" ++ newline in
    let data := data ++ "• Revenue: $" ++ toFixed 2 (totalRevenue metrics) ++ newline in
    let data :=
      data ++ "• Transactions: " ++ Clock.decimal (totalTransactions metrics) ++ newline in
    mret (data ++ "• Profit: $" ++ toFixed 2 (profit metrics) ++ newline ++ newline)
  else mret data.

Definition channelSection (data : string) (question : string) : Result string :=
  if Str.includes question "channel" || Str.includes question "delivery" then
    metrics ← getSalesMetrics shopId query getDateRange getHours 0 1;
    let data := data ++ "🚚 CHANNEL BREAKDOWN:" ++ newline in
    let data := data ++ channelLines (channels metrics) in
    mret (data ++ newline)
  else mret data.

(** [getIntelligentResponse(userQuestion)]; the four [if] statements
    append to [data] in turn. *)
Definition getIntelligentResponse (userQuestion : string) : Result string :=
  let question := Str.toLowerCase userQuestion in
  let data := "" in
  data ← todaySection data question;
  data ← topSection data question;
  data ← weekSection data question;
  data ← channelSection data question;
  mret (if bool_decide (data = "") then fallbackText else data).

End Router.

(** The words that make [getIntelligentResponse] fetch something. *)
Definition routerKeywords : list string :=
  ["today"; "top"; "best"; "selling"; "week"; "channel"; "delivery"].

(** ** The bot: detection of a business query ([isBusinessQuery]) *)

Definition businessKeywords : list string :=
  [ "sales"; "revenue"; "profit"; "transaction"; "customer"; "product";
    "selling"; "today"; "yesterday"; "week"; "month"; "performance";
    "channel"; "delivery"; "ubereats"; "doordash"; "compare"; "top";
    "best"; "worst"; "average"; "total"; "margin"; "cost"; "price" ].

Definition isBusinessQuery (message : string) : bool :=
  let lowerMessage := Str.toLowerCase message in
  existsb (fun keyword => Str.includes lowerMessage keyword) businessKeywords.

(** A section of the reply either leaves the text as it is, when its
    keywords are missing, or appends a block that starts with the first
    byte of its pictogram. *)
Definition appended (data data' : string) (asked : bool) : Prop :=
  if asked then exists block, data' = data ++ String "240" block else data' = data.

(** ** Number formats of the samples

    [x.toFixed(digits)] and [String(x)] for the numbers of the samples,
    which are decimal fractions below [10^21]: the value is rounded to
    [digits] places, a half away from zero, and whole numbers are written
    without a fraction. *)

Module Format.

Definition splitAt (n : nat) (s : string) : string * string :=
  (String.substring 0 (String.length s - n) s,
   String.substring (String.length s - n) n s).

Definition fixedText (digits : nat) (q : Qc) : string :=
  let den := Z.pos (Qden q) in
  let n := Z.to_nat ((2 * Z.abs (Qnum q) * 10 ^ Z.of_nat digits + den) / (2 * den)) in
  let text := Clock.padStart (S digits) "0" (Clock.decimal n) in
  let sign := if bool_decide (q < 0)%Qc then "-" else "" in
  match digits with
  | O => sign ++ text
  | _ => let (whole, fraction) := splitAt digits text in
         sign ++ whole ++ "." ++ fraction
  end.

Definition toFixed (digits : nat) (x : JS.Number) : string :=
  match x with
  | JS.Fin q => fixedText digits q
  | JS.PInf => "Infinity"
  | JS.NInf => "-Infinity"
  | JS.NaN => "NaN"
  end.

Definition numberText (x : JS.Number) : string :=
  match x with
  | JS.Fin q =>
      if bool_decide (Qden q = 1%positive) then integerText (Qnum q)
      else fixedText 2 q
  | JS.PInf => "Infinity"
  | JS.NInf => "-Infinity"
  | JS.NaN => "NaN"
  end.

End Format.

(** ** The bot ([server.js]) *)

Definition quoteMark : string := String "034"%char EmptyString.

(** [error.message] *)
Definition messageOf (e : Error) : string :=
  match e with
  | UpstreamError msg => msg
  | TypeError msg => msg
  end.

(** [promise.catch(e => null)] *)
Definition orNull {A : Type} (r : Result A) : option A :=
  match r with
  | Ok a => Some a
  | Throw _ => None
  end.

(** The comparator [(a, b) => b[1] - a[1]] of the channel breakdown is
    positive.  On counters it is a consistent comparator, so the sort of
    the breakdown is the stable sort. *)
Definition fewerOrders (a b : string * nat) : bool := (a.2 <? b.2)%nat.

(** The configured engine: [lightspeedIntelligence] is either [null] or an
    instance of the class with its shop and its connection to the POS
    API. *)
Record Instance := {
  shop_id : string;
  request : string -> list (string * string) -> Result Response
}.

Section Bot.

(** The host (clock and zone), the number formats of the language, the
    system prompt of the moment, and the call of the language model. *)
Variable getDateRange : Z -> Z -> DateRange.
Variable getHours : string -> option (fin 24).
Variable sortOrder : list Product.t -> list nat.
Variable toFixed : nat -> JS.Number -> string.
Variable numberText : JS.Number -> string.
Variable currentTime : string.
Variable systemPrompt : string.
Variable create : string -> string -> Result string.
Variable lightspeedIntelligence : option Instance.

(** [getTodaysSalesSummary()] *)
Definition getTodaysSalesSummary : string :=
  match lightspeedIntelligence with
  | None => "Sales data unavailable - Lightspeed not configured."
  | Some ls =>
      match getSalesMetrics (shop_id ls) (request ls) getDateRange getHours 0 1 with
      | Ok metrics =>
          "📊 Today's Sales (as of " ++ currentTime ++ "):" ++ newline
          ++ "• Transactions: " ++ Clock.decimal (totalTransactions metrics) ++ newline
          ++ "• Revenue: $" ++ toFixed 2 (totalRevenue metrics) ++ newline
          ++ "• Avg Sale: $" ++ toFixed 2 (avgSale metrics) ++ newline
          ++ "• Profit: $" ++ toFixed 2 (profit metrics) ++ " ("
          ++ toFixed 1 (profitMargin metrics) ++ "% margin)" ++ newline
          ++ "• Items Sold: " ++ toFixed 0 (totalItems metrics) ++ newline
          ++ "• Peak Hour: " ++ integerText (peakHour metrics) ++ ":00"
      | Throw _ => "Error fetching sales data. Please check Lightspeed connection."
      end
  end.

(** The lines of the channel breakdown, one per entry. *)
Fixpoint shareLines (totalTransactions : nat) (entries : list (string * nat)) : string :=
  match entries with
  | [] => ""
  | (channel, count) :: rest =>
      let percentage :=
        toFixed 1 (JS.ofNat count / JS.ofNat totalTransactions * JS.hundred)%js in
      ("• " ++ channel ++ ": " ++ Clock.decimal count ++ " orders (" ++ percentage
       ++ "%)" ++ newline)
      ++ shareLines totalTransactions rest
  end.

(** The body of [topProducts.slice(0, 5).forEach((p, i) => ...)]. *)
Fixpoint sellerLines (i : nat) (products : list Product.t) : string :=
  match products with
  | [] => ""
  | p :: rest =>
      (Clock.decimal (i + 1) ++ ". " ++ Product.description p ++ ": $"
       ++ toFixed 2 (Product.revenue p) ++ " revenue (" ++ numberText (Product.quantity p)
       ++ " units)" ++ newline)
      ++ sellerLines (S i) rest
  end.

(** The text [businessData] that [processWithClaude] builds from the
    three settled fetches; [None] is the [null] of a failed one. *)
Definition businessData
  (todayMetrics : option SalesMetrics) (topProducts : option (list Product.t))
  (comparison : option ComparisonResult) : string :=
  let businessData := "" in
  let businessData :=
    match todayMetrics with
    | Some m =>
        let now := currentTime in
        let businessData :=
          businessData ++ "📊 TODAY'S PERFORMANCE (as of " ++ now ++ "):" ++ newline in
        let businessData :=
          businessData ++ "• Revenue: $" ++ toFixed 2 (totalRevenue m) ++ newline in
        let businessData :=
          businessData ++ "• Transactions: " ++ Clock.decimal (totalTransactions m)
          ++ newline in
        let businessData :=
          businessData ++ "• Average Sale: $" ++ toFixed 2 (avgSale m) ++ newline in
        let businessData :=
          businessData ++ "• Profit: $" ++ toFixed 2 (profit m) ++ " ("
          ++ toFixed 1 (profitMargin m) ++ "% margin)" ++ newline in
        let businessData :=
          businessData ++ "• Items Sold: " ++ toFixed 0 (totalItems m) ++ newline in
        let businessData :=
          businessData ++ "• Avg Items/Sale: " ++ toFixed 1 (avgItems m) ++ newline in
        let businessData :=
          businessData ++ "• Peak Sales Hour: " ++ integerText (peakHour m) ++ ":00"
          ++ newline ++ newline in
        if (0 <? length (channels m))%nat then
          let businessData := businessData ++ "🚚 CHANNEL BREAKDOWN:" ++ newline in
          let businessData :=
            businessData
            ++ shareLines (totalTransactions m) (sortBy fewerOrders (channels m)) in
          businessData ++ newline
        else businessData
    | None => businessData
    end in
  let businessData :=
    match comparison with
    | Some c =>
        let businessData := businessData ++ "📈 COMPARED TO YESTERDAY:" ++ newline in
        let businessData :=
          businessData ++ "• Revenue Change: " ++ plusSign (Changes.revenue (changes c))
          ++ toFixed 1 (Changes.revenue (changes c)) ++ "%" ++ newline in
        let businessData :=
          businessData ++ "• Transaction Change: "
          ++ plusSign (Changes.transactions (changes c))
          ++ toFixed 1 (Changes.transactions (changes c)) ++ "%" ++ newline in
        businessData ++ "• Avg Sale Change: $" ++ plusSign (Changes.avgSale (changes c))
        ++ toFixed 2 (Changes.avgSale (changes c)) ++ newline ++ newline
    | None => businessData
    end in
  match topProducts with
  | Some products =>
      if (0 <? length products)%nat then
        let businessData := businessData ++ "🏆 TOP SELLING PRODUCTS TODAY:" ++ newline in
        let businessData := businessData ++ sellerLines 0 (slice0 products 5) in
        businessData ++ newline
      else businessData
  | None => businessData
  end.

(** The prompt that wraps the data and the question. *)
Definition dataPrompt (businessData userMessage : string) : string :=
  "LIVE BUSINESS DATA:" ++ newline ++ businessData ++ newline
  ++ "━━━━━━━━━━━━━━━━━━━━━━━━━━━━━━━━━━━━━━" ++ newline ++ newline
  ++ "USER QUESTION: " ++ quoteMark ++ userMessage ++ quoteMark ++ newline ++ newline
  ++ "Please analyze the data above and answer the user's question. Provide insights, trends, and actionable recommendations based on the data. Be conversational and helpful.".

(** The user prompt of [processWithClaude]: the three fetches run with
    their errors turned into [null]. *)
Definition userPrompt (userMessage : string) (includeContext : bool) : string :=
  match lightspeedIntelligence with
  | Some ls =>
      if includeContext || isBusinessQuery userMessage then
        let todayMetrics :=
          orNull (getSalesMetrics (shop_id ls) (request ls) getDateRange getHours 0 1) in
        let topProducts :=
          orNull (getTopProducts (shop_id ls) (request ls) getDateRange sortOrder 0 1 10) in
        let comparison :=
          orNull (getComparison (shop_id ls) (request ls) getDateRange getHours
                    (Some "daily")) in
        let businessData := businessData todayMetrics topProducts comparison in
        if bool_decide (businessData = "") then userMessage
        else dataPrompt businessData userMessage
      else userMessage
  | None => userMessage
  end.

(** [processWithClaude(userMessage, includeContext)] *)
Definition processWithClaude (userMessage : string) (includeContext : bool) : string :=
  match create systemPrompt (userPrompt userMessage includeContext) with
  | Ok text => text
  | Throw error => "❌ Error processing your request: " ++ messageOf error
  end.

End Bot.

(** ** The mention handler

    [text.replace(/<@[A-Z0-9]+>/g, '')]: the pattern matches at a position
    when the text there is [<@], a longest run of one or more characters of
    [A-Z0-9], and [>]; a shorter run cannot match, since the character
    after it is still one of the run.  The scan restarts after each
    match. *)

Definition isIdChar (c : ascii) : bool :=
  let n := N_of_ascii c in
  ((65 <=? n) && (n <=? 90) || (48 <=? n) && (n <=? 57))%N.

Fixpoint idRun (s : string) : nat :=
  match s with
  | String c s' => if isIdChar c then S (idRun s') else O
  | EmptyString => O
  end.

(** The length of the match at the beginning of [s], if there is one. *)
Definition mentionAt (s : string) : option nat :=
  match s with
  | String c1 (String c2 rest) =>
      if Ascii.eqb c1 "<" && Ascii.eqb c2 "@" then
        let n := idRun rest in
        match String.get n rest with
        | Some c => if (0 <? n)%nat && Ascii.eqb c ">" then Some (n + 3)%nat else None
        | None => None
        end
      else None
  | _ => None
  end.

(** [skip] characters of a match remain to be dropped. *)
Fixpoint removeMentions (skip : nat) (s : string) : string :=
  match s with
  | EmptyString => EmptyString
  | String c s' =>
      match skip with
      | S k => removeMentions k s'
      | O =>
          match mentionAt s with
          | Some n => removeMentions (n - 1) s'
          | None => String c (removeMentions 0 s')
          end
      end
  end.


(** A mention token, and a text of pieces separated by tokens. *)
Definition mention (id : string) : string := "<@" ++ id ++ ">".

Definition isId (id : string) : bool :=
  negb (String.eqb id "") && (idRun id =? String.length id)%nat.

Fixpoint mentioning (pieces : list (string * string)) : string :=
  match pieces with
  | [] => ""
  | (id, piece) :: rest => mention id ++ piece ++ mentioning rest
  end.

Fixpoint pieceText (pieces : list (string * string)) : string :=
  match pieces with
  | [] => ""
  | (_, piece) :: rest => piece ++ pieceText rest
  end.

Fixpoint noneOf (c : ascii) (s : string) : bool :=
  match s with
  | EmptyString => true
  | String d s' => negb (Ascii.eqb d c) && noneOf c s'
  end.


(** ** The summary of the bot before the engine

    The first [getTodaysSalesSummary] of [server.js] sends its own
    request, for the sales from the start of the day until now, and adds
    up the sub-totals of the sales themselves. *)

Module Legacy.

Record Sale := {
  voided : option string;
  calcTotal : option string;
  calcSubtotal : option string
}.

Record Config := {
  base_url : string;
  account_id : string;
  shop_id : string;
  token : string
}.

(** The loop over the sales: revenue and number of transactions. *)
Definition step (acc : JS.Number * nat) (sale : Sale) : JS.Number * nat :=
  let '(totalRevenue, totalTransactions) := acc in
  if bool_decide (voided sale = Some "true") then acc
  else
    let total := parseFloatOr0 (calcTotal sale) in
    if JS.gt total JS.zero then
      ((totalRevenue + parseFloatOr0 (calcSubtotal sale))%js, S totalTransactions)
    else acc.

Section Summary.

(** The host, the number format, the time of day as the host writes it,
    the GET request (address and bearer token) with the [Sale] field of
    its reply, and the configuration. *)
Variable host : Clock.Host.
Variable toFixed : nat -> JS.Number -> string.
Variable currentTime : string.
Variable get : string -> string -> Result (Shape Sale).
Variable LIGHTSPEED : option Config.

Definition url (config : Config) : string :=
  let estDate := Clock.estDate host in
  let startOfDay := Clock.setHours 0 0 0 0 estDate in
  let start := Clock.formatDate host startOfDay in
  let end_ := Clock.formatDate host estDate in
  base_url config ++ "/" ++ account_id config ++ "/Sale.json?"
  ++ "completeTime=><," ++ start ++ "," ++ end_ ++ "&"
  ++ "completed=true&"
  ++ "shopID=" ++ shop_id config ++ "&"
  ++ "load_relations=[" ++ quoteMark ++ "SaleLines" ++ quoteMark ++ "]".

Definition getTodaysSalesSummary : string :=
  match LIGHTSPEED with
  | None => "Sales data unavailable - Lightspeed not configured."
  | Some config =>
      match get (url config) (token config) with
      | Ok data =>
          let sales :=
            match data with
            | Many l => l
            | Single a => [a]
            | Absent => []
            end in
          let '(totalRevenue, totalTransactions) := foldl step (JS.zero, O) sales in
          let avgSale :=
            if (0 <? totalTransactions)%nat
            then (totalRevenue / JS.ofNat totalTransactions)%js
            else JS.zero in
          "📊 Today's Sales (as of " ++ currentTime ++ "):" ++ newline
          ++ "• Transactions: " ++ Clock.decimal totalTransactions ++ newline
          ++ "• Revenue: $" ++ toFixed 2 totalRevenue ++ newline
          ++ "• Avg Sale: $" ++ toFixed 2 avgSale
      | Throw _ => "Error fetching sales data. Please check Lightspeed connection."
      end
  end.

End Summary.

End Legacy.

(** A sale of the engine as the older summary reads it, with the
    sub-total of the sale. *)
Definition legacyView (sale : SaleRec * option string) : Legacy.Sale :=
  {| Legacy.voided := voided sale.1;
     Legacy.calcTotal := calcTotal sale.1;
     Legacy.calcSubtotal := sale.2 |}.

(** The total of the sale is not a number. *)
Definition unreadable (sale : SaleRec) : bool :=
  bool_decide (parseFloatOr0 (calcTotal sale) = JS.NaN).

(** * Properties *)

(** ** Examples *)

Example parseFloat_decimal : Parse.parseFloat "12.50" = JS.Fin (Q2Qc (25 # 2)).
Proof. compute_done. Qed.

Example parseFloat_prefix :
  Parse.parseFloat "  -3.5e2 units" = JS.ofZ (-350) /\
  Parse.parseFloat ".5" = JS.Fin (Q2Qc (1 # 2)) /\
  Parse.parseFloat "n/a" = JS.NaN /\
  Parse.parseFloat "-Infinity" = JS.NInf /\
  parseFloatOr0 None = JS.zero /\
  parseFloatOr0 (Some "") = JS.zero.
Proof. repeat split; compute_done. Qed.

Example entry_of_item_A :
  entryOf (soldLines Sample.abc) "A"
  = Some {| Product.itemId := Some "A";
            Product.description := "Item A";
            Product.quantity := JS.ofZ 3;
            Product.revenue := JS.ofZ 50 |}.
Proof. compute_done. Qed.

Example values_order :
  Dict.values [("b", 1%nat); ("10", 2%nat); ("9", 3%nat); ("a", 4%nat); ("07", 5%nat)]
  = [3; 2; 1; 4; 5]%nat.
Proof. reflexivity. Qed.

(** The scenario of the specification: of a voided sale of 50 and a valid
    sale with sub-total 30 and cost 10, [getSalesMetrics] counts one
    transaction, with revenue 30, cost 10, profit 20 and a margin of 200/3
    per cent. *)
Theorem scenario_metrics :
  let m := summarize Sample.isoHour "1/15/2024" Sample.scenario in
  getSalesMetrics "1" (Sample.api (Sample.reply Sample.scenario))
                  Sample.window Sample.isoHour 0 1 = Ok m /\
  totalTransactions m = 1%nat /\
  totalRevenue m = JS.ofZ 30 /\
  totalCost m = JS.ofZ 10 /\
  profit m = JS.ofZ 20 /\
  profitMargin m = JS.Fin (Q2Qc (200 # 3)) /\
  peakHour m = 14%Z.
Proof. cbv zeta. split; [reflexivity|]. repeat split; compute_done. Qed.

(** ** The loop of [getSalesMetrics] *)

Section Aggregator.
Variable getHours : string -> option (fin 24).

Lemma saleStep_voided a sale :
  isVoided sale = true -> saleStep getHours a sale = a.
Proof. intros H. unfold saleStep. by rewrite H. Qed.

Lemma saleStep_nonPositive a sale :
  nonPositiveTotal sale = true -> saleStep getHours a sale = a.
Proof.
  unfold nonPositiveTotal, saleStep. intros [Hv Ht]%andb_prop.
  destruct (isVoided sale); [done|]. by rewrite Ht.
Qed.

Lemma foldl_saleStep_skip (skip : SaleRec -> bool) sales :
  (forall a sale, skip sale = true -> saleStep getHours a sale = a) ->
  forall a,
    foldl (saleStep getHours) a (filter (fun sale => skip sale = false) sales)
    = foldl (saleStep getHours) a sales.
Proof.
  intros Hskip. induction sales as [|sale sales IH]; intros a; [done|].
  rewrite filter_cons. simpl. destruct (skip sale) eqn:E.
  - rewrite decide_False by done. by rewrite (Hskip _ _ E).
  - rewrite decide_True by done. simpl. apply IH.
Qed.

(** The fields that the inner loop leaves alone. *)
Lemma foldl_lineStep_counts a lines :
  let a' := foldl lineStep a lines in
  Acc.totalTransactions a' = Acc.totalTransactions a /\
  Acc.channels a' = Acc.channels a /\
  Acc.hourly a' = Acc.hourly a.
Proof.
  revert a. induction lines as [|line lines IH]; intros a; simpl; [done|].
  destruct (IH (lineStep a line)) as (-> & -> & ->). done.
Qed.

End Aggregator.

Lemma sum_list_alter_S (l : list nat) (i : nat) :
  (i < length l)%nat -> sum_list (alter S i l) = S (sum_list l).
Proof.
  revert i. induction l as [|x l IH]; intros i Hi; simpl in *; [lia|].
  destruct i as [|i]; simpl; [done|].
  specialize (IH i ltac:(lia)). unfold alter in IH. lia.
Qed.

Lemma sum_list_dict_bump (k : string) (d : list (string * nat)) :
  sum_list ((Dict.set k (default 0 (Dict.get k d) + 1) d).*2)%nat
  = S (sum_list (d.*2)).
Proof.
  induction d as [|[k' v] d IH]; csimpl; [done|].
  case_bool_decide; csimpl; [lia|]. rewrite IH. lia.
Qed.

Lemma countsAgree_initial : countsAgree 0 initial.
Proof. by repeat split. Qed.

Lemma countsAgree_saleStep getHours n a sale :
  countsAgree n a ->
  countsAgree (n + if timeless getHours sale then 1 else 0) (saleStep getHours a sale).
Proof.
  intros (Hlen & Hch & Hh). unfold saleStep, timeless, counted.
  destruct (isVoided sale); [by rewrite Nat.add_0_r|].
  destruct (JS.le _ _); [by rewrite Nat.add_0_r|]. cbn [negb andb].
  match goal with |- countsAgree _ (foldl lineStep ?c ?ls) =>
    destruct (foldl_lineStep_counts c ls) as (E1 & E2 & E3) end.
  unfold countsAgree. rewrite E1, E2, E3.
  cbn [Acc.totalTransactions Acc.channels Acc.hourly].
  rewrite sum_list_dict_bump.
  destruct (getHours (completeTime sale)) as [h|]; cbn [bump].
  - pose proof (fin_to_nat_lt h) as Hlt.
    rewrite length_alter, sum_list_alter_S by lia.
    rewrite bool_decide_eq_false_2 by done. repeat split; [done|lia..].
  - rewrite bool_decide_eq_true_2 by done. repeat split; [done|lia..].
Qed.

Lemma countsAgree_foldl getHours sales n a :
  countsAgree n a ->
  countsAgree (n + countIf (timeless getHours) sales) (foldl (saleStep getHours) a sales).
Proof.
  revert n a. induction sales as [|sale sales IH]; intros n a Ha.
  - unfold countIf. cbn. by rewrite Nat.add_0_r.
  - cbn [foldl]. apply (countsAgree_saleStep getHours _ _ sale), IH in Ha.
    replace (n + countIf (timeless getHours) (sale :: sales))%nat
      with (n + (if timeless getHours sale then 1 else 0)
            + countIf (timeless getHours) sales)%nat; [done|].
    unfold countIf. rewrite filter_cons.
    destruct (timeless getHours sale); case_decide; try done; cbn [length]; lia.
Qed.

(** A reply of [getSalesMetrics] is the summary of what [getSales]
    fetched. *)
Lemma getSalesMetrics_Ok shopId query getDateRange getHours daysAgo daysSpan m :
  getSalesMetrics shopId query getDateRange getHours daysAgo daysSpan = Ok m ->
  exists fetched,
    getSales shopId query getDateRange daysAgo daysSpan = Ok fetched /\
    m = summarize getHours (dateStr (Fetched.dateRange fetched)) (Fetched.sales fetched).
Proof.
  unfold getSalesMetrics. destruct (getSales _ _ _ _ _) as [fetched|e]; simpl; [|done].
  intros [= <-]. by exists fetched.
Qed.

Lemma foldl_rankStep_voided sales :
  forall d,
    foldl rankStep d (filter (fun sale => isVoided sale = false) sales)
    = foldl rankStep d sales.
Proof.
  induction sales as [|sale sales IH]; intros d; [done|].
  assert (Hskip : isVoided sale = true -> rankStep d sale = d).
  { intros E. unfold rankStep. by rewrite E. }
  rewrite filter_cons. destruct (isVoided sale) eqn:E.
  - rewrite decide_False by done. simpl. rewrite Hskip by done. apply IH.
  - rewrite decide_True by done. simpl. apply IH.
Qed.

(** The [hourly] array keeps its 24 entries. *)
Lemma hourly_has_24_entries shopId query getDateRange getHours daysAgo daysSpan m :
  getSalesMetrics shopId query getDateRange getHours daysAgo daysSpan = Ok m ->
  length (hourly m) = 24%nat.
Proof.
  intros (fetched & _ & ->)%getSalesMetrics_Ok.
  apply (countsAgree_foldl getHours (Fetched.sales fetched) 0 initial countsAgree_initial).
Qed.

(** ** Transactions that the aggregates leave out *)

(** C1 (as amended).  In [getSalesMetrics], a sale that is not voided and
    whose total is non-positive is left out of every aggregate: of the
    transaction count, the channel mix and the hourly distribution, and
    also of the revenue, the cost and the item count, since the [return]
    on [total <= 0] comes before the loop over the line items.  The
    metrics returned are those of the transaction set without that
    sale. *)
Theorem nonpositive_total_left_out_everywhere
  (shopId : string) (query : string -> list (string * string) -> Result Response)
  (getDateRange : Z -> Z -> DateRange) (getHours : string -> option (fin 24))
  (daysAgo daysSpan : Z) (fetched : Fetched.t)
  (before after : list SaleRec) (sale : SaleRec) :
  getSales shopId query getDateRange daysAgo daysSpan = Ok fetched ->
  Fetched.sales fetched = (before ++ sale :: after)%list ->
  isVoided sale = false ->
  JS.le (parseFloatOr0 (calcTotal sale)) JS.zero = true ->
  getSalesMetrics shopId query getDateRange getHours daysAgo daysSpan
  = Ok (summarize getHours (dateStr (Fetched.dateRange fetched)) (before ++ after)).
Proof.
  intros Hfetch Hsales Hv Ht. unfold getSalesMetrics. rewrite Hfetch.
  cbn [mbind mret Result_bind Result_ret]. f_equal.
  rewrite Hsales. unfold summarize. rewrite !foldl_app. cbn [foldl].
  rewrite saleStep_nonPositive; [done|].
  unfold nonPositiveTotal. by rewrite Hv, Ht.
Qed.

Lemma nonpositive_total_left_out_everywhere_witness :
  getSalesMetrics "1" (Sample.api (Sample.reply (Sample.scenario ++ [Sample.refund])))
                  Sample.window Sample.isoHour 0 1
  = Ok (summarize Sample.isoHour "1/15/2024" (Sample.scenario ++ [])).
Proof.
  apply (nonpositive_total_left_out_everywhere "1"
           (Sample.api (Sample.reply (Sample.scenario ++ [Sample.refund])))
           Sample.window Sample.isoHour 0 1
           {| Fetched.sales := (Sample.scenario ++ [Sample.refund])%list;
              Fetched.dateRange := Sample.window 0 1;
              Fetched.count := 3 |}
           Sample.scenario [] Sample.refund); reflexivity.
Defined.

(** C1 (as stated) does not hold.  For the refund, which is not voided and
    has a negative total, the revenue, the cost and the item count that
    [getSalesMetrics] returns are all 0, whereas a loop that still
    accumulated the line items of such a sale would report -12, -5 and
    -1. *)
Lemma nonpositive_total_lines_not_accumulated :
  let actual := summarize Sample.isoHour "1/15/2024" [Sample.refund] in
  let claimed := summarize_linesUnguarded Sample.isoHour "1/15/2024" [Sample.refund] in
  getSalesMetrics "1" (Sample.api (Sample.reply [Sample.refund]))
                  Sample.window Sample.isoHour 0 1 = Ok actual /\
  isVoided Sample.refund = false /\
  JS.le (parseFloatOr0 (calcTotal Sample.refund)) JS.zero = true /\
  (totalRevenue actual = JS.zero /\ totalCost actual = JS.zero /\
   totalItems actual = JS.zero) /\
  (totalRevenue claimed = JS.ofZ (-12) /\ totalCost claimed = JS.ofZ (-5) /\
   totalItems claimed = JS.ofZ (-1)).
Proof. cbv zeta. split; [reflexivity|]. repeat split; compute_done. Qed.

(** C2.  Taking every voided sale out of the reply of the POS API changes
    neither the result of [getSalesMetrics] nor that of [getTopProducts]:
    a voided sale adds nothing to the revenue, the cost, the counts, the
    channels, the hourly distribution or the ranking. *)
Theorem voided_sales_contribute_nothing
  (shopId : string) (query : string -> list (string * string) -> Result Response)
  (getDateRange : Z -> Z -> DateRange) (getHours : string -> option (fin 24))
  (sortOrder : list Product.t -> list nat)
  (daysAgo daysSpan limit : Z) :
  getSalesMetrics shopId (mapReply withoutVoided query) getDateRange getHours
                  daysAgo daysSpan
  = getSalesMetrics shopId query getDateRange getHours daysAgo daysSpan /\
  getTopProducts shopId (mapReply withoutVoided query) getDateRange sortOrder
                 daysAgo daysSpan limit
  = getTopProducts shopId query getDateRange sortOrder daysAgo daysSpan limit.
Proof.
  unfold getSalesMetrics, getTopProducts, getSales, mapReply.
  destruct (query _ _) as [[shape]|e]; simpl; [|done].
  unfold summarize, rank, ranking.
  destruct shape as [|a|l]; simpl; [done| |].
  - destruct (isVoided a) eqn:E; simpl; [|done].
    unfold rankStep. rewrite E. by rewrite saleStep_voided.
  - rewrite (foldl_saleStep_skip getHours isVoided)
      by (intros; by apply saleStep_voided).
    by rewrite foldl_rankStep_voided.
Qed.

(** C9 (as amended).  In the metrics that [getSalesMetrics] returns,
    [hourly] has 24 entries and [totalTransactions] is the sum of the
    channel counts; it is the sum of the 24 hourly counts plus the number
    of counted sales whose completion time the host cannot parse, and so
    the sum of the hourly counts when every counted sale has a time that
    the host parses. *)
Theorem metrics_counts_agree
  (shopId : string) (query : string -> list (string * string) -> Result Response)
  (getDateRange : Z -> Z -> DateRange) (getHours : string -> option (fin 24))
  (daysAgo daysSpan : Z) (fetched : Fetched.t) :
  getSales shopId query getDateRange daysAgo daysSpan = Ok fetched ->
  let sales := Fetched.sales fetched in
  exists m,
    getSalesMetrics shopId query getDateRange getHours daysAgo daysSpan = Ok m /\
    length (hourly m) = 24%nat /\
    totalTransactions m = sum_list ((channels m).*2) /\
    totalTransactions m
    = (sum_list (hourly m) + countIf (timeless getHours) sales)%nat /\
    (Forall (fun sale => timeless getHours sale = false) sales ->
     totalTransactions m = sum_list (hourly m)).
Proof.
  intros Hfetch sales. unfold getSalesMetrics. rewrite Hfetch.
  eexists. split; [reflexivity|].
  destruct (countsAgree_foldl getHours sales 0 initial countsAgree_initial)
    as (Hlen & Hch & Hh).
  unfold summarize, finish. cbn [hourly channels totalTransactions].
  fold sales. split; [done|]. split; [done|]. split; [done|].
  intros Hnone. rewrite Hh.
  assert (countIf (timeless getHours) sales = 0%nat) as ->; [|lia].
  unfold countIf. clear -Hnone. induction Hnone as [|sale rest Hsale _ IH]; [done|].
  rewrite filter_cons, decide_False; [done|]. by rewrite Hsale.
Qed.

Lemma metrics_counts_agree_witness :
  exists m,
    getSalesMetrics "1" (Sample.api (Sample.reply (Sample.scenario ++ [Sample.refund])))
                    Sample.window Sample.isoHour 0 1 = Ok m /\
    length (hourly m) = 24%nat /\
    totalTransactions m = sum_list ((channels m).*2) /\
    totalTransactions m
    = (sum_list (hourly m)
       + countIf (timeless Sample.isoHour) (Sample.scenario ++ [Sample.refund]))%nat /\
    (Forall (fun sale => timeless Sample.isoHour sale = false)
            (Sample.scenario ++ [Sample.refund]) ->
     totalTransactions m = sum_list (hourly m)).
Proof.
  apply (metrics_counts_agree "1"
           (Sample.api (Sample.reply (Sample.scenario ++ [Sample.refund])))
           Sample.window Sample.isoHour 0 1
           {| Fetched.sales := (Sample.scenario ++ [Sample.refund])%list;
              Fetched.dateRange := Sample.window 0 1;
              Fetched.count := 3 |}).
  reflexivity.
Defined.

(** C9 (as stated) does not hold.  A sale that is not voided, has a
    positive total and a completion time that is not a date is counted as
    a transaction and in its channel, and in none of the 24 hourly
    buckets: [totalTransactions] is 1 and the hourly counts add up
    to 0. *)
Lemma undated_sale_in_no_bucket :
  let m := summarize Sample.isoHour "1/15/2024" [Sample.undated] in
  getSalesMetrics "1" (Sample.api (Sample.reply [Sample.undated]))
                  Sample.window Sample.isoHour 0 1 = Ok m /\
  Sample.isoHour (completeTime Sample.undated) = None /\
  length (hourly m) = 24%nat /\
  totalTransactions m = 1%nat /\
  sum_list ((channels m).*2) = 1%nat /\
  sum_list (hourly m) = 0%nat.
Proof. cbv zeta. split; [reflexivity|]. repeat split; by vm_compute. Qed.

(** ** Arithmetic on finite numbers *)

Lemma gt_zero_Fin (x : JS.Number) :
  JS.gt x JS.zero = true -> x = JS.PInf \/ exists q, x = JS.Fin q /\ (0 < q)%Qc.
Proof.
  destruct x as [q| | |]; simpl; try done.
  - intros H%bool_decide_eq_true. right. by exists q.
  - by left.
Qed.

Lemma div_Fin_nonzero (a b : Qc) :
  b <> 0%Qc -> (JS.Fin a / JS.Fin b)%js = JS.Fin (a / b)%Qc.
Proof.
  intros Hb. simpl. destruct (b ?= 0)%Qc eqn:E; try done.
  by apply Qceq_alt in E.
Qed.

Lemma Qclt_ne (q : Qc) : (0 < q)%Qc -> q <> 0%Qc.
Proof. intros H ->. by apply Qclt_not_eq in H. Qed.

(** The guarded quotient of [finish] and of [percentChange] is finite on
    finite operands. *)
Lemma percent_finite (x y : JS.Number) :
  JS.isFinite x -> JS.isFinite y ->
  JS.isFinite (if JS.gt y JS.zero then (x / y * JS.hundred)%js else JS.zero).
Proof.
  destruct x as [a| | |], y as [b| | |]; try done. intros _ _.
  destruct (JS.gt (JS.Fin b) JS.zero) eqn:E; [|done].
  apply gt_zero_Fin in E as [?|(q & [= <-] & Hq)]; [done|].
  by rewrite div_Fin_nonzero by by apply Qclt_ne.
Qed.

Lemma ofNat_pos (n : nat) : JS.gt (JS.ofNat n) JS.zero = bool_decide (0 < n)%nat.
Proof.
  unfold JS.gt, JS.ofNat, JS.ofZ, JS.zero, JS.lt.
  apply bool_decide_ext. unfold Qclt. cbn [this Q2Qc].
  rewrite !Qred_correct. unfold Qlt. simpl. lia.
Qed.

(** ** Maximum and first position *)

Lemma foldl_max_spec (l : list nat) (x : nat) :
  foldl Nat.max x l ∈ x :: l /\ Forall (fun y => (y <= foldl Nat.max x l)%nat) (x :: l).
Proof.
  revert x. induction l as [|y l IH]; intros x; simpl.
  - split; [by left|]. by repeat constructor.
  - destruct (IH (Nat.max x y)) as [Hin Hall].
    inversion Hall as [|? ? Hxy Hall']; subst. split.
    + rewrite !elem_of_cons. apply elem_of_cons in Hin as [Hin|Hin]; [|tauto].
      rewrite Hin. destruct (Nat.max_spec x y) as [[_ ->]|[_ ->]]; tauto.
    + constructor; [lia|]. constructor; [lia|done].
Qed.

Lemma indexOf_found (l : list nat) (v : nat) :
  v ∈ l ->
  exists i : nat,
    indexOf l (Some v) = Z.of_nat i /\ l !! i = Some v /\
    forall j, (j < i)%nat -> l !! j <> Some v.
Proof.
  induction l as [|x l IH]; intros Hin; [by apply elem_of_nil in Hin|].
  simpl. case_bool_decide as Hx.
  - exists 0%nat. split; [done|]. split; [simpl; congruence|lia].
  - apply elem_of_cons in Hin as [->|Hin]; [done|].
    destruct (IH Hin) as (i & Hi & Hl & Hmin). exists (S i). rewrite Hi.
    destruct (Z.of_nat i <? 0)%Z eqn:E; [lia|]. split; [lia|]. split; [done|].
    intros [|j] Hj; simpl; [congruence|]. apply Hmin. lia.
Qed.

(** [indexOf] of [Math.max] on a non-empty array of counters. *)
Lemma indexOf_Math_max (l : list nat) :
  l <> [] ->
  exists i top : nat,
    indexOf l (Math_max l) = Z.of_nat i /\ l !! i = Some top /\
    (forall j x, l !! j = Some x -> (x <= top)%nat) /\
    (forall j, (j < i)%nat -> l !! j <> Some top).
Proof.
  destruct l as [|x l]; [done|]. intros _. unfold Math_max.
  destruct (foldl_max_spec l x) as [Hin Hall].
  destruct (indexOf_found _ _ Hin) as (i & Hi & Hl & Hmin).
  exists i, (foldl Nat.max x l). split; [done|]. split; [done|]. split; [|done].
  intros j y Hy. rewrite Forall_forall in Hall. apply Hall.
  by eapply list_elem_of_lookup_2.
Qed.

(** ** Derived values of [getSalesMetrics] *)

(** C3 (as amended).  In the metrics that [getSalesMetrics] returns,
    [profitMargin] is [profit / totalRevenue * 100], a percentage, when
    [totalRevenue] is positive, and exactly 0 whenever [totalRevenue] is 0
    and whenever it is not positive otherwise ([NaN] included): the
    division is guarded, so a revenue that is not positive yields neither
    [NaN] nor an infinity.  With a positive revenue the margin is what
    the quotient gives, which can be [NaN] or an infinity. *)
Theorem profit_margin_is_percentage
  (shopId : string) (query : string -> list (string * string) -> Result Response)
  (getDateRange : Z -> Z -> DateRange) (getHours : string -> option (fin 24))
  (daysAgo daysSpan : Z) (m : SalesMetrics) :
  getSalesMetrics shopId query getDateRange getHours daysAgo daysSpan = Ok m ->
  profit m = (totalRevenue m - totalCost m)%js /\
  (JS.gt (totalRevenue m) JS.zero = true ->
   profitMargin m = (profit m / totalRevenue m * JS.hundred)%js) /\
  (totalRevenue m = JS.zero -> profitMargin m = JS.zero) /\
  (JS.gt (totalRevenue m) JS.zero = false -> profitMargin m = JS.zero).
Proof.
  intros (fetched & _ & ->)%getSalesMetrics_Ok.
  unfold summarize, finish. simpl.
  set (a := foldl _ _ _). repeat split.
  - by intros ->.
  - by intros ->.
  - by intros ->.
Qed.

Lemma profit_margin_is_percentage_witness :
  let m := summarize Sample.isoHour "1/15/2024" Sample.scenario in
  profit m = (totalRevenue m - totalCost m)%js /\
  (JS.gt (totalRevenue m) JS.zero = true ->
   profitMargin m = (profit m / totalRevenue m * JS.hundred)%js) /\
  (totalRevenue m = JS.zero -> profitMargin m = JS.zero) /\
  (JS.gt (totalRevenue m) JS.zero = false -> profitMargin m = JS.zero).
Proof.
  apply (profit_margin_is_percentage "1" (Sample.api (Sample.reply Sample.scenario))
           Sample.window Sample.isoHour 0 1).
  reflexivity.
Defined.

(** C3 (as stated) does not hold.  In the scenario of the specification
    the revenue is 30 and the profit is 20: the profit divided by the revenue
    is 2/3, and [profitMargin] is 200/3.  And the margin can be [NaN] or an
    infinity: a line whose sub-total is the text Infinity gives a positive
    revenue and the margin [NaN], and a line whose cost is the text
    -Infinity gives the revenue 10 and the margin [+Infinity]. *)
Lemma profit_margin_not_plain_quotient :
  let m := summarize Sample.isoHour "1/15/2024" Sample.scenario in
  let boundless := summarize Sample.isoHour "1/15/2024" [Sample.boundless] in
  let costless := summarize Sample.isoHour "1/15/2024" [Sample.costless] in
  (getSalesMetrics "1" (Sample.api (Sample.reply Sample.scenario))
                   Sample.window Sample.isoHour 0 1 = Ok m /\
   totalRevenue m = JS.ofZ 30 /\
   profit m = JS.ofZ 20 /\
   (profit m / totalRevenue m)%js = JS.Fin (Q2Qc (2 # 3)) /\
   profitMargin m = JS.Fin (Q2Qc (200 # 3)) /\
   profitMargin m <> (profit m / totalRevenue m)%js) /\
  (getSalesMetrics "1" (Sample.api (Sample.reply [Sample.boundless]))
                   Sample.window Sample.isoHour 0 1 = Ok boundless /\
   totalRevenue boundless = JS.PInf /\
   JS.gt (totalRevenue boundless) JS.zero = true /\
   profitMargin boundless = JS.NaN) /\
  (getSalesMetrics "1" (Sample.api (Sample.reply [Sample.costless]))
                   Sample.window Sample.isoHour 0 1 = Ok costless /\
   totalRevenue costless = JS.ofZ 10 /\
   profitMargin costless = JS.PInf).
Proof.
  cbv zeta. split; [|split].
  - split; [reflexivity|]. repeat split; compute_done.
  - split; [reflexivity|]. repeat split; compute_done.
  - split; [reflexivity|]. repeat split; compute_done.
Qed.

(** C4.  In the metrics that [getSalesMetrics] returns, [peakHour] is the
    lowest index of the 24-element [hourly] array whose count is the
    maximum of the array; for the counts [5, 5, 0, ..., 0] it is 0. *)
Theorem peak_hour_is_first_maximum
  (shopId : string) (query : string -> list (string * string) -> Result Response)
  (getDateRange : Z -> Z -> DateRange) (getHours : string -> option (fin 24))
  (daysAgo daysSpan : Z) (m : SalesMetrics) :
  getSalesMetrics shopId query getDateRange getHours daysAgo daysSpan = Ok m ->
  length (hourly m) = 24%nat /\
  (exists i top : nat,
     peakHour m = Z.of_nat i /\ hourly m !! i = Some top /\
     (forall j x, hourly m !! j = Some x -> (x <= top)%nat) /\
     (forall j, (j < i)%nat -> hourly m !! j <> Some top)) /\
  (hourly m = 5%nat :: 5%nat :: replicate 22 0%nat -> peakHour m = 0%Z).
Proof.
  intros Hm. pose proof (hourly_has_24_entries _ _ _ _ _ _ _ Hm) as Hlen.
  apply getSalesMetrics_Ok in Hm as (fetched & _ & ->).
  split; [done|]. unfold summarize, finish in *. simpl in *.
  set (a := foldl _ _ _) in *. split.
  - apply indexOf_Math_max. intros E. by rewrite E in Hlen.
  - by intros ->.
Qed.

Lemma peak_hour_is_first_maximum_witness :
  let m := summarize Sample.isoHour "1/15/2024" Sample.tie in
  length (hourly m) = 24%nat /\
  (exists i top : nat,
     peakHour m = Z.of_nat i /\ hourly m !! i = Some top /\
     (forall j x, hourly m !! j = Some x -> (x <= top)%nat) /\
     (forall j, (j < i)%nat -> hourly m !! j <> Some top)) /\
  (hourly m = 5%nat :: 5%nat :: replicate 22 0%nat -> peakHour m = 0%Z).
Proof.
  apply (peak_hour_is_first_maximum "1" (Sample.api (Sample.reply Sample.tie))
           Sample.window Sample.isoHour 0 1).
  reflexivity.
Defined.

Example tie_peak_hour :
  let m := summarize Sample.isoHour "1/15/2024" Sample.tie in
  hourly m = 5%nat :: 5%nat :: replicate 22 0%nat /\ peakHour m = 0%Z.
Proof. by vm_compute. Qed.

(** ** The comparator *)

Section Comparator.
Variable shopId : string.
Variable query : string -> list (string * string) -> Result Response.
Variable getDateRange : Z -> Z -> DateRange.
Variable getHours : string -> option (fin 24).

Lemma getComparison_unknown arg :
  ~ knownPeriod (default "daily" arg) ->
  getComparison shopId query getDateRange getHours arg
  = Throw (TypeError "Cannot read properties of undefined (reading 'totalRevenue')").
Proof.
  unfold knownPeriod, getComparison. intros Hp.
  repeat case_bool_decide; tauto || done.
Qed.

Lemma getComparison_Ok arg r :
  getComparison shopId query getDateRange getHours arg = Ok r ->
  knownPeriod (default "daily" arg) /\
  changes r =
    {| Changes.revenue :=
         percentChange (totalRevenue (current r)) (totalRevenue (previous r));
       Changes.transactions :=
         percentChange (JS.ofNat (totalTransactions (current r)))
                       (JS.ofNat (totalTransactions (previous r)));
       Changes.avgSale := (avgSale (current r) - avgSale (previous r))%js |}.
Proof.
  unfold knownPeriod, getComparison.
  repeat case_bool_decide; cbn [mbind mret Result_bind Result_ret];
    try (intros [=]; fail);
    intros Hr;
    repeat match type of Hr with
    | context [getSalesMetrics ?a ?b ?c ?d ?e ?f] =>
        destruct (getSalesMetrics a b c d e f); cbn in Hr
    end; try discriminate Hr; injection Hr as <-; (split; [tauto|done]).
Qed.

End Comparator.

(** C5 (as amended).  For the two windows that [getComparison]
    aggregates, the change of the revenue and the change of the
    transaction count are [(current - previous) / previous * 100] when the
    previous value is positive, and exactly 0 when the previous value is 0
    and whenever it is not positive otherwise: a zero baseline yields
    neither [NaN] nor an infinity.  The change of the count is always
    finite.  With a positive baseline the change of the revenue is what
    the formula gives, which can be [NaN] or an infinity. *)
Theorem comparison_percent_changes
  (shopId : string) (query : string -> list (string * string) -> Result Response)
  (getDateRange : Z -> Z -> DateRange) (getHours : string -> option (fin 24))
  (arg : option string) (r : ComparisonResult) :
  getComparison shopId query getDateRange getHours arg = Ok r ->
  let cur := current r in
  let prev := previous r in
  (JS.gt (totalRevenue prev) JS.zero = true ->
   Changes.revenue (changes r)
   = ((totalRevenue cur - totalRevenue prev) / totalRevenue prev * JS.hundred)%js) /\
  (totalRevenue prev = JS.zero -> Changes.revenue (changes r) = JS.zero) /\
  (JS.gt (totalRevenue prev) JS.zero = false -> Changes.revenue (changes r) = JS.zero) /\
  ((0 < totalTransactions prev)%nat ->
   Changes.transactions (changes r)
   = ((JS.ofNat (totalTransactions cur) - JS.ofNat (totalTransactions prev))
      / JS.ofNat (totalTransactions prev) * JS.hundred)%js) /\
  (totalTransactions prev = 0%nat -> Changes.transactions (changes r) = JS.zero) /\
  JS.isFinite (Changes.transactions (changes r)).
Proof.
  intros [_ ->]%getComparison_Ok. cbv zeta. cbn [Changes.revenue Changes.transactions].
  unfold percentChange. repeat split.
  - by intros ->.
  - by intros ->.
  - by intros ->.
  - intros Hp. rewrite ofNat_pos. by rewrite bool_decide_eq_true_2.
  - by intros ->.
  - by apply percent_finite.
Qed.

(** The first day of business: sales today and none yesterday. *)
Lemma comparison_percent_changes_witness :
  let r := Sample.firstDay in
  let cur := current r in
  let prev := previous r in
  (getComparison "1" (Sample.sales Sample.scenario []) Sample.days Sample.isoHour
                 (Some "daily") = Ok r /\
   totalRevenue cur = JS.ofZ 30 /\ totalRevenue prev = JS.zero /\
   totalTransactions cur = 1%nat /\ totalTransactions prev = 0%nat) /\
  (JS.gt (totalRevenue prev) JS.zero = true ->
   Changes.revenue (changes r)
   = ((totalRevenue cur - totalRevenue prev) / totalRevenue prev * JS.hundred)%js) /\
  (totalRevenue prev = JS.zero -> Changes.revenue (changes r) = JS.zero) /\
  (JS.gt (totalRevenue prev) JS.zero = false -> Changes.revenue (changes r) = JS.zero) /\
  ((0 < totalTransactions prev)%nat ->
   Changes.transactions (changes r)
   = ((JS.ofNat (totalTransactions cur) - JS.ofNat (totalTransactions prev))
      / JS.ofNat (totalTransactions prev) * JS.hundred)%js) /\
  (totalTransactions prev = 0%nat -> Changes.transactions (changes r) = JS.zero) /\
  JS.isFinite (Changes.transactions (changes r)).
Proof.
  split; [split; [reflexivity|repeat split; compute_done]|].
  apply (comparison_percent_changes "1" (Sample.sales Sample.scenario []) Sample.days
           Sample.isoHour (Some "daily") Sample.firstDay).
  reflexivity.
Defined.

Example comparison_same_window :
  Changes.revenue (changes Sample.comparison) = JS.zero /\
  Changes.transactions (changes Sample.comparison) = JS.zero.
Proof. split; compute_done. Qed.

Example comparison_first_day :
  Changes.revenue (changes Sample.firstDay) = JS.zero /\
  Changes.transactions (changes Sample.firstDay) = JS.zero.
Proof. split; compute_done. Qed.

(** C5 (as stated) does not hold for every pair of windows: a change can
    be [NaN] or an infinity.  When both windows hold a line whose
    sub-total is the text Infinity, the previous revenue is positive and the
    change of the revenue is [NaN]; when only the current window holds it,
    over a previous revenue of 30, the change is [+Infinity]. *)
Lemma comparison_change_not_always_finite :
  (exists r,
     getComparison "1" (Sample.sales [Sample.boundless] [Sample.boundless]) Sample.days
                   Sample.isoHour (Some "daily") = Ok r /\
     totalRevenue (previous r) = JS.PInf /\
     JS.gt (totalRevenue (previous r)) JS.zero = true /\
     Changes.revenue (changes r) = JS.NaN) /\
  (exists r,
     getComparison "1" (Sample.sales [Sample.boundless] Sample.scenario) Sample.days
                   Sample.isoHour (Some "daily") = Ok r /\
     totalRevenue (current r) = JS.PInf /\
     totalRevenue (previous r) = JS.ofZ 30 /\
     JS.gt (totalRevenue (previous r)) JS.zero = true /\
     Changes.revenue (changes r) = JS.PInf).
Proof.
  split; eexists; (split; [reflexivity|]); repeat split; compute_done.
Qed.

(** C10.  When [period], the argument of [getComparison] or ['daily'] for
    an omitted argument, is none of ['daily'], ['weekly'] and ['monthly'],
    the call throws a [TypeError], as it reads a field of the undefined
    [previous]; it returns a result only for these three values. *)
Theorem comparison_unknown_period_throws
  (shopId : string) (query : string -> list (string * string) -> Result Response)
  (getDateRange : Z -> Z -> DateRange) (getHours : string -> option (fin 24))
  (arg : option string) :
  let period := default "daily" arg in
  (period <> "daily" -> period <> "weekly" -> period <> "monthly" ->
   exists msg,
     getComparison shopId query getDateRange getHours arg = Throw (TypeError msg)) /\
  (forall r,
     getComparison shopId query getDateRange getHours arg = Ok r ->
     period = "daily" \/ period = "weekly" \/ period = "monthly").
Proof.
  cbv zeta. split.
  - intros H1 H2 H3. eexists. apply getComparison_unknown.
    unfold knownPeriod. tauto.
  - intros r Hr. by apply getComparison_Ok in Hr as [Hp _].
Qed.

Example comparison_yearly :
  getComparison "1" (Sample.api (Sample.reply Sample.scenario)) Sample.window
                Sample.isoHour (Some "yearly")
  = Throw (TypeError "Cannot read properties of undefined (reading 'totalRevenue')").
Proof. reflexivity. Qed.

(** ** The shape of the reply *)

(** C8.  Whatever the POS API replies to the GET of [getSales], the sales
    that [getSales] returns are a sequence: a single unwrapped record
    becomes a sequence of one element, a collection is kept as it is, and
    an absent field becomes the empty sequence; [count] is its length. *)
Theorem sales_reply_is_a_sequence
  (shopId : string) (query : string -> list (string * string) -> Result Response)
  (getDateRange : Z -> Z -> DateRange) (daysAgo daysSpan : Z) (data : Response) :
  query "Sale.json" (saleParams shopId (getDateRange daysAgo daysSpan)) = Ok data ->
  exists fetched,
    getSales shopId query getDateRange daysAgo daysSpan = Ok fetched /\
    (forall a, Sale data = Single a -> Fetched.sales fetched = [a]) /\
    (forall l, Sale data = Many l -> Fetched.sales fetched = l) /\
    (Sale data = Absent -> Fetched.sales fetched = []) /\
    Fetched.count fetched = length (Fetched.sales fetched).
Proof.
  intros Hq. unfold getSales. rewrite Hq. eexists. split; [reflexivity|].
  simpl. repeat split; try done; intros;
    by match goal with H : Sale data = _ |- _ => rewrite H end.
Qed.

Lemma sales_reply_is_a_sequence_witness :
  exists fetched,
    getSales "1" (Sample.api {| Sale := Single Sample.refund |}) Sample.window 0 1
    = Ok fetched /\
    (forall a, Single Sample.refund = Single a -> Fetched.sales fetched = [a]) /\
    (forall l, Single Sample.refund = Many l -> Fetched.sales fetched = l) /\
    (Single Sample.refund = Absent -> Fetched.sales fetched = []) /\
    Fetched.count fetched = length (Fetched.sales fetched).
Proof.
  apply (sales_reply_is_a_sequence "1" (Sample.api {| Sale := Single Sample.refund |})
           Sample.window 0 1 {| Sale := Single Sample.refund |}).
  reflexivity.
Defined.

(** ** Strings: folding, trimming and searching *)

Lemma toLowerCase_app (a b : string) :
  Str.toLowerCase (a ++ b) = Str.toLowerCase a ++ Str.toLowerCase b.
Proof. induction a as [|c a IH]; simpl; [done|]. by rewrite IH. Qed.

Lemma prefix_app (p s : string) : String.prefix p (p ++ s) = true.
Proof.
  induction p as [|c p IH]; simpl; [by destruct s|].
  by destruct (ascii_dec c c).
Qed.

Lemma prefix_empty (p : string) : p <> "" -> String.prefix p "" = false.
Proof. by destruct p. Qed.

Lemma includes_empty (p : string) : p <> "" -> Str.includes "" p = false.
Proof. intros H. cbn [Str.includes]. by rewrite prefix_empty. Qed.

Lemma includes_prefix (p s : string) : Str.includes (p ++ s) p = true.
Proof.
  destruct p as [|c p]; [by destruct s|].
  change (String.prefix (String c p) (String c p ++ s) || Str.includes (p ++ s) (String c p) = true).
  by rewrite prefix_app.
Qed.

Lemma includes_trimStart (s p : string) :
  startsClean p = true -> Str.includes (Str.trimStart s) p = Str.includes s p.
Proof.
  intros Hp. destruct p as [|c0 p]; [done|]. simpl in Hp.
  induction s as [|c s IH]; [done|].
  cbn [Str.trimStart]. destruct (Str.isSpace c) eqn:Ec; [|done].
  rewrite IH. cbn [Str.includes String.prefix].
  destruct (ascii_dec c0 c) as [->|]; [|done]. by rewrite Ec in Hp.
Qed.

Lemma endsClean_tail (c : ascii) (p : string) :
  endsClean (String c p) = true -> p <> "" -> endsClean p = true.
Proof. by destruct p. Qed.

Lemma endsClean_single (c : ascii) :
  endsClean (String c "") = true -> Str.isSpace c = false.
Proof. simpl. by destruct (Str.isSpace c). Qed.

Lemma prefix_nil_l (s : string) : String.prefix "" s = true.
Proof. by destruct s. Qed.

Lemma prefix_cons (c0 c : ascii) (p s : string) :
  String.prefix (String c0 p) (String c s)
  = bool_decide (c0 = c) && String.prefix p s.
Proof. cbn [String.prefix]. destruct (ascii_dec c0 c); by case_bool_decide. Qed.

(** A clean pattern is a prefix of a string exactly when it is a prefix
    of the string without its trailing white space. *)
Lemma prefix_trimEnd (s p : string) :
  endsClean p = true -> String.prefix p (Str.trimEnd s) = String.prefix p s.
Proof.
  revert p. induction s as [|c s IH]; intros p Hp; [done|].
  destruct p as [|c0 p]; [by rewrite !prefix_nil_l|].
  rewrite prefix_cons. cbn [Str.trimEnd].
  destruct (decide (p = "")) as [->|Hne].
  - apply endsClean_single in Hp. rewrite prefix_nil_l, andb_true_r.
    destruct (Str.trimEnd s) as [|d t].
    + destruct (Str.isSpace c) eqn:Ec.
      * rewrite prefix_empty by done. case_bool_decide; [congruence|done].
      * by rewrite prefix_cons, prefix_nil_l, andb_true_r.
    + by rewrite prefix_cons, prefix_nil_l, andb_true_r.
  - rewrite <- (IH p) by by eapply endsClean_tail.
    destruct (Str.trimEnd s) as [|d t].
    + rewrite (prefix_empty p) by done. rewrite andb_false_r.
      destruct (Str.isSpace c); [by rewrite prefix_empty|].
      by rewrite prefix_cons, prefix_empty, andb_false_r.
    + by rewrite prefix_cons.
Qed.

Lemma includes_cons (c : ascii) (s p : string) :
  Str.includes (String c s) p = String.prefix p (String c s) || Str.includes s p.
Proof. done. Qed.

Lemma includes_trimEnd (s p : string) :
  p <> "" -> endsClean p = true -> Str.includes (Str.trimEnd s) p = Str.includes s p.
Proof.
  intros Hne Hp. induction s as [|c s IH]; [done|].
  rewrite (includes_cons c s), <- IH, <- (prefix_trimEnd (String c s) p Hp).
  cbn [Str.trimEnd]. destruct (Str.trimEnd s) as [|d t]; [|done].
  rewrite (includes_empty p), orb_false_r by done.
  destruct (Str.isSpace c); [by rewrite includes_empty, prefix_empty|].
  by rewrite includes_cons, includes_empty, orb_false_r.
Qed.

Lemma includes_trim (s p : string) :
  startsClean p = true -> endsClean p = true ->
  Str.includes (Str.trim s) p = Str.includes s p.
Proof.
  intros H1 H2. unfold Str.trim.
  rewrite includes_trimEnd; [|by destruct p|done]. by apply includes_trimStart.
Qed.

(** ** Channel classification *)

Lemma channel_of_customer (customer : CustomerRec) (sale : SaleRec) :
  Customer sale = Some customer ->
  classifyChannel sale
  = channelOfName
      (Str.toLowerCase (orEmpty (firstName customer) ++ " " ++ orEmpty (lastName customer))).
Proof.
  intros Hc. unfold classifyChannel. rewrite Hc.
  rewrite !toLowerCase_app.
  change (Str.toLowerCase " ") with " ".
  set (first := Str.toLowerCase (orEmpty (firstName customer))).
  set (last := Str.toLowerCase (orEmpty (lastName customer))).
  rewrite !includes_trim by done.
  unfold channelOfName, platforms. cbn [List.find fst snd].
  destruct (Str.includes _ "ubereats"); [done|].
  destruct (Str.includes _ "uber eats"); [done|]. cbn [orb].
  destruct (Str.includes _ "doordash") eqn:Ed; [done|]. cbn [orb].
  case_bool_decide as Hf.
  - rewrite Hf, includes_prefix in Ed. done.
  - by repeat destruct (Str.includes _ _).
Qed.

(** C6.  [classifyChannel] follows the channel policy: a sale without a
    customer is ["In-Store"]; otherwise the first and the last name are
    concatenated (with a space between them) and case-folded, and the
    first entry of the platform
    list (ubereats and uber eats for UberEats, doordash for DoorDash,
    grubhub for GrubHub, cityhive for CityHive) that the name contains
    gives the channel, ["In-Store"] when it contains none.  A customer
    named DoorDash Orders is classified as ["DoorDash"]. *)
Theorem channel_follows_platform_list :
  (forall sale, classifyChannel sale = channelPolicy sale) /\
  (forall sale, Customer sale = None -> classifyChannel sale = "In-Store") /\
  (forall sale customer,
     Customer sale = Some customer ->
     let name :=
       Str.toLowerCase (orEmpty (firstName customer) ++ " " ++ orEmpty (lastName customer)) in
     Forall (fun platform => Str.includes name platform.1 = false) platforms ->
     classifyChannel sale = "In-Store") /\
  classifyChannel Sample.doorDashOrder = "DoorDash" /\
  classifyChannel Sample.regularOrder = "In-Store" /\
  classifyChannel Sample.refund = "In-Store".
Proof.
  split; [|split; [|split]].
  - intros sale. unfold channelPolicy.
    destruct (Customer sale) as [customer|] eqn:Hc.
    + by apply channel_of_customer.
    + unfold classifyChannel. by rewrite Hc.
  - intros sale Hc. unfold classifyChannel. by rewrite Hc.
  - intros sale customer Hc name Hnone.
    rewrite (channel_of_customer customer sale Hc). fold name.
    unfold channelOfName.
    destruct (List.find _ platforms) as [platform|] eqn:Hfind; [|done].
    apply List.find_some in Hfind as [Hin Hhit].
    rewrite List.Forall_forall in Hnone. by rewrite (Hnone _ Hin) in Hhit.
  - by vm_compute.
Qed.

(** ** Dictionaries *)

Section DictFacts.
Context {V : Type}.
Implicit Types (d : list (string * V)) (k : string) (v : V).

Lemma get_set_eq d k v : Dict.get k (Dict.set k v d) = Some v.
Proof.
  induction d as [|[k' v'] d IH]; simpl.
  - by rewrite bool_decide_eq_true_2.
  - case_bool_decide; simpl; [by rewrite bool_decide_eq_true_2|].
    by rewrite bool_decide_eq_false_2.
Qed.

Lemma get_set_ne d k k' v : k <> k' -> Dict.get k (Dict.set k' v d) = Dict.get k d.
Proof.
  intros Hne. induction d as [|[k0 v0] d IH]; simpl.
  - by rewrite bool_decide_eq_false_2.
  - case_bool_decide as E0; simpl.
    + subst k0. by rewrite !bool_decide_eq_false_2 by done.
    + by rewrite IH.
Qed.

Lemma get_Some_elem d k v : Dict.get k d = Some v -> (k, v) ∈ d.
Proof.
  induction d as [|[k0 v0] d IH]; simpl; [done|].
  case_bool_decide as E0.
  - intros [= ->]. subst. by left.
  - intros H. right. by apply IH.
Qed.

Lemma elem_get_Some d k v : NoDup (d.*1) -> (k, v) ∈ d -> Dict.get k d = Some v.
Proof.
  induction d as [|[k0 v0] d IH]; csimpl; intros Hnd Hin.
  - by apply elem_of_nil in Hin.
  - apply NoDup_cons in Hnd as [Hk0 Hnd].
    apply elem_of_cons in Hin as [[= -> ->]|Hin].
    + by rewrite bool_decide_eq_true_2.
    + rewrite bool_decide_eq_false_2; [by apply IH|].
      intros ->. apply Hk0. apply list_elem_of_fmap. by exists (k, v).
Qed.

Lemma get_None_keys d k : Dict.get k d = None <-> k ∉ d.*1.
Proof.
  induction d as [|[k0 v0] d IH]; csimpl.
  - split; [intros _; apply not_elem_of_nil|done].
  - rewrite not_elem_of_cons. case_bool_decide as E0.
    + split; [done|]. by intros [? _].
    + rewrite IH. split; [by split|by intros [_ ?]].
Qed.

Lemma set_keys d k v :
  (Dict.set k v d).*1 = if decide (k ∈ d.*1) then d.*1 else (d.*1 ++ [k])%list.
Proof.
  induction d as [|[k0 v0] d IH]; csimpl; [done|].
  - case_bool_decide as E0; csimpl.
    + subst k0. by rewrite decide_True by by left.
    + rewrite IH. destruct (decide (k ∈ d.*1)) as [Hin|Hout].
      * by rewrite decide_True by by right.
      * rewrite decide_False; [done|]. rewrite elem_of_cons. by intros [->|?].
Qed.

Lemma set_NoDup d k v : NoDup (d.*1) -> NoDup ((Dict.set k v d).*1).
Proof.
  intros Hnd. rewrite set_keys. case_decide as Hin; [done|].
  apply NoDup_app. split; [done|]. split; [|apply NoDup_singleton].
  intros x Hx [->|[]%elem_of_nil]%elem_of_cons. done.
Qed.

End DictFacts.

(** ** The loop of [getTopProducts] *)

Lemma foldl_rankStep_soldLines sales :
  forall d, foldl rankStep d sales = foldl productStep d (soldLines sales).
Proof.
  unfold soldLines. induction sales as [|sale sales IH]; intros d; [done|].
  rewrite filter_cons. cbn [foldl]. rewrite IH. unfold rankStep.
  destruct (isVoided sale) eqn:E.
  - by rewrite decide_False by done.
  - rewrite decide_True by done. csimpl. by rewrite foldl_app.
Qed.

(** One line changes the entry of its own key only. *)
Lemma productStep_get d line key :
  Dict.get key (productStep d line)
  = if decide (key = lineKey line)
    then Some (addLine (default (freshEntry line) (Dict.get (lineKey line) d)) line)
    else Dict.get key d.
Proof.
  unfold productStep, lineKey.
  set (k := keyOf (itemID line)).
  destruct (Dict.get k d) as [e|] eqn:Eg; simpl.
  - rewrite Eg. case_decide as Hk.
    + subst key. apply get_set_eq.
    + by apply get_set_ne.
  - rewrite get_set_eq. case_decide as Hk.
    + subst key. apply get_set_eq.
    + by rewrite !get_set_ne.
Qed.

Lemma productStep_NoDup d line : NoDup (d.*1) -> NoDup ((productStep d line).*1).
Proof.
  intros Hnd. unfold productStep.
  set (k := keyOf (itemID line)).
  destruct (Dict.get k d) as [e|] eqn:Eg; simpl.
  - rewrite Eg. by apply set_NoDup.
  - rewrite get_set_eq. by apply set_NoDup, set_NoDup.
Qed.

Lemma foldl_productStep_NoDup lines :
  forall d, NoDup (d.*1) -> NoDup ((foldl productStep d lines).*1).
Proof.
  induction lines as [|line lines IH]; intros d Hnd; [done|].
  simpl. by apply IH, productStep_NoDup.
Qed.

Lemma total_snoc f lines line :
  total f (lines ++ [line]) = (total f lines + f line)%js.
Proof. unfold total. by rewrite foldl_app. Qed.

Lemma entryOf_snoc lines line key :
  entryOf (lines ++ [line]) key
  = if decide (key = lineKey line)
    then Some (addLine (default (freshEntry line) (entryOf lines (lineKey line))) line)
    else entryOf lines key.
Proof.
  unfold entryOf. rewrite filter_app, filter_cons, filter_nil.
  case_decide as Hk.
  - subst key. rewrite decide_True by done.
    destruct (filter _ lines) as [|first own] eqn:Ef; [done|].
    rewrite <- app_comm_cons. cbn [default]. unfold addLine.
    cbn [Product.itemId Product.description Product.quantity Product.revenue].
    rewrite !app_comm_cons. by rewrite !total_snoc.
  - rewrite decide_False by done. by rewrite app_nil_r.
Qed.

(** After the loop the dictionary holds, under each key, the accumulated
    entry of the lines with that key. *)
Lemma foldl_productStep_get lines key :
  Dict.get key (foldl productStep [] lines) = entryOf lines key.
Proof.
  revert key. induction lines as [|line lines IH] using rev_ind; intros key; [done|].
  rewrite foldl_app. cbn [foldl]. rewrite productStep_get, entryOf_snoc.
  by rewrite !IH.
Qed.

(** ** [Object.values], [sort] and [slice] *)

Lemma insertIndex_perm {V} (i : Z) (v : V) (l : list (Z * V)) :
  Dict.insertIndex i v l ≡ₚ (i, v) :: l.
Proof.
  induction l as [|[j w] l IH]; simpl; [done|].
  destruct (i <? j)%Z; [done|]. rewrite IH. apply Permutation_swap.
Qed.

(** [Object.values] lists every value of the dictionary once. *)
Lemma values_perm {V} (d : list (string * V)) : Dict.values d ≡ₚ d.*2.
Proof.
  unfold Dict.values, Dict.indexed, Dict.named.
  induction d as [|[k v] d IH]; csimpl; [done|].
  destruct (Dict.arrayIndex k) as [i|]; csimpl.
  - rewrite insertIndex_perm. csimpl. by rewrite IH.
  - rewrite <- Permutation_middle. by rewrite IH.
Qed.

Section SortFacts.
Context {A : Type} (after : A -> A -> bool).

Lemma insertSorted_perm (x : A) (l : list A) : insertSorted after x l ≡ₚ x :: l.
Proof.
  induction l as [|y l IH]; simpl; [done|].
  destruct (after x y); [|done]. rewrite IH. apply Permutation_swap.
Qed.

Lemma sortBy_perm (l : list A) : sortBy after l ≡ₚ l.
Proof.
  unfold sortBy. induction l as [|x l IH]; simpl; [done|].
  by rewrite insertSorted_perm, IH.
Qed.

(** The sort orders every list whose elements the comparator compares
    consistently: on the elements satisfying [P], [R] is transitive, holds
    whenever the comparator keeps the order, and holds in the other
    direction whenever it swaps. *)
Context (P : A -> Prop) (R : A -> A -> Prop).
Hypothesis keep : forall x y, P x -> P y -> after x y = false -> R x y.
Hypothesis swap : forall x y, P x -> P y -> after x y = true -> R y x.
Hypothesis trans : forall x y z, P x -> P y -> P z -> R x y -> R y z -> R x z.

Lemma insertSorted_sorted (x : A) (l : list A) :
  P x -> Forall P l -> StronglySorted R l -> StronglySorted R (insertSorted after x l).
Proof.
  intros Hx HP Hs. induction Hs as [|y l Hs IH Hy]; simpl.
  - by repeat constructor.
  - apply Forall_cons in HP as [HPy HP]. destruct (after x y) eqn:E.
    + constructor; [by apply IH|].
      rewrite insertSorted_perm. constructor; [by apply swap|done].
    + constructor; [by constructor|].
      constructor; [by apply keep|].
      rewrite Forall_forall in Hy, HP |- *. intros z Hz.
      apply (trans x y z); auto.
Qed.

Lemma sortBy_sorted (l : list A) : Forall P l -> StronglySorted R (sortBy after l).
Proof.
  unfold sortBy. induction l as [|x l IH]; simpl; intros HP; [constructor|].
  apply Forall_cons in HP as [Hx HP].
  apply insertSorted_sorted; [done| |by apply IH].
  fold (sortBy after l). by rewrite sortBy_perm.
Qed.

End SortFacts.

Lemma imap_snd {A K} (f : nat -> A -> K) (l : list A) :
  (imap (fun i a => (f i a, a)) l).*2 = l.
Proof.
  revert f. induction l as [|x l IH]; intros f; [done|].
  csimpl. f_equal. apply (IH (fun i => f (S i))).
Qed.

(** Whatever the comparator and the host, [sort] rearranges the array. *)
Lemma sort_perm {A} (cmp : A -> A -> JS.Number) (hostOrder : list A -> list nat)
  (l : list A) :
  sort cmp hostOrder l ≡ₚ l.
Proof.
  unfold sort. destruct (consistent cmp l); [apply sortBy_perm|].
  unfold reorder. rewrite sortBy_perm. by rewrite imap_snd.
Qed.

Lemma sort_consistent {A} (cmp : A -> A -> JS.Number) (hostOrder : list A -> list nat)
  (l : list A) :
  consistent cmp l = true ->
  sort cmp hostOrder l = sortBy (fun a b => JS.gt (cmp a b) JS.zero) l.
Proof. unfold sort. by intros ->. Qed.

Lemma StronglySorted_take {A} (R : A -> A -> Prop) (n : nat) (l : list A) :
  StronglySorted R l -> StronglySorted R (take n l).
Proof.
  intros Hs. revert n. induction Hs as [|x l Hs IH Hx]; intros [|n]; simpl;
    try constructor; [apply IH|].
  rewrite Forall_forall in Hx |- *. intros y Hy. apply Hx.
  apply elem_of_take in Hy as (i & Hi & _). by eapply list_elem_of_lookup_2.
Qed.

Lemma slice0_take {A} (l : list A) (limit : Z) :
  (0 <= limit)%Z -> slice0 l limit = take (Z.to_nat limit) l.
Proof.
  intros Hl. unfold slice0. destruct (limit <? 0)%Z eqn:E; [lia|].
  destruct (decide (limit <= Z.of_nat (length l))%Z).
  - by rewrite Z.min_l by lia.
  - rewrite Z.min_r, Nat2Z.id by lia. by rewrite !take_ge by lia.
Qed.

(** ** The ranking *)

(** The ranking holds exactly the accumulated entries of the items sold. *)
Lemma ranking_elem (sortOrder : list Product.t -> list nat) (sales : list SaleRec)
  (entry : Product.t) :
  entry ∈ ranking sortOrder sales <-> exists key, entryOf (soldLines sales) key = Some entry.
Proof.
  unfold ranking, sortedValues. rewrite sort_perm, values_perm, foldl_rankStep_soldLines.
  pose proof (foldl_productStep_NoDup (soldLines sales) [] (NoDup_nil_2)) as Hnd.
  rewrite list_elem_of_fmap. split.
  - intros ([key e] & -> & Hin). exists key.
    rewrite <- foldl_productStep_get. by apply elem_get_Some.
  - intros (key & Hkey). exists (key, entry). split; [done|].
    apply get_Some_elem. by rewrite foldl_productStep_get.
Qed.

(** *** The comparator on finite revenues *)

Lemma Qc_sign_sub (p q : Qc) : (q + - p ?= 0)%Qc = (q ?= p)%Qc.
Proof.
  assert (Hsub : (this (q + - p) == this q - this p)%Q).
  { cbn [this Qcplus Qcopp Q2Qc]. rewrite !Qred_correct. lra. }
  unfold Qccompare. change (this 0%Qc) with (Qred 0).
  rewrite Hsub, Qred_correct.
  destruct (this q ?= this p)%Q eqn:E.
  - apply Qeq_alt in E. apply -> Qeq_alt. lra.
  - apply Qlt_alt in E. apply -> Qlt_alt. lra.
  - apply Qgt_alt in E. apply -> Qgt_alt. lra.
Qed.

(** The order of two entries under the comparator. *)
Lemma order_revenue (a b : Product.t) :
  order revenueOrder a b
  = match Product.revenue a, Product.revenue b with
    | JS.NaN, _ | _, JS.NaN => Eq
    | JS.Fin p, JS.Fin q => (q ?= p)%Qc
    | JS.PInf, JS.PInf | JS.NInf, JS.NInf => Eq
    | JS.PInf, _ | _, JS.NInf => Lt
    | _, JS.PInf | JS.NInf, _ => Gt
    end.
Proof.
  unfold order, revenueOrder.
  destruct (Product.revenue a) as [p| | |], (Product.revenue b) as [q| | |]; try done.
  cbn [JS.sub JS.add JS.neg JS.sign]. apply Qc_sign_sub.
Qed.

Ltac qc_order :=
  unfold Qccompare in *;
  repeat match goal with
         | H : (?a ?= ?b)%Q = Eq |- _ => apply (proj2 (Qeq_alt a b)) in H
         | H : (?a ?= ?b)%Q = Lt |- _ => apply (proj2 (Qlt_alt a b)) in H
         | H : (?a ?= ?b)%Q = Gt |- _ => apply (proj2 (Qgt_alt a b)) in H
         end.

(** On finite revenues the comparator is consistent. *)
Lemma revenueOrder_consistentAt (a b c : Product.t) :
  JS.isFinite (Product.revenue a) -> JS.isFinite (Product.revenue b) ->
  JS.isFinite (Product.revenue c) ->
  consistentAt revenueOrder a b c = true.
Proof.
  unfold consistentAt. rewrite !order_revenue. unfold revenueOrder.
  destruct (Product.revenue a) as [p| | |], (Product.revenue b) as [q| | |],
    (Product.revenue c) as [r| | |]; try done; intros _ _ _.
  cbn [JS.isNaN JS.sub JS.add JS.neg negb andb].
  all: repeat match goal with
              | |- context [(?x ?= ?y)%Qc] => destruct (x ?= y)%Qc eqn:?
              end; try done.
  all: exfalso; qc_order; lra.
Qed.

Lemma revenueOrder_consistent (l : list Product.t) :
  Forall (fun entry => JS.isFinite (Product.revenue entry)) l ->
  consistent revenueOrder l = true.
Proof.
  intros Hall. rewrite List.Forall_forall in Hall. unfold consistent.
  apply forallb_forall. intros a Ha. apply forallb_forall. intros b Hb.
  apply forallb_forall. intros c Hc. apply revenueOrder_consistentAt; by apply Hall.
Qed.

(** The sorted table is in descending order of revenue when every revenue
    is finite. *)
Lemma sortedValues_sorted (sortOrder : list Product.t -> list nat)
  (productSales : list (string * Product.t)) :
  Forall (fun entry => JS.isFinite (Product.revenue entry))
         (Dict.values productSales) ->
  StronglySorted revenueAtLeast (sortedValues sortOrder productSales).
Proof.
  intros Hall. unfold sortedValues.
  rewrite sort_consistent by by apply revenueOrder_consistent.
  apply (sortBy_sorted _ (fun e => JS.isFinite (Product.revenue e))); [| | |done].
  - intros x y Hx Hy. fold (lowerRevenue x y). unfold lowerRevenue, revenueAtLeast, revenueOrder.
    destruct (Product.revenue x) as [p| | |], (Product.revenue y) as [q| | |]; try done.
    cbn. intros Hlt%bool_decide_eq_false. apply bool_decide_eq_true.
    rewrite <- Qclt_minus_iff in Hlt. by apply Qcnot_lt_le.
  - intros x y Hx Hy. fold (lowerRevenue x y). unfold lowerRevenue, revenueAtLeast, revenueOrder.
    destruct (Product.revenue x) as [p| | |], (Product.revenue y) as [q| | |]; try done.
    cbn. intros Hlt%bool_decide_eq_true. apply bool_decide_eq_true.
    rewrite <- Qclt_minus_iff in Hlt. by apply Qclt_le_weak.
  - intros x y z Hx Hy Hz. unfold revenueAtLeast.
    destruct (Product.revenue x) as [p| | |], (Product.revenue y) as [q| | |],
      (Product.revenue z) as [r| | |]; try done.
    cbn. intros H1%bool_decide_eq_true H2%bool_decide_eq_true.
    apply bool_decide_eq_true. by eapply Qcle_trans.
Qed.

(** C7 (as amended).  [getTopProducts] accumulates, for every item, the
    quantity and the revenue of the line items of every sale that is not
    voided, whatever the total of the sale: each entry it returns is the
    accumulated entry of an item.  For a limit [N] that is not negative it
    returns at most [N] entries, the first [N] of the sorted table of all
    items, and the table is in descending order of revenue whenever every
    accumulated revenue is a finite number.  For the items A with revenue
    50, B with 120 and C with 80 and [N = 2] it returns B and C, in that
    order, on every host. *)
Theorem top_products_ranked_by_revenue
  (shopId : string) (query : string -> list (string * string) -> Result Response)
  (getDateRange : Z -> Z -> DateRange)
  (sortOrder : list Product.t -> list nat) (daysAgo daysSpan N : Z)
  (fetched : Fetched.t) :
  getSales shopId query getDateRange daysAgo daysSpan = Ok fetched ->
  (0 <= N)%Z ->
  let lines := soldLines (Fetched.sales fetched) in
  let table := ranking sortOrder (Fetched.sales fetched) in
  (exists top,
     getTopProducts shopId query getDateRange sortOrder daysAgo daysSpan N = Ok top /\
     (forall entry, entry ∈ top -> exists key, entryOf lines key = Some entry) /\
     (length top <= Z.to_nat N)%nat /\
     top = take (Z.to_nat N) table /\
     (forall entry, entry ∈ table <-> exists key, entryOf lines key = Some entry) /\
     (Forall (fun entry => JS.isFinite (Product.revenue entry)) table ->
      StronglySorted revenueAtLeast table /\
      StronglySorted revenueAtLeast top)) /\
  (forall host : list Product.t -> list nat,
     Product.itemId <$> rank host Sample.abc 2 = [Some "B"; Some "C"] /\
     Product.revenue <$> rank host Sample.abc 2 = [JS.ofZ 120; JS.ofZ 80]).
Proof.
  intros Hfetch HN lines table. split.
  - unfold getTopProducts. rewrite Hfetch. eexists. split; [reflexivity|].
    unfold rank. fold table. rewrite slice0_take by done.
    split; [|split; [|split; [done|split]]].
    + intros entry Hin. apply (ranking_elem sortOrder).
      apply elem_of_take in Hin as (i & Hi & _). by eapply list_elem_of_lookup_2.
    + rewrite length_take. lia.
    + apply ranking_elem.
    + intros Hnum.
      assert (Hs : StronglySorted revenueAtLeast table).
      { apply sortedValues_sorted. unfold table, ranking, sortedValues in Hnum.
        by rewrite sort_perm in Hnum. }
      split; [done|]. by apply StronglySorted_take.
  - intros host. split; [by vm_compute|compute_done].
Qed.

Lemma top_products_ranked_by_revenue_witness :
  let lines := soldLines Sample.abc in
  let table := ranking Sample.keepOrder Sample.abc in
  (exists top,
     getTopProducts "1" (Sample.api (Sample.reply Sample.abc)) Sample.window
                    Sample.keepOrder 0 1 2
     = Ok top /\
     (forall entry, entry ∈ top -> exists key, entryOf lines key = Some entry) /\
     (length top <= Z.to_nat 2)%nat /\
     top = take (Z.to_nat 2) table /\
     (forall entry, entry ∈ table <-> exists key, entryOf lines key = Some entry) /\
     (Forall (fun entry => JS.isFinite (Product.revenue entry)) table ->
      StronglySorted revenueAtLeast table /\
      StronglySorted revenueAtLeast top)) /\
  (forall host : list Product.t -> list nat,
     Product.itemId <$> rank host Sample.abc 2 = [Some "B"; Some "C"] /\
     Product.revenue <$> rank host Sample.abc 2 = [JS.ofZ 120; JS.ofZ 80]).
Proof.
  apply (top_products_ranked_by_revenue "1" (Sample.api (Sample.reply Sample.abc))
           Sample.window Sample.keepOrder 0 1 2
           {| Fetched.sales := Sample.abc;
              Fetched.dateRange := Sample.window 0 1;
              Fetched.count := 2 |}).
  - reflexivity.
  - lia.
Defined.

(** C7 (as stated) does not hold for every transaction set and every
    [N].  A negative limit does not bound the number of entries: for the
    three items of the example and [N = -1] two entries are returned.  And
    a revenue that is [NaN] makes the comparator inconsistent, so that the
    order is left to the host: where the sort leaves such an array as it
    is, the items with the revenues 5, [NaN] and 10 are returned in that
    order, and the first two of them do not include the best seller. *)
Lemma top_products_unsorted_for_NaN :
  (exists top,
     getTopProducts "1" (Sample.api (Sample.reply Sample.abc)) Sample.window
                    Sample.keepOrder 0 1 (-1) = Ok top /\
     length top = 2%nat) /\
  consistent revenueOrder (Dict.values (foldl rankStep [] Sample.unpriced)) = false /\
  (exists all top,
     getTopProducts "1" (Sample.api (Sample.reply Sample.unpriced)) Sample.window
                    Sample.keepOrder 0 1 3 = Ok all /\
     getTopProducts "1" (Sample.api (Sample.reply Sample.unpriced)) Sample.window
                    Sample.keepOrder 0 1 2 = Ok top /\
     Product.itemId <$> all = [Some "A"; Some "B"; Some "C"] /\
     Product.revenue <$> all = [JS.ofZ 5; JS.NaN; JS.ofZ 10] /\
     Product.itemId <$> top = [Some "A"; Some "B"]).
Proof.
  split; [eexists; split; [reflexivity|by vm_compute]|].
  split; [by vm_compute|].
  eexists _, _. split; [reflexivity|]. split; [reflexivity|].
  split; [by vm_compute|]. split; [compute_done|by vm_compute].
Qed.

(** ** Ties, and the two loops side by side *)





(** The two loops treat a sale that is not voided and has a non-positive
    total differently: [getSalesMetrics] skips it, [getTopProducts]
    accumulates its line items.  The refund leaves the revenue of the
    metrics at 0 and gives item 9 a revenue of -12 in the ranking. *)
Theorem ranker_keeps_nonpositive_totals :
  (forall (getHours : string -> option (fin 24)) (a : Acc.t)
          (productSales : list (string * Product.t)) (sale : SaleRec),
     nonPositiveTotal sale = true ->
     saleStep getHours a sale = a /\
     rankStep productSales sale = foldl productStep productSales (linesOf sale)) /\
  totalRevenue (summarize Sample.isoHour "1/15/2024" [Sample.refund]) = JS.zero /\
  (forall sortOrder : list Product.t -> list nat,
     Product.revenue <$> rank sortOrder [Sample.refund] 10 = [JS.ofZ (-12)]).
Proof.
  split; [|split; [compute_done|intros sortOrder; compute_done]].
  intros getHours a productSales sale Hn. split; [by apply saleStep_nonPositive|].
  unfold nonPositiveTotal in Hn. apply andb_prop in Hn as [Hv _].
  unfold rankStep. by destruct (isVoided sale).
Qed.

(** A result of [getComparison] holds, as [current], the metrics that
    [getSalesMetrics(0, n)] returns and, as [previous], those that
    [getSalesMetrics(n, n)] returns, for [n] = 1 (daily), 7 (weekly) and
    30 (monthly); the third change is the difference of the average
    sales. *)
Theorem comparison_windows
  (shopId : string) (query : string -> list (string * string) -> Result Response)
  (getDateRange : Z -> Z -> DateRange) (getHours : string -> option (fin 24))
  (arg : option string) (r : ComparisonResult) :
  getComparison shopId query getDateRange getHours arg = Ok r ->
  let period := default "daily" arg in
  exists n : Z,
    (period = "daily" /\ n = 1%Z \/ period = "weekly" /\ n = 7%Z
     \/ period = "monthly" /\ n = 30%Z) /\
    getSalesMetrics shopId query getDateRange getHours 0 n = Ok (current r) /\
    getSalesMetrics shopId query getDateRange getHours n n = Ok (previous r) /\
    Changes.avgSale (changes r) = (avgSale (current r) - avgSale (previous r))%js.
Proof.
  unfold getComparison. cbv zeta.
  repeat case_bool_decide; cbn [mbind mret Result_bind Result_ret];
    try (intros [=]; fail);
    intros Hr;
    repeat match type of Hr with
    | context [getSalesMetrics ?a ?b ?c ?d ?e ?f] =>
        let E := fresh "E" in
        destruct (getSalesMetrics a b c d e f) eqn:E; cbn in Hr
    end; try discriminate Hr; injection Hr as <-;
    [exists 1%Z | exists 7%Z | exists 30%Z]; cbn [current previous changes Changes.avgSale];
    (split; [tauto|done]).
Qed.

Lemma comparison_windows_witness :
  exists n : Z,
    ("daily" = "daily" /\ n = 1%Z \/ "daily" = "weekly" /\ n = 7%Z
     \/ "daily" = "monthly" /\ n = 30%Z) /\
    getSalesMetrics "1" (Sample.api (Sample.reply Sample.scenario)) Sample.window
                    Sample.isoHour 0 n = Ok (current Sample.comparison) /\
    getSalesMetrics "1" (Sample.api (Sample.reply Sample.scenario)) Sample.window
                    Sample.isoHour n n = Ok (previous Sample.comparison) /\
    Changes.avgSale (changes Sample.comparison)
    = (avgSale (current Sample.comparison) - avgSale (previous Sample.comparison))%js.
Proof.
  apply (comparison_windows "1" (Sample.api (Sample.reply Sample.scenario))
           Sample.window Sample.isoHour (Some "daily") Sample.comparison).
  reflexivity.
Defined.

(** ** The aggregates as counts and sums *)

Section Totals.
Variable getHours : string -> option (fin 24).

Lemma saleStep_uncounted a sale :
  counted sale = false -> saleStep getHours a sale = a.
Proof.
  unfold counted, saleStep. destruct (isVoided sale); [done|].
  by destruct (JS.le _ _).
Qed.

Lemma foldl_lineStep_totals lines a :
  Acc.totalRevenue (foldl lineStep a lines)
  = foldl (fun acc line => (acc + lineRevenue line)%js) (Acc.totalRevenue a) lines /\
  Acc.totalCost (foldl lineStep a lines)
  = foldl (fun acc line => (acc + lineCost line)%js) (Acc.totalCost a) lines /\
  Acc.totalItems (foldl lineStep a lines)
  = foldl (fun acc line => (acc + lineQuantity line)%js) (Acc.totalItems a) lines.
Proof.
  revert a. induction lines as [|line lines IH]; intros a; [done|].
  cbn [foldl]. destruct (IH (lineStep a line)) as (-> & -> & ->). done.
Qed.

(** What one counted sale does to the variables of the loop. *)
Lemma saleStep_counted a sale :
  counted sale = true ->
  let a' := saleStep getHours a sale in
  Acc.totalTransactions a' = S (Acc.totalTransactions a) /\
  Acc.hourly a' = bump (getHours (completeTime sale)) (Acc.hourly a) /\
  Acc.channels a'
  = Dict.set (classifyChannel sale)
             (default 0 (Dict.get (classifyChannel sale) (Acc.channels a)) + 1)%nat
             (Acc.channels a) /\
  Acc.totalRevenue a'
  = foldl (fun acc line => (acc + lineRevenue line)%js) (Acc.totalRevenue a) (linesOf sale) /\
  Acc.totalCost a'
  = foldl (fun acc line => (acc + lineCost line)%js) (Acc.totalCost a) (linesOf sale) /\
  Acc.totalItems a'
  = foldl (fun acc line => (acc + lineQuantity line)%js) (Acc.totalItems a) (linesOf sale).
Proof.
  unfold counted, saleStep. destruct (isVoided sale); [done|].
  destruct (JS.le _ _); [done|]. intros _. cbv zeta.
  match goal with |- context [foldl lineStep ?c ?ls] =>
    destruct (foldl_lineStep_counts c ls) as (-> & -> & ->);
    destruct (foldl_lineStep_totals ls c) as (-> & -> & ->) end.
  done.
Qed.

Lemma countIf_snoc P sales sale :
  countIf P (sales ++ [sale]) = (countIf P sales + if P sale then 1 else 0)%nat.
Proof.
  unfold countIf. rewrite filter_app, length_app, filter_cons, filter_nil.
  destruct (P sale); [by rewrite decide_True|by rewrite decide_False].
Qed.

Lemma countedLines_snoc sales sale :
  countedLines (sales ++ [sale])
  = (countedLines sales ++ if counted sale then linesOf sale else [])%list.
Proof.
  unfold countedLines. rewrite filter_app, fmap_app, concat_app, filter_cons, filter_nil.
  destruct (counted sale).
  - rewrite decide_True by done. csimpl. by rewrite app_nil_r.
  - by rewrite decide_False by done.
Qed.

(** The variables of the loop after any transaction set. *)
Lemma aggregate_fields sales :
  let a := foldl (saleStep getHours) initial sales in
  Acc.totalTransactions a = countIf counted sales /\
  Acc.totalRevenue a = total lineRevenue (countedLines sales) /\
  Acc.totalCost a = total lineCost (countedLines sales) /\
  Acc.totalItems a = total lineQuantity (countedLines sales) /\
  (forall h, (h < 24)%nat -> Acc.hourly a !! h = Some (countIf (inHour getHours h) sales)) /\
  (forall c, default 0%nat (Dict.get c (Acc.channels a)) = countIf (inChannel c) sales) /\
  (forall c, is_Some (Dict.get c (Acc.channels a)) <-> (0 < countIf (inChannel c) sales)%nat).
Proof.
  cbv zeta. induction sales as [|sale sales IH] using rev_ind.
  - repeat split; try done.
    + intros h Hh. by apply lookup_replicate_2.
    + by intros [? ?].
    + cbn. lia.
  - rewrite foldl_app. cbn [foldl].
    destruct IH as (Ht & Hr & Hc & Hi & Hh & Hch & Hks).
    set (a := foldl (saleStep getHours) initial sales) in *.
    rewrite !countIf_snoc, countedLines_snoc.
    setoid_rewrite countIf_snoc.
    destruct (counted sale) eqn:E.
    + destruct (saleStep_counted a sale E) as (-> & -> & -> & -> & -> & ->).
      unfold total in *. rewrite !foldl_app, <- Hr, <- Hc, <- Hi, Ht.
      split; [lia|]. split; [done|]. split; [done|]. split; [done|].
      unfold inHour, inChannel. rewrite E. cbn [andb].
      split; [|split].
      * intros h Hh'. destruct (getHours (completeTime sale)) as [hour|];
          cbn [bump hourIndex]; case_bool_decide as Eh.
        -- injection Eh as <-.
           rewrite list_lookup_alter, (Hh _ Hh'), decide_True by done.
           cbn. f_equal. unfold inHour. lia.
        -- rewrite list_lookup_alter_ne by congruence. rewrite (Hh _ Hh').
           f_equal. unfold inHour. lia.
        -- done.
        -- rewrite (Hh _ Hh'). f_equal. unfold inHour. lia.
      * intros c. case_bool_decide as Ec.
        -- subst c. rewrite get_set_eq. cbn [default from_option id]. rewrite Hch.
           unfold inChannel. lia.
        -- rewrite get_set_ne by done. rewrite Hch. unfold inChannel. lia.
      * intros c. case_bool_decide as Ec.
        -- subst c. rewrite get_set_eq. split; [lia|by eexists].
        -- rewrite get_set_ne by done. rewrite Hks. unfold inChannel. lia.
    + rewrite (saleStep_uncounted a sale E). rewrite app_nil_r.
      unfold inHour, inChannel. rewrite E. cbn [andb].
      split; [lia|]. split; [done|]. split; [done|]. split; [done|].
      split; [|split].
      * intros h Hh'. rewrite (Hh _ Hh'). f_equal. unfold inHour. lia.
      * intros c. rewrite Hch. unfold inChannel. lia.
      * intros c. rewrite Hks. unfold inChannel. lia.
Qed.

End Totals.

Lemma classifyChannel_name (sale : SaleRec) : classifyChannel sale ∈ channelNames.
Proof.
  unfold classifyChannel, channelNames. destruct (Customer sale); [|by left].
  repeat match goal with |- context [if ?b then _ else _] => destruct b end;
    rewrite !elem_of_cons; tauto.
Qed.

Lemma channels_NoDup (getHours : string -> option (fin 24)) (sales : list SaleRec) :
  NoDup (Acc.channels (foldl (saleStep getHours) initial sales)).*1.
Proof.
  induction sales as [|sale sales IH] using rev_ind; [constructor|].
  rewrite foldl_app. cbn [foldl]. destruct (counted sale) eqn:E.
  - destruct (saleStep_counted getHours (foldl (saleStep getHours) initial sales) sale E)
      as (_ & _ & -> & _).
    by apply set_NoDup.
  - by rewrite saleStep_uncounted.
Qed.

Lemma countIf_pos_elem (P : SaleRec -> bool) (sales : list SaleRec) :
  (0 < countIf P sales)%nat -> exists sale, sale ∈ sales /\ P sale = true.
Proof.
  unfold countIf. destruct (filter _ sales) as [|sale rest] eqn:E; cbn; [lia|].
  intros _. exists sale.
  assert (sale ∈ filter (fun sale => P sale = true) sales) as Hin by (rewrite E; by left).
  apply list_elem_of_filter in Hin as [? ?]. done.
Qed.

(** [getSalesMetrics] counts the sales that are neither voided nor of a
    non-positive total, and adds up the sub-totals, the costs (unit cost
    times quantity, FIFO cost before average cost) and the quantities of
    all their line items, in the order of the reply. *)
Theorem metrics_are_counts_and_sums
  (shopId : string) (query : string -> list (string * string) -> Result Response)
  (getDateRange : Z -> Z -> DateRange) (getHours : string -> option (fin 24))
  (daysAgo daysSpan : Z) (fetched : Fetched.t) :
  getSales shopId query getDateRange daysAgo daysSpan = Ok fetched ->
  let sales := Fetched.sales fetched in
  exists m,
    getSalesMetrics shopId query getDateRange getHours daysAgo daysSpan = Ok m /\
    dateRange m = dateStr (Fetched.dateRange fetched) /\
    totalTransactions m = countIf counted sales /\
    (totalTransactions m <= Fetched.count fetched)%nat /\
    totalRevenue m = total lineRevenue (countedLines sales) /\
    totalCost m = total lineCost (countedLines sales) /\
    totalItems m = total lineQuantity (countedLines sales).
Proof.
  intros Hfetch sales. unfold getSalesMetrics. rewrite Hfetch.
  eexists. split; [reflexivity|].
  destruct (aggregate_fields getHours sales) as (Ht & Hr & Hc & Hi & _).
  unfold summarize, finish. cbn. fold sales. rewrite Ht, Hr, Hc, Hi.
  repeat split. unfold countIf. rewrite length_filter.
  unfold getSales in Hfetch. destruct (query _ _); [|done].
  cbn in Hfetch. injection Hfetch as <-. done.
Qed.

Lemma metrics_are_counts_and_sums_witness :
  let sales := (Sample.scenario ++ [Sample.refund])%list in
  exists m,
    getSalesMetrics "1" (Sample.api (Sample.reply sales)) Sample.window
                    Sample.isoHour 0 1 = Ok m /\
    dateRange m = "1/15/2024" /\
    totalTransactions m = countIf counted sales /\
    (totalTransactions m <= 3)%nat /\
    totalRevenue m = total lineRevenue (countedLines sales) /\
    totalCost m = total lineCost (countedLines sales) /\
    totalItems m = total lineQuantity (countedLines sales).
Proof.
  apply (metrics_are_counts_and_sums "1"
           (Sample.api (Sample.reply (Sample.scenario ++ [Sample.refund])))
           Sample.window Sample.isoHour 0 1
           {| Fetched.sales := (Sample.scenario ++ [Sample.refund])%list;
              Fetched.dateRange := Sample.window 0 1;
              Fetched.count := 3 |}).
  reflexivity.
Defined.

(** The hourly distribution and the channel mix of [getSalesMetrics] are
    histograms of the counted sales: bucket [h] holds the number of
    counted sales completed in hour [h] of the host, and a channel is a
    key of [channels] exactly when a counted sale is classified to it, with
    the number of those sales as its value.  The keys are distinct and are
    among the five channel names. *)
Theorem hourly_and_channels_are_histograms
  (shopId : string) (query : string -> list (string * string) -> Result Response)
  (getDateRange : Z -> Z -> DateRange) (getHours : string -> option (fin 24))
  (daysAgo daysSpan : Z) (fetched : Fetched.t) :
  getSales shopId query getDateRange daysAgo daysSpan = Ok fetched ->
  let sales := Fetched.sales fetched in
  exists m,
    getSalesMetrics shopId query getDateRange getHours daysAgo daysSpan = Ok m /\
    (forall h, (h < 24)%nat -> hourly m !! h = Some (countIf (inHour getHours h) sales)) /\
    (forall c n,
       Dict.get c (channels m) = Some n
       <-> n = countIf (inChannel c) sales /\ (0 < n)%nat) /\
    NoDup (channels m).*1 /\
    (forall c, c ∈ (channels m).*1 -> c ∈ channelNames).
Proof.
  intros Hfetch sales. unfold getSalesMetrics. rewrite Hfetch.
  eexists. split; [reflexivity|].
  destruct (aggregate_fields getHours sales) as (_ & _ & _ & _ & Hh & Hch & Hks).
  unfold summarize, finish. cbn. fold sales.
  set (a := foldl (saleStep getHours) initial sales) in *.
  assert (Hget : forall c n,
             Dict.get c (Acc.channels a) = Some n
             <-> n = countIf (inChannel c) sales /\ (0 < n)%nat).
  { intros c n. specialize (Hch c). specialize (Hks c). split.
    - intros Hg. rewrite Hg in Hch, Hks. cbn in Hch. subst n.
      split; [done|]. apply Hks. by eexists.
    - intros [-> Hpos]. apply Hks in Hpos as [k Hk]. rewrite Hk in Hch |- *.
      cbn in Hch. by subst k. }
  split; [done|]. split; [done|]. split; [apply channels_NoDup|].
  intros c Hc.
  destruct (Dict.get c (Acc.channels a)) as [n|] eqn:Hg.
  - apply Hget in Hg as [-> Hpos].
    apply countIf_pos_elem in Hpos as (sale & _ & Hs).
    unfold inChannel in Hs. apply andb_prop in Hs as [_ Hs%bool_decide_eq_true].
    subst c. apply classifyChannel_name.
  - by apply get_None_keys in Hg.
Qed.

Lemma hourly_and_channels_are_histograms_witness :
  let sales := Sample.tie in
  exists m,
    getSalesMetrics "1" (Sample.api (Sample.reply sales)) Sample.window
                    Sample.isoHour 0 1 = Ok m /\
    (forall h, (h < 24)%nat ->
       hourly m !! h = Some (countIf (inHour Sample.isoHour h) sales)) /\
    (forall c n,
       Dict.get c (channels m) = Some n
       <-> n = countIf (inChannel c) sales /\ (0 < n)%nat) /\
    NoDup (channels m).*1 /\
    (forall c, c ∈ (channels m).*1 -> c ∈ channelNames).
Proof.
  apply (hourly_and_channels_are_histograms "1" (Sample.api (Sample.reply Sample.tie))
           Sample.window Sample.isoHour 0 1
           {| Fetched.sales := Sample.tie;
              Fetched.dateRange := Sample.window 0 1;
              Fetched.count := 10 |}).
  reflexivity.
Defined.

(** ** Edge cases of the aggregator *)

Lemma foldl_saleStep_uncounted (getHours : string -> option (fin 24)) (sales : list SaleRec) a :
  Forall (fun sale => counted sale = false) sales ->
  foldl (saleStep getHours) a sales = a.
Proof.
  induction 1 as [|sale sales Hs _ IH]; [done|].
  cbn [foldl]. by rewrite saleStep_uncounted.
Qed.

Lemma finish_initial (dateStr : string) : finish dateStr initial = zeroMetrics dateStr.
Proof.
  assert (Hsub : (JS.zero - JS.zero)%js = JS.zero) by compute_done.
  assert (Hgt : JS.gt JS.zero JS.zero = false) by (by vm_compute).
  assert (Hpeak : indexOf (replicate 24 0%nat) (Math_max (replicate 24 0%nat)) = 0%Z)
    by (by vm_compute).
  unfold finish, zeroMetrics, initial.
  cbn [Acc.totalRevenue Acc.totalCost Acc.totalTransactions Acc.totalItems
       Acc.channels Acc.hourly].
  by rewrite Hsub, Hgt, Hpeak.
Qed.

(** When the reply holds no counted sale (it is empty, or every sale is
    voided or has a non-positive total), [getSalesMetrics] returns zeros
    throughout: no transaction, zero revenue, cost, profit, margin and
    averages, an empty channel mix, 24 empty hourly buckets, and 0 as the
    peak hour. *)
Theorem no_counted_sale_gives_zero_metrics
  (shopId : string) (query : string -> list (string * string) -> Result Response)
  (getDateRange : Z -> Z -> DateRange) (getHours : string -> option (fin 24))
  (daysAgo daysSpan : Z) (fetched : Fetched.t) :
  getSales shopId query getDateRange daysAgo daysSpan = Ok fetched ->
  Forall (fun sale => counted sale = false) (Fetched.sales fetched) ->
  getSalesMetrics shopId query getDateRange getHours daysAgo daysSpan
  = Ok (zeroMetrics (dateStr (Fetched.dateRange fetched))).
Proof.
  intros Hfetch Hnone. unfold getSalesMetrics. rewrite Hfetch.
  cbn [mbind mret Result_bind Result_ret]. f_equal. unfold summarize.
  rewrite foldl_saleStep_uncounted by done. apply finish_initial.
Qed.

Lemma no_counted_sale_gives_zero_metrics_witness :
  getSalesMetrics "1" (Sample.api (Sample.reply [Sample.refund])) Sample.window
                  Sample.isoHour 0 1
  = Ok (zeroMetrics "1/15/2024").
Proof.
  apply (no_counted_sale_gives_zero_metrics "1"
           (Sample.api (Sample.reply [Sample.refund])) Sample.window Sample.isoHour 0 1
           {| Fetched.sales := [Sample.refund];
              Fetched.dateRange := Sample.window 0 1;
              Fetched.count := 1 |}).
  - reflexivity.
  - repeat constructor.
Defined.

Lemma countIf_app P (a b : list SaleRec) :
  countIf P (a ++ b) = (countIf P a + countIf P b)%nat.
Proof. unfold countIf. by rewrite filter_app, length_app. Qed.

(** The counts of [getSalesMetrics] add up over a split of the transaction
    set: the number of transactions, every hourly bucket and every channel
    count of the whole set are the sums of those of the two parts. *)
Theorem counts_add_over_a_split
  (getHours : string -> option (fin 24)) (dateStr : string) (a b : list SaleRec) :
  let ma := summarize getHours dateStr a in
  let mb := summarize getHours dateStr b in
  let m := summarize getHours dateStr (a ++ b) in
  totalTransactions m = (totalTransactions ma + totalTransactions mb)%nat /\
  (forall h, (h < 24)%nat ->
     exists x y, hourly ma !! h = Some x /\ hourly mb !! h = Some y /\
                 hourly m !! h = Some (x + y)%nat) /\
  (forall c,
     default 0%nat (Dict.get c (channels m))
     = (default 0%nat (Dict.get c (channels ma))
        + default 0%nat (Dict.get c (channels mb)))%nat).
Proof.
  cbv zeta. unfold summarize, finish. cbn.
  destruct (aggregate_fields getHours a) as (Hta & _ & _ & _ & Hha & Hca & _).
  destruct (aggregate_fields getHours b) as (Htb & _ & _ & _ & Hhb & Hcb & _).
  destruct (aggregate_fields getHours (a ++ b)) as (Ht & _ & _ & _ & Hh & Hc & _).
  cbv zeta in *. rewrite Ht, Hta, Htb. split; [apply countIf_app|]. split.
  - intros h Hlt. eexists _, _. split; [by apply Hha|]. split; [by apply Hhb|].
    rewrite Hh by done. f_equal. apply countIf_app.
  - intros c. rewrite Hc, Hca, Hcb. apply countIf_app.
Qed.

(** The averages of [getSalesMetrics] are the revenue and the item count
    divided by the number of transactions when there is one, and 0 when
    there is none; the division is never by zero, so the average sale of a
    finite revenue is finite, and so is the average of a finite item
    count. *)
Theorem averages_are_guarded_quotients
  (shopId : string) (query : string -> list (string * string) -> Result Response)
  (getDateRange : Z -> Z -> DateRange) (getHours : string -> option (fin 24))
  (daysAgo daysSpan : Z) (m : SalesMetrics) :
  getSalesMetrics shopId query getDateRange getHours daysAgo daysSpan = Ok m ->
  ((0 < totalTransactions m)%nat ->
   avgSale m = (totalRevenue m / JS.ofNat (totalTransactions m))%js /\
   avgItems m = (totalItems m / JS.ofNat (totalTransactions m))%js) /\
  (totalTransactions m = 0%nat -> avgSale m = JS.zero /\ avgItems m = JS.zero) /\
  (JS.isFinite (totalRevenue m) -> JS.isFinite (avgSale m)) /\
  (JS.isFinite (totalItems m) -> JS.isFinite (avgItems m)).
Proof.
  intros (fetched & _ & ->)%getSalesMetrics_Ok.
  unfold summarize, finish. cbn. set (a := foldl _ _ _).
  assert (Hfin : forall x, JS.isFinite x ->
            JS.isFinite (if bool_decide (0 < Acc.totalTransactions a)%nat
                         then (x / JS.ofNat (Acc.totalTransactions a))%js else JS.zero)).
  { intros [q| | |] Hx; try done. case_bool_decide as Hpos; [|done].
    pose proof (ofNat_pos (Acc.totalTransactions a)) as Hgt.
    rewrite bool_decide_eq_true_2 in Hgt by done.
    apply gt_zero_Fin in Hgt as [Hq|(p & Hp & Hlt)].
    - discriminate Hq.
    - rewrite Hp. by rewrite div_Fin_nonzero by by apply Qclt_ne. }
  split; [|split; [|split]].
  - intros Hpos. by rewrite !bool_decide_eq_true_2.
  - by intros ->.
  - apply Hfin.
  - apply Hfin.
Qed.

Lemma averages_are_guarded_quotients_witness :
  let m := summarize Sample.isoHour "1/15/2024" Sample.scenario in
  ((0 < totalTransactions m)%nat ->
   avgSale m = (totalRevenue m / JS.ofNat (totalTransactions m))%js /\
   avgItems m = (totalItems m / JS.ofNat (totalTransactions m))%js) /\
  (totalTransactions m = 0%nat -> avgSale m = JS.zero /\ avgItems m = JS.zero) /\
  (JS.isFinite (totalRevenue m) -> JS.isFinite (avgSale m)) /\
  (JS.isFinite (totalItems m) -> JS.isFinite (avgItems m)).
Proof.
  apply (averages_are_guarded_quotients "1"
           (Sample.api (Sample.reply Sample.scenario)) Sample.window Sample.isoHour 0 1).
  reflexivity.
Defined.

(** ** Edge cases of the ranker *)

Lemma entryOf_None (lines : list Line) (key : string) :
  entryOf lines key = None <-> key ∉ lineKey <$> lines.
Proof.
  unfold entryOf. rewrite list_elem_of_fmap. split.
  - destruct (filter _ lines) as [|first own] eqn:Ef; [|done].
    intros _ (line & -> & Hin).
    assert (line ∈ filter (fun l => lineKey l = lineKey line) lines) as Hf
      by by apply list_elem_of_filter.
    rewrite Ef in Hf. by apply elem_of_nil in Hf.
  - intros Hout. destruct (filter _ lines) as [|first own] eqn:Ef; [done|].
    exfalso. apply Hout. exists first.
    assert (first ∈ filter (fun l => lineKey l = key) lines) as Hf
      by (rewrite Ef; by left).
    apply list_elem_of_filter in Hf as [? ?]. done.
Qed.

(** The ranking has one entry for every distinct item key. *)
Lemma ranking_length (sortOrder : list Product.t -> list nat) (sales : list SaleRec) :
  length (ranking sortOrder sales) = itemCount (soldLines sales).
Proof.
  unfold ranking, sortedValues, itemCount.
  rewrite sort_perm, values_perm, length_fmap, foldl_rankStep_soldLines.
  rewrite <- (length_fmap fst). apply Permutation_length.
  apply NoDup_Permutation.
  - by apply foldl_productStep_NoDup, NoDup_nil_2.
  - apply NoDup_remove_dups.
  - intros key. rewrite elem_of_remove_dups.
    destruct (decide (key ∈ lineKey <$> soldLines sales)) as [Hin|Hout].
    + split; [done|]. intros _.
      destruct (decide (key ∈ (foldl productStep [] (soldLines sales)).*1)) as [|Hno];
        [done|].
      apply get_None_keys in Hno. rewrite foldl_productStep_get in Hno.
      by apply entryOf_None in Hno.
    + split; [|done]. intros Hk. exfalso.
      apply entryOf_None in Hout. rewrite <- foldl_productStep_get in Hout.
      by apply get_None_keys in Hout.
Qed.

(** [getTopProducts] returns [min(N, k)] entries when the limit [N] is not
    negative, [k] being the number of distinct items sold: none for
    [N = 0] or an empty reply, all items when [N >= k].  For a negative
    limit [slice] counts from the end: the result is the ranking without
    its last [-N] entries. *)
Theorem top_products_count
  (shopId : string) (query : string -> list (string * string) -> Result Response)
  (getDateRange : Z -> Z -> DateRange)
  (sortOrder : list Product.t -> list nat) (daysAgo daysSpan N : Z)
  (fetched : Fetched.t) :
  getSales shopId query getDateRange daysAgo daysSpan = Ok fetched ->
  let k := itemCount (soldLines (Fetched.sales fetched)) in
  exists top,
    getTopProducts shopId query getDateRange sortOrder daysAgo daysSpan N = Ok top /\
    ((0 <= N)%Z -> length top = Nat.min (Z.to_nat N) k) /\
    ((N < 0)%Z ->
     top = take (k - Z.to_nat (- N)) (ranking sortOrder (Fetched.sales fetched)) /\
     length top = (k - Z.to_nat (- N))%nat).
Proof.
  intros Hfetch k. unfold getTopProducts. rewrite Hfetch.
  eexists. split; [reflexivity|]. unfold rank.
  pose proof (ranking_length sortOrder (Fetched.sales fetched)) as Hlen. fold k in Hlen.
  split.
  - intros HN. rewrite slice0_take, length_take by done. lia.
  - intros HN. unfold slice0. rewrite Hlen.
    destruct (N <? 0)%Z eqn:E; [|lia].
    replace (Z.to_nat (Z.max (Z.of_nat k + N) 0)) with (k - Z.to_nat (- N))%nat by lia.
    split; [done|]. rewrite length_take. lia.
Qed.

Lemma top_products_count_witness :
  let k := itemCount (soldLines Sample.abc) in
  exists top,
    getTopProducts "1" (Sample.api (Sample.reply Sample.abc)) Sample.window
                   Sample.keepOrder 0 1 (-1)
    = Ok top /\
    ((0 <= -1)%Z -> length top = Nat.min (Z.to_nat (-1)) k) /\
    ((-1 < 0)%Z ->
     top = take (k - Z.to_nat (- -1)) (ranking Sample.keepOrder Sample.abc) /\
     length top = (k - Z.to_nat (- -1))%nat).
Proof.
  apply (top_products_count "1" (Sample.api (Sample.reply Sample.abc))
           Sample.window Sample.keepOrder 0 1 (-1)
           {| Fetched.sales := Sample.abc;
              Fetched.dateRange := Sample.window 0 1;
              Fetched.count := 2 |}).
  reflexivity.
Defined.

(** Every entry of the ranking carries the identifier and the
    description of the first line of its item: the description is
    ["Unknown"] when that line has no item record or an empty or missing
    description, whatever the later lines of the item say, and it is never
    empty. *)
Theorem description_from_first_line
  (sortOrder : list Product.t -> list nat) (sales : list SaleRec) (entry : Product.t) :
  entry ∈ ranking sortOrder sales ->
  exists first rest,
    filter (fun line => lineKey line = keyOf (Product.itemId entry)) (soldLines sales)
    = first :: rest /\
    Product.itemId entry = itemID first /\
    Product.description entry
    = match Item first ≫= description with
      | Some text => if bool_decide (text = "") then "Unknown" else text
      | None => "Unknown"
      end /\
    Product.description entry <> "".
Proof.
  intros (key & Hkey)%ranking_elem. unfold entryOf in Hkey.
  destruct (filter _ (soldLines sales)) as [|first rest] eqn:Ef; [done|].
  injection Hkey as <-. cbn [Product.itemId Product.description].
  assert (first ∈ filter (fun l => lineKey l = key) (soldLines sales)) as Hf
    by (rewrite Ef; by left).
  apply list_elem_of_filter in Hf as [Hk _]. unfold lineKey in Hk.
  exists first, rest. rewrite Hk. split; [done|]. split; [done|].
  destruct (Item first ≫= description) as [text|]; cbn; [|done].
  case_bool_decide; done.
Qed.

Lemma description_from_first_line_witness :
  exists first rest,
    filter (fun line => lineKey line = keyOf (Some "A")) (soldLines Sample.abc)
    = first :: rest /\
    Some "A" = itemID first /\
    "Item A"
    = match Item first ≫= description with
      | Some text => if bool_decide (text = "") then "Unknown" else text
      | None => "Unknown"
      end /\
    "Item A" <> "".
Proof.
  apply (description_from_first_line Sample.keepOrder Sample.abc
           {| Product.itemId := Some "A";
              Product.description := "Item A";
              Product.quantity := JS.ofZ 3;
              Product.revenue := JS.ofZ 50 |}).
  apply ranking_elem. exists "A". compute_done.
Defined.

(** ** Failures of the POS API *)

(** [getSales], [getSalesMetrics] and [getTopProducts] throw exactly when
    the GET of the sales throws, and then they throw its error: the error
    is not replaced or swallowed, and nothing else in them fails. *)
Theorem upstream_error_propagates
  (shopId : string) (query : string -> list (string * string) -> Result Response)
  (getDateRange : Z -> Z -> DateRange) (getHours : string -> option (fin 24))
  (sortOrder : list Product.t -> list nat)
  (daysAgo daysSpan limit : Z) (e : Error) :
  let request := query "Sale.json" (saleParams shopId (getDateRange daysAgo daysSpan)) in
  (getSales shopId query getDateRange daysAgo daysSpan = Throw e <-> request = Throw e) /\
  (getSalesMetrics shopId query getDateRange getHours daysAgo daysSpan = Throw e
   <-> request = Throw e) /\
  (getTopProducts shopId query getDateRange sortOrder daysAgo daysSpan limit = Throw e
   <-> request = Throw e).
Proof.
  cbv zeta. unfold getSalesMetrics, getTopProducts, getSales.
  destruct (query _ _) as [data|e']; cbn [mbind mret Result_bind Result_ret];
    repeat split; intros [=]; by subst.
Qed.

Lemma upstream_error_propagates_witness :
  let e := UpstreamError "Request failed with status code 404" in
  getSales "1" (fun _ _ => Throw e) Sample.window 0 1 = Throw e /\
  getSalesMetrics "1" (fun _ _ => Throw e) Sample.window Sample.isoHour 0 1 = Throw e /\
  getTopProducts "1" (fun _ _ => Throw e) Sample.window Sample.keepOrder 0 1 10 = Throw e.
Proof.
  intros e.
  destruct (upstream_error_propagates "1" (fun _ _ => Throw e) Sample.window
              Sample.isoHour Sample.keepOrder 0 1 10 e) as (H1 & H2 & H3).
  split; [by apply H1|]. split; [by apply H2|by apply H3].
Defined.

(** For a known period [getComparison] fetches the current window and then
    the previous one: it returns a result holding both metrics when both
    fetches succeed, and throws the error of the first fetch that
    fails. *)
Theorem comparison_result_or_first_error
  (shopId : string) (query : string -> list (string * string) -> Result Response)
  (getDateRange : Z -> Z -> DateRange) (getHours : string -> option (fin 24))
  (arg : option string) (n : Z) :
  periodSpan (default "daily" arg) = Some n ->
  let fetch := getSalesMetrics shopId query getDateRange getHours in
  let compare := getComparison shopId query getDateRange getHours in
  (forall cur prev,
     fetch 0%Z n = Ok cur -> fetch n n = Ok prev ->
     exists r, compare arg = Ok r /\ current r = cur /\ previous r = prev) /\
  (forall e, fetch 0%Z n = Throw e -> compare arg = Throw e) /\
  (forall cur e, fetch 0%Z n = Ok cur -> fetch n n = Throw e -> compare arg = Throw e).
Proof.
  unfold periodSpan, getComparison. cbv zeta.
  repeat case_bool_decide; intros [= <-];
    cbn [mbind mret Result_bind Result_ret];
    (split; [|split]).
  all: try (intros cur prev -> ->; cbn; by eexists).
  all: try (intros e ->; by cbn).
  all: intros cur e -> ->; by cbn.
Qed.

Lemma comparison_result_or_first_error_witness :
  let fetch :=
    getSalesMetrics "1" (Sample.api (Sample.reply Sample.scenario)) Sample.window
                    Sample.isoHour in
  let compare :=
    getComparison "1" (Sample.api (Sample.reply Sample.scenario)) Sample.window
                  Sample.isoHour in
  (forall cur prev,
     fetch 0%Z 7%Z = Ok cur -> fetch 7%Z 7%Z = Ok prev ->
     exists r, compare (Some "weekly") = Ok r /\ current r = cur /\ previous r = prev) /\
  (forall e, fetch 0%Z 7%Z = Throw e -> compare (Some "weekly") = Throw e) /\
  (forall cur e,
     fetch 0%Z 7%Z = Ok cur -> fetch 7%Z 7%Z = Throw e ->
     compare (Some "weekly") = Throw e).
Proof.
  apply (comparison_result_or_first_error "1"
           (Sample.api (Sample.reply Sample.scenario)) Sample.window Sample.isoHour
           (Some "weekly") 7).
  reflexivity.
Defined.

(** ** The date window *)

Lemma string_app_assoc (a b c : string) : (a ++ b) ++ c = a ++ b ++ c.
Proof.
  induction a as [|x a IH]; [done|].
  change (String x ((a ++ b) ++ c) = String x (a ++ b ++ c)). by f_equal.
Qed.

Example window_of_today :
  Clock.getDateRange SampleHost.host 0 1
  = {| start := "2024-01-15T00:00:00-05:00";
       end_ := "2024-01-16T23:59:59-05:00";
       dateStr := "1/15/2024" |}.
Proof. by vm_compute. Qed.

Example window_across_a_year :
  Clock.getDateRange SampleHost.host 30 30
  = {| start := "2023-12-16T00:00:00-05:00";
       end_ := "2024-01-15T23:59:59-05:00";
       dateStr := "12/16/2023" |}.
Proof. by vm_compute. Qed.

Lemma setDate_dayNumber (host : Clock.Host) (d : Clock.Date) (v : Z) :
  Clock.dayNumber (Clock.setDate host v d)
  = (Clock.dayNumber d + (v - Z.of_nat (Clock.getDate host d)))%Z.
Proof. cbn. lia. Qed.

Lemma formatDate_text (host : Clock.Host) (date : Clock.Date) :
  Clock.formatDate host date
  = Clock.dayText host (Clock.dayNumber date) ++ "T"
    ++ Clock.padStart 2 "0" (Clock.decimal (Clock.hours date)) ++ ":"
    ++ Clock.padStart 2 "0" (Clock.decimal (Clock.minutes date)) ++ ":"
    ++ Clock.padStart 2 "0" (Clock.decimal (Clock.seconds date))
    ++ Clock.offset host.
Proof.
  unfold Clock.formatDate, Clock.dayText, Clock.getFullYear, Clock.getMonth,
    Clock.getDate.
  destruct (Clock.civil host (Clock.dayNumber date)) as [[y m] d]. cbn [fst snd].
  by rewrite !string_app_assoc.
Qed.

(** The window of [getDateRange(daysAgo, daysSpan)] starts at 00:00:00 of
    the day [daysAgo] days before today and ends at 23:59:59 of the day
    [daysSpan] days after its first day, so it covers [daysSpan + 1]
    calendar days: the window of today, [(0, 1)], runs to the end of
    tomorrow.  The offset is [-04:00] when the zone name in the formatted
    time contains EDT, and [-05:00] for every other zone name. *)
Theorem date_window_covers_one_more_day (host : Clock.Host) (daysAgo daysSpan : Z) :
  let today := Clock.dayNumber (Clock.estDate host) in
  let window := Clock.getDateRange host daysAgo daysSpan in
  start window
  = Clock.dayText host (today - daysAgo) ++ "T00:00:00" ++ Clock.offset host /\
  end_ window
  = Clock.dayText host (today - daysAgo + daysSpan) ++ "T23:59:59" ++ Clock.offset host /\
  Clock.offset host
  = (if Str.includes (Clock.zoneStamp host) "EDT" then "-04:00" else "-05:00").
Proof.
  cbv zeta. unfold Clock.getDateRange. cbn [start end_].
  rewrite !formatDate_text.
  cbn [Clock.dayNumber Clock.hours Clock.minutes Clock.seconds Clock.setHours].
  rewrite !setDate_dayNumber.
  cbn [Clock.dayNumber Clock.hours Clock.minutes Clock.seconds Clock.setHours].
  rewrite !setDate_dayNumber.
  split; [|split].
  - f_equal. f_equal. lia.
  - f_equal. f_equal. unfold Clock.getDate. cbn [Clock.dayNumber Clock.setHours]. lia.
  - done.
Qed.

Lemma date_window_covers_one_more_day_witness :
  (start (Clock.getDateRange SampleHost.summer 0 1) = "2024-07-04T00:00:00-04:00" /\
   end_ (Clock.getDateRange SampleHost.summer 0 1) = "2024-07-05T23:59:59-04:00" /\
   Clock.offset SampleHost.summer = "-04:00") /\
  (start (Clock.getDateRange SampleHost.host 7 7) = "2024-01-08T00:00:00-05:00" /\
   end_ (Clock.getDateRange SampleHost.host 7 7) = "2024-01-15T23:59:59-05:00" /\
   Clock.offset SampleHost.host = "-05:00").
Proof.
  split.
  - destruct (date_window_covers_one_more_day SampleHost.summer 0 1) as (-> & -> & ->).
    by vm_compute.
  - destruct (date_window_covers_one_more_day SampleHost.host 7 7) as (-> & -> & ->).
    by vm_compute.
Defined.

(** The window that starts [daysSpan] days earlier ends on the very day on
    which a window begins: [getDateRange(daysAgo + daysSpan, daysSpan)]
    ends at 23:59:59 of the first day of
    [getDateRange(daysAgo, daysSpan)].  The two windows of [getComparison],
    [(n, n)] and [(0, n)], therefore both contain today. *)
Theorem adjacent_windows_share_a_day (host : Clock.Host) (daysAgo daysSpan : Z) :
  let day := Clock.dayText host (Clock.dayNumber (Clock.estDate host) - daysAgo) in
  end_ (Clock.getDateRange host (daysAgo + daysSpan) daysSpan)
  = day ++ "T23:59:59" ++ Clock.offset host /\
  start (Clock.getDateRange host daysAgo daysSpan)
  = day ++ "T00:00:00" ++ Clock.offset host /\
  (forall n,
     end_ (Clock.getDateRange host n n)
     = Clock.dayText host (Clock.dayNumber (Clock.estDate host))
       ++ "T23:59:59" ++ Clock.offset host /\
     start (Clock.getDateRange host 0 n)
     = Clock.dayText host (Clock.dayNumber (Clock.estDate host))
       ++ "T00:00:00" ++ Clock.offset host).
Proof.
  cbv zeta.
  assert (Hpair : forall a s,
    end_ (Clock.getDateRange host (a + s) s)
    = Clock.dayText host (Clock.dayNumber (Clock.estDate host) - a)
      ++ "T23:59:59" ++ Clock.offset host /\
    start (Clock.getDateRange host a s)
    = Clock.dayText host (Clock.dayNumber (Clock.estDate host) - a)
      ++ "T00:00:00" ++ Clock.offset host).
  { intros a s.
    destruct (date_window_covers_one_more_day host (a + s) s) as (_ & -> & _).
    destruct (date_window_covers_one_more_day host a s) as (-> & _).
    split; [|done]. do 2 f_equal. lia. }
  split; [apply Hpair|]. split; [apply Hpair|].
  intros n. specialize (Hpair 0%Z n).
  rewrite Z.add_0_l, Z.sub_0_r in Hpair. exact Hpair.
Qed.

(** ** Substrings *)

Lemma prefix_spec (p s : string) :
  String.prefix p s = true <-> exists b, s = p ++ b.
Proof.
  revert s. induction p as [|c p IH]; intros s.
  - rewrite prefix_nil_l. split; [|done]. intros _. by exists s.
  - destruct s as [|d s].
    + rewrite prefix_empty by done. split; [done|]. by intros [b [=]].
    + rewrite prefix_cons. rewrite andb_true_iff, bool_decide_eq_true, IH. split.
      * intros [-> [b ->]]. by exists b.
      * intros [b [= -> ->]]. split; [done|]. by exists b.
Qed.

Lemma includes_spec (s p : string) :
  Str.includes s p = true <-> exists a b, s = a ++ p ++ b.
Proof.
  induction s as [|c s IH].
  - cbn [Str.includes]. rewrite orb_false_r, prefix_spec. split.
    + intros [b ->]. by exists "", b.
    + intros (a & b & Hs). destruct a; [by exists b|done].
  - rewrite includes_cons, orb_true_iff, prefix_spec, IH. split.
    + intros [[b ->]|(a & b & ->)]; [by exists "", b|by exists (String c a), b].
    + intros ([|d a] & b & Hs).
      * left. by exists b.
      * right. injection Hs as -> ->. by exists a, b.
Qed.

Lemma includes_trans (s t u : string) :
  Str.includes s t = true -> Str.includes t u = true -> Str.includes s u = true.
Proof.
  rewrite !includes_spec. intros (a & b & ->) (a' & b' & ->).
  exists (a ++ a'), (b' ++ b). by rewrite !string_app_assoc.
Qed.

Lemma includes_nil (s : string) : Str.includes s "" = true.
Proof. apply includes_spec. by exists "", s. Qed.

(** ** Search *)

Lemma matchesTerm_narrow (t u : string) (sale : SaleRec) :
  Str.includes t u = true -> matchesTerm t sale = true -> matchesTerm u sale = true.
Proof.
  intros Htu. unfold matchesTerm. rewrite !orb_true_iff. intros [Hname|Hline].
  - left. destruct (Customer sale); [|done]. by eapply includes_trans.
  - right. apply existsb_exists in Hline as (line & Hin & Hl).
    apply existsb_exists. exists line. split; [done|].
    destruct (lineText line); [|done]. by eapply includes_trans.
Qed.

Lemma filter_sublist_impl {A} (P Q : A -> Prop)
  `{!forall x, Decision (P x)} `{!forall x, Decision (Q x)} (l : list A) :
  (forall x, P x -> Q x) -> filter P l `sublist_of` filter Q l.
Proof.
  intros HPQ. induction l as [|x l IH]; [done|]. rewrite !filter_cons.
  destruct (decide (P x)) as [HP|HP].
  - rewrite decide_True by auto. by constructor.
  - destruct (decide (Q x)); [by constructor|done].
Qed.

(** A term contained in another one finds at least as much: when the
    lower-case form of [narrow] occurs in the lower-case form of [wide],
    the sales that [searchSales] finds for [wide] are a sub-sequence of
    those it finds for [narrow].  In particular the letter case of the term
    does not matter. *)
Theorem contained_term_finds_more
  (shopId : string) (query : string -> list (string * string) -> Result Response)
  (getDateRange : Z -> Z -> DateRange) (daysAgo daysSpan : Z)
  (wide narrow : string) (fetched : Fetched.t) :
  getSales shopId query getDateRange daysAgo daysSpan = Ok fetched ->
  Str.includes (Str.toLowerCase wide) (Str.toLowerCase narrow) = true ->
  exists found found',
    searchSales shopId query getDateRange wide daysAgo daysSpan = Ok found /\
    searchSales shopId query getDateRange narrow daysAgo daysSpan = Ok found' /\
    found `sublist_of` found' /\
    found' `sublist_of` Fetched.sales fetched.
Proof.
  intros Hfetch Hsub. unfold searchSales. rewrite Hfetch.
  eexists _, _. split; [reflexivity|]. split; [reflexivity|]. split.
  - apply filter_sublist_impl. intros sale. by apply matchesTerm_narrow.
  - apply sublist_filter.
Qed.

Lemma contained_term_finds_more_witness :
  exists found found',
    searchSales "1" (Sample.api (Sample.reply [Sample.doorDashOrder; Sample.regularOrder]))
                Sample.window "DoorDash" 0 7 = Ok found /\
    searchSales "1" (Sample.api (Sample.reply [Sample.doorDashOrder; Sample.regularOrder]))
                Sample.window "DO" 0 7 = Ok found' /\
    found `sublist_of` found' /\
    found' `sublist_of` [Sample.doorDashOrder; Sample.regularOrder].
Proof.
  apply (contained_term_finds_more "1"
           (Sample.api (Sample.reply [Sample.doorDashOrder; Sample.regularOrder]))
           Sample.window 0 7 "DoorDash" "DO"
           {| Fetched.sales := [Sample.doorDashOrder; Sample.regularOrder];
              Fetched.dateRange := Sample.window 0 7;
              Fetched.count := 2 |}).
  - reflexivity.
  - by vm_compute.
Defined.

Lemma matchesTerm_searchable (term : string) (sale : SaleRec) :
  matchesTerm term sale = true -> searchable sale = true.
Proof.
  unfold matchesTerm, searchable. rewrite !orb_true_iff. intros [Hname|Hline].
  - left. destruct (Customer sale); [|done]. by apply bool_decide_eq_true_2.
  - right. apply existsb_exists in Hline as (line & Hin & Hl).
    apply existsb_exists. exists line. split; [done|].
    destruct (lineText line); [|done]. by apply bool_decide_eq_true_2.
Qed.

Lemma matchesTerm_nil (sale : SaleRec) : matchesTerm "" sale = searchable sale.
Proof.
  unfold matchesTerm, searchable. f_equal.
  - destruct (Customer sale); [|done]. rewrite includes_nil.
    symmetry. by apply bool_decide_eq_true_2.
  - induction (linesOf sale) as [|line lines IH]; [done|]. cbn [existsb].
    rewrite IH. f_equal. destruct (lineText line); [|done].
    rewrite includes_nil. symmetry. by apply bool_decide_eq_true_2.
Qed.

(** [searchSales] looks at the customer name and at the item descriptions
    only: whatever the term, it never finds a sale that has no customer
    and no line with a non-empty description, and the empty term finds
    exactly the other sales, voided ones and refunds included. *)
Theorem empty_term_finds_what_can_be_searched
  (shopId : string) (query : string -> list (string * string) -> Result Response)
  (getDateRange : Z -> Z -> DateRange) (daysAgo daysSpan : Z) (fetched : Fetched.t) :
  getSales shopId query getDateRange daysAgo daysSpan = Ok fetched ->
  searchSales shopId query getDateRange "" daysAgo daysSpan
  = Ok (filter (fun sale => searchable sale = true) (Fetched.sales fetched)) /\
  (forall term,
     exists found,
       searchSales shopId query getDateRange term daysAgo daysSpan = Ok found /\
       forall sale, sale ∈ found -> sale ∈ Fetched.sales fetched /\ searchable sale = true).
Proof.
  intros Hfetch. unfold searchSales. rewrite Hfetch.
  cbn [mbind mret Result_bind Result_ret]. split.
  - f_equal. apply list_filter_iff. intros sale. cbn [Str.toLowerCase].
    by rewrite matchesTerm_nil.
  - intros term. eexists. split; [reflexivity|].
    intros sale [Hm Hin]%list_elem_of_filter. split; [done|].
    by eapply matchesTerm_searchable.
Qed.

Lemma empty_term_finds_what_can_be_searched_witness :
  searchSales "1" (Sample.api (Sample.reply Sample.scenario)) Sample.window "" 0 7
  = Ok (filter (fun sale => searchable sale = true) Sample.scenario) /\
  (forall term,
     exists found,
       searchSales "1" (Sample.api (Sample.reply Sample.scenario)) Sample.window term 0 7
       = Ok found /\
       forall sale, sale ∈ found -> sale ∈ Sample.scenario /\ searchable sale = true).
Proof.
  apply (empty_term_finds_what_can_be_searched "1"
           (Sample.api (Sample.reply Sample.scenario)) Sample.window 0 7
           {| Fetched.sales := Sample.scenario;
              Fetched.dateRange := Sample.window 0 7;
              Fetched.count := 2 |}).
  reflexivity.
Defined.

(** A customer record without a first or without a last name is searched
    under the text "undefined": [searchSales] finds every fetched sale of
    such a customer for the term "undefined", in any letter case. *)
Theorem missing_name_is_found_as_undefined
  (shopId : string) (query : string -> list (string * string) -> Result Response)
  (getDateRange : Z -> Z -> DateRange) (daysAgo daysSpan : Z) (fetched : Fetched.t)
  (term : string) (sale : SaleRec) (customer : CustomerRec) :
  getSales shopId query getDateRange daysAgo daysSpan = Ok fetched ->
  sale ∈ Fetched.sales fetched ->
  Customer sale = Some customer ->
  firstName customer = None \/ lastName customer = None ->
  Str.toLowerCase term = "undefined" ->
  exists found,
    searchSales shopId query getDateRange term daysAgo daysSpan = Ok found /\
    sale ∈ found.
Proof.
  intros Hfetch Hin Hc Hmissing Hterm. unfold searchSales. rewrite Hfetch.
  eexists. split; [reflexivity|]. apply list_elem_of_filter. split; [|done].
  rewrite Hterm. unfold matchesTerm. rewrite Hc. apply orb_true_iff. left.
  rewrite !toLowerCase_app. apply includes_spec.
  destruct Hmissing as [-> | ->]; cbn [templateText default].
  - by exists "", (Str.toLowerCase " " ++ Str.toLowerCase (templateText (lastName customer))).
  - exists (Str.toLowerCase (templateText (firstName customer)) ++ Str.toLowerCase " "), "".
    rewrite string_app_assoc. by do 2 f_equal.
Qed.

Lemma missing_name_is_found_as_undefined_witness :
  let anonymous :=
    Sample.sale "true" "9.00" "2024-01-15T09:00:00-05:00"
                (Some {| firstName := Some "Ann"; lastName := None |}) [] in
  exists found,
    searchSales "1" (Sample.api (Sample.reply [anonymous])) Sample.window
                "Undefined" 0 7 = Ok found /\
    anonymous ∈ found.
Proof.
  cbv zeta.
  apply (missing_name_is_found_as_undefined "1"
           (Sample.api (Sample.reply
              [Sample.sale "true" "9.00" "2024-01-15T09:00:00-05:00"
                 (Some {| firstName := Some "Ann"; lastName := None |}) []]))
           Sample.window 0 7
           {| Fetched.sales :=
                [Sample.sale "true" "9.00" "2024-01-15T09:00:00-05:00"
                   (Some {| firstName := Some "Ann"; lastName := None |}) []];
              Fetched.dateRange := Sample.window 0 7;
              Fetched.count := 1 |}
           "Undefined" _ {| firstName := Some "Ann"; lastName := None |}).
  - reflexivity.
  - by left.
  - reflexivity.
  - by right.
  - reflexivity.
Defined.

(** ** The query router *)

Lemma lowerChar_idemp (c : ascii) : Str.lowerChar (Str.lowerChar c) = Str.lowerChar c.
Proof. by destruct c as [[] [] [] [] [] [] [] []]. Qed.

Lemma toLowerCase_idemp (s : string) :
  Str.toLowerCase (Str.toLowerCase s) = Str.toLowerCase s.
Proof.
  induction s as [|c s IH]; [done|].
  cbn [Str.toLowerCase]. by rewrite lowerChar_idemp, IH.
Qed.

Lemma router_keywords (question : string) :
  existsb (Str.includes question) routerKeywords = false ->
  Str.includes question "today" = false /\
  (Str.includes question "top" || Str.includes question "best"
   || Str.includes question "selling") = false /\
  Str.includes question "week" = false /\
  (Str.includes question "channel" || Str.includes question "delivery") = false.
Proof.
  unfold routerKeywords. cbn [existsb].
  rewrite !orb_false_iff. intros (-> & -> & -> & -> & -> & -> & -> & _). done.
Qed.

Section RouterFacts.

Variable shopId : string.
Variable query : string -> list (string * string) -> Result Response.
Variable getDateRange : Z -> Z -> DateRange.
Variable getHours : string -> option (fin 24).
Variable sortOrder : list Product.t -> list nat.
Variable toFixed : nat -> JS.Number -> string.
Variable numberText : JS.Number -> string.

Let respond :=
  getIntelligentResponse shopId query getDateRange getHours sortOrder toFixed numberText.

Lemma respond_without_keyword (userQuestion : string) :
  existsb (Str.includes (Str.toLowerCase userQuestion)) routerKeywords = false ->
  respond userQuestion = Ok fallbackText.
Proof.
  intros (Htoday & Htop & Hweek & Hchannel)%router_keywords.
  unfold respond, getIntelligentResponse, todaySection, topSection, weekSection,
    channelSection.
  cbv zeta. by rewrite Htoday, Htop, Hweek, Hchannel.
Qed.


Ltac section_appends :=
  intros Hr; cbv zeta in Hr;
  repeat match type of Hr with
         | context [Str.includes ?q ?k] => destruct (Str.includes q k)
         end;
  cbn [orb] in Hr |- *;
  repeat match type of Hr with
         | context [mbind _ ?m] => destruct m; cbn in Hr
         end;
  try discriminate;
  injection Hr as <-; try done;
  rewrite !string_app_assoc; eexists; f_equal; reflexivity.

Lemma todaySection_appends (data question data' : string) :
  todaySection shopId query getDateRange getHours toFixed data question = Ok data' ->
  appended data data' (Str.includes question "today").
Proof. unfold todaySection, appended. section_appends. Qed.


Lemma topSection_appends (data question data' : string) :
  topSection shopId query getDateRange sortOrder toFixed numberText data question = Ok data' ->
  appended data data'
    (Str.includes question "top" || Str.includes question "best"
     || Str.includes question "selling").
Proof. unfold topSection, appended. section_appends. Qed.

Lemma weekSection_appends (data question data' : string) :
  weekSection shopId query getDateRange getHours toFixed data question = Ok data' ->
  appended data data' (Str.includes question "week").
Proof. unfold weekSection, appended. section_appends. Qed.

Lemma channelSection_appends (data question data' : string) :
  channelSection shopId query getDateRange getHours data question = Ok data' ->
  appended data data'
    (Str.includes question "channel" || Str.includes question "delivery").
Proof. unfold channelSection, appended. section_appends. Qed.

Lemma appended_headed (data data' : string) (asked : bool) :
  appended data data' asked ->
  data = "" \/ (exists block, data = String "240" block) ->
  (asked = false /\ data' = "" /\ data = "") \/ exists block, data' = String "240" block.
Proof.
  unfold appended. destruct asked.
  - intros [block ->] [->|[block' ->]]; right; by eexists.
  - intros -> [->|[block ->]]; [by left|right; by eexists].
Qed.

Lemma respond_with_keyword (userQuestion text : string) :
  respond userQuestion = Ok text ->
  existsb (Str.includes (Str.toLowerCase userQuestion)) routerKeywords = true ->
  exists block, text = String "240" block.
Proof.
  unfold respond, getIntelligentResponse. cbv zeta.
  set (question := Str.toLowerCase userQuestion).
  destruct (todaySection _ _ _ _ _ "" question) as [d1|] eqn:H1; [|done].
  cbn [mbind Result_bind].
  destruct (topSection _ _ _ _ _ _ d1 question) as [d2|] eqn:H2; [|done].
  cbn [mbind Result_bind].
  destruct (weekSection _ _ _ _ _ d2 question) as [d3|] eqn:H3; [|done].
  cbn [mbind Result_bind].
  destruct (channelSection _ _ _ _ d3 question) as [d4|] eqn:H4; [|done].
  cbn [mbind Result_bind mret Result_ret].
  intros [= <-] Hasked.
  apply todaySection_appends, appended_headed in H1; [|by left].
  apply topSection_appends, appended_headed in H2; [|destruct H1 as [(_ & -> & _)|]; tauto].
  apply weekSection_appends, appended_headed in H3; [|destruct H2 as [(_ & -> & _)|]; tauto].
  apply channelSection_appends, appended_headed in H4;
    [|destruct H3 as [(_ & -> & _)|]; tauto].
  destruct H4 as [(Hchannel & -> & ->)|[block ->]]; [|by exists block].
  destruct H3 as [(Hweek & _ & ->)|[? [=]]].
  destruct H2 as [(Htop & _ & ->)|[? [=]]].
  destruct H1 as [(Htoday & _ & _)|[? [=]]].
  apply orb_false_iff in Htop as [[Htop Hbest]%orb_false_iff Hselling].
  apply orb_false_iff in Hchannel as [Hchannel Hdelivery].
  unfold routerKeywords in Hasked. cbn [existsb] in Hasked.
  by rewrite Htoday, Htop, Hbest, Hselling, Hweek, Hchannel, Hdelivery in Hasked.
Qed.

Lemma respond_failing (userQuestion : string) (e : Error) :
  (forall params, query "Sale.json" params = Throw e) ->
  existsb (Str.includes (Str.toLowerCase userQuestion)) routerKeywords = true ->
  respond userQuestion = Throw e.
Proof.
  intros Hq Hasked.
  unfold respond, getIntelligentResponse, todaySection, topSection, weekSection,
    channelSection, getSalesMetrics, getTopProducts, getSales.
  cbv zeta. rewrite !Hq. cbn [mbind Result_bind mret Result_ret].
  unfold routerKeywords in Hasked. cbn [existsb] in Hasked.
  repeat match goal with
         | |- context [Str.includes ?q ?k] => destruct (Str.includes q k)
         end; done.
Qed.

End RouterFacts.

(** Without one of the words today, top, best, selling, week, channel and
    delivery in the question, in any letter case,
    [getIntelligentResponse] returns the invitation to specify, whatever
    the POS API would answer, even when every request would fail.  The
    words compare and yesterday have an effect only next to today. *)
Theorem router_without_keyword_fetches_nothing
  (shopId : string) (query : string -> list (string * string) -> Result Response)
  (getDateRange : Z -> Z -> DateRange) (getHours : string -> option (fin 24))
  (sortOrder : list Product.t -> list nat)
  (toFixed : nat -> JS.Number -> string) (numberText : JS.Number -> string)
  (userQuestion : string) :
  existsb (Str.includes (Str.toLowerCase userQuestion)) routerKeywords = false ->
  getIntelligentResponse shopId query getDateRange getHours sortOrder toFixed numberText
    userQuestion
  = Ok fallbackText.
Proof. apply respond_without_keyword. Qed.

Lemma router_without_keyword_fetches_nothing_witness :
  getIntelligentResponse "1"
    (fun _ _ => Throw (UpstreamError "Request failed with status code 500"))
    Sample.window Sample.isoHour Sample.keepOrder
    Format.toFixed Format.numberText
    "Compare with YESTERDAY"
  = Ok fallbackText.
Proof.
  apply (router_without_keyword_fetches_nothing "1"
           (fun _ _ => Throw (UpstreamError "Request failed with status code 500"))
           Sample.window Sample.isoHour Sample.keepOrder
    Format.toFixed Format.numberText
           "Compare with YESTERDAY").
  reflexivity.
Defined.

(** A reply of [getIntelligentResponse] is the invitation to specify
    exactly when the question holds none of the seven words; otherwise it
    is data, which begins with the pictogram of the first section asked
    for and is never empty. *)
Theorem router_reply_is_data_iff_keyword
  (shopId : string) (query : string -> list (string * string) -> Result Response)
  (getDateRange : Z -> Z -> DateRange) (getHours : string -> option (fin 24))
  (sortOrder : list Product.t -> list nat)
  (toFixed : nat -> JS.Number -> string) (numberText : JS.Number -> string)
  (userQuestion text : string) :
  getIntelligentResponse shopId query getDateRange getHours sortOrder toFixed numberText
    userQuestion
  = Ok text ->
  let asked :=
    existsb (Str.includes (Str.toLowerCase userQuestion)) routerKeywords in
  (text = fallbackText <-> asked = false) /\
  (asked = true -> exists block, text = String "240" block) /\
  text <> "".
Proof.
  intros Hr asked.
  destruct asked eqn:Hasked; subst asked.
  - destruct (respond_with_keyword _ _ _ _ _ _ _ _ _ Hr Hasked) as [block ->].
    split; [split; intros [=]|]. split; [by exists block|done].
  - rewrite respond_without_keyword in Hr by done. injection Hr as <-.
    split; [done|]. split; done.
Qed.

Lemma router_reply_is_data_iff_keyword_witness :
  exists text,
    getIntelligentResponse "1" (Sample.api (Sample.reply Sample.scenario))
      Sample.window Sample.isoHour Sample.keepOrder
    Format.toFixed Format.numberText
      "Best sellers?"
    = Ok text /\
    ((text = fallbackText
      <-> existsb (Str.includes (Str.toLowerCase "Best sellers?")) routerKeywords
          = false) /\
     (existsb (Str.includes (Str.toLowerCase "Best sellers?")) routerKeywords = true ->
      exists block, text = String "240" block) /\
     text <> "").
Proof.
  eexists. split; [vm_compute; reflexivity|].
  apply (router_reply_is_data_iff_keyword "1" (Sample.api (Sample.reply Sample.scenario))
           Sample.window Sample.isoHour Sample.keepOrder
    Format.toFixed Format.numberText
           "Best sellers?").
  vm_compute. reflexivity.
Defined.

(** No partial reply: when the sales requests of the POS API fail and the
    question holds one of the seven words, [getIntelligentResponse]
    throws the error of the request; the sections that need no failing
    request are not returned either. *)
Theorem router_fails_when_the_fetch_fails
  (shopId : string) (query : string -> list (string * string) -> Result Response)
  (getDateRange : Z -> Z -> DateRange) (getHours : string -> option (fin 24))
  (sortOrder : list Product.t -> list nat)
  (toFixed : nat -> JS.Number -> string) (numberText : JS.Number -> string)
  (userQuestion : string) (e : Error) :
  (forall params, query "Sale.json" params = Throw e) ->
  existsb (Str.includes (Str.toLowerCase userQuestion)) routerKeywords = true ->
  getIntelligentResponse shopId query getDateRange getHours sortOrder toFixed numberText
    userQuestion
  = Throw e.
Proof. apply respond_failing. Qed.

Lemma router_fails_when_the_fetch_fails_witness :
  getIntelligentResponse "1"
    (fun _ _ => Throw (UpstreamError "Request failed with status code 500"))
    Sample.window Sample.isoHour Sample.keepOrder
    Format.toFixed Format.numberText
    "How was this week?"
  = Throw (UpstreamError "Request failed with status code 500").
Proof.
  apply (router_fails_when_the_fetch_fails "1"
           (fun _ _ => Throw (UpstreamError "Request failed with status code 500"))
           Sample.window Sample.isoHour Sample.keepOrder
    Format.toFixed Format.numberText
           "How was this week?").
  - done.
  - reflexivity.
Defined.

(** ** Detection of a business query *)

Lemma business_keywords_cover (question : string) :
  existsb (Str.includes question) businessKeywords = false ->
  existsb (Str.includes question) routerKeywords = false.
Proof.
  unfold businessKeywords, routerKeywords. cbn [existsb]. rewrite !orb_false_iff.
  tauto.
Qed.

(** Every word that makes [getIntelligentResponse] fetch data is a
    keyword of [isBusinessQuery]: a message that the bot does not take for
    a business query gets the invitation to specify from the router,
    whatever the POS API would answer. *)
Theorem router_keywords_are_business_keywords
  (shopId : string) (query : string -> list (string * string) -> Result Response)
  (getDateRange : Z -> Z -> DateRange) (getHours : string -> option (fin 24))
  (sortOrder : list Product.t -> list nat)
  (toFixed : nat -> JS.Number -> string) (numberText : JS.Number -> string)
  (message : string) :
  isBusinessQuery message = false ->
  getIntelligentResponse shopId query getDateRange getHours sortOrder toFixed numberText message
  = Ok fallbackText.
Proof.
  intros Hb. by apply respond_without_keyword, business_keywords_cover.
Qed.

Lemma router_keywords_are_business_keywords_witness :
  isBusinessQuery "Good morning, any news?" = false /\
  getIntelligentResponse "1" (Sample.api (Sample.reply Sample.scenario))
    Sample.window Sample.isoHour Sample.keepOrder
    Format.toFixed Format.numberText
    "Good morning, any news?"
  = Ok fallbackText.
Proof.
  split; [reflexivity|].
  apply (router_keywords_are_business_keywords "1"
           (Sample.api (Sample.reply Sample.scenario))
           Sample.window Sample.isoHour Sample.keepOrder
    Format.toFixed Format.numberText
           "Good morning, any news?").
  reflexivity.
Defined.

(** [isBusinessQuery] looks for its keywords anywhere in the lower-case
    message, inside words too: a message that contains a business query,
    in any letter case, is a business query, and so is every message that
    contains one of the keywords. *)
Theorem business_query_survives_context (wide narrow : string) :
  Str.includes (Str.toLowerCase wide) (Str.toLowerCase narrow) = true ->
  isBusinessQuery narrow = true ->
  isBusinessQuery wide = true /\
  isBusinessQuery (Str.toLowerCase wide) = true /\
  (forall before after, isBusinessQuery (before ++ narrow ++ after) = true).
Proof.
  intros Hin Hb.
  assert (Hmono : forall m,
            Str.includes (Str.toLowerCase m) (Str.toLowerCase narrow) = true ->
            isBusinessQuery m = true).
  { intros m Hm. unfold isBusinessQuery in *. cbv zeta in *.
    apply existsb_exists in Hb as (k & Hk & Hnk).
    apply existsb_exists. exists k. split; [done|].
    by apply includes_trans with (Str.toLowerCase narrow). }
  split; [by apply Hmono|]. split.
  - apply Hmono. by rewrite toLowerCase_idemp.
  - intros before after. apply Hmono. rewrite !toLowerCase_app.
    apply includes_spec. by eexists _, _.
Qed.

Lemma business_query_survives_context_witness :
  isBusinessQuery "Please STOP" = true /\
  isBusinessQuery "please stop" = true /\
  (forall before after, isBusinessQuery (before ++ "top" ++ after) = true).
Proof.
  apply (business_query_survives_context "Please STOP" "top"); reflexivity.
Defined.

Example toFixed_samples :
  Format.toFixed 2 (Parse.parseFloat "30") = "30.00" /\
  Format.toFixed 1 (Parse.parseFloat "66.666") = "66.7" /\
  Format.toFixed 2 (Parse.parseFloat "-0.125") = "-0.13" /\
  Format.toFixed 0 (Parse.parseFloat "2.5") = "3" /\
  Format.toFixed 2 (Parse.parseFloat "0.004") = "0.00" /\
  Format.numberText (Parse.parseFloat "12") = "12" /\
  Format.numberText (Parse.parseFloat "-3") = "-3".
Proof. vm_compute. done. Qed.

(** ** Mentions *)

Lemma string_app_cons (c : ascii) (a s : string) : String c a ++ s = String c (a ++ s).
Proof. reflexivity. Qed.

Lemma string_app_empty (s : string) : "" ++ s = s.
Proof. reflexivity. Qed.

Lemma removeMentions_skip (a s : string) :
  removeMentions (String.length a) (a ++ s) = removeMentions 0 s.
Proof. induction a as [|c a IH]; [done|]. exact IH. Qed.

Lemma idRun_isId (id s : string) (c : ascii) :
  idRun id = String.length id -> isIdChar c = false ->
  idRun (id ++ String c s) = String.length id /\
  String.get (String.length id) (id ++ String c s) = Some c.
Proof.
  induction id as [|d id IH];
    rewrite ?string_app_cons, ?string_app_empty; cbn [idRun String.length String.get].
  - intros _ ->. done.
  - destruct (isIdChar d); [|done]. intros [= Hid] Hc.
    destruct (IH Hid Hc) as [-> ->]. done.
Qed.

Lemma mentionAt_open (rest : string) :
  mentionAt (String "<" (String "@" rest))
  = match String.get (idRun rest) rest with
    | Some c =>
        if (0 <? idRun rest)%nat && Ascii.eqb c ">" then Some (idRun rest + 3)%nat
        else None
    | None => None
    end.
Proof. reflexivity. Qed.

Lemma mentionAt_other (c : ascii) (s : string) :
  Ascii.eqb c "<" = false -> mentionAt (String c s) = None.
Proof. intros Hc. destruct s as [|d s]; [done|]. cbn [mentionAt]. by rewrite Hc. Qed.

Lemma string_length_app (a b : string) :
  String.length (a ++ b) = (String.length a + String.length b)%nat.
Proof.
  induction a as [|c a IH]; [done|].
  rewrite string_app_cons. cbn [String.length]. by rewrite IH.
Qed.

Lemma mentionAt_mention (id s : string) :
  isId id = true ->
  mentionAt (mention id ++ s) = Some (String.length (mention id)).
Proof.
  unfold isId, mention. intros [Hne Hrun]%andb_true_iff.
  apply Nat.eqb_eq in Hrun.
  rewrite !string_app_assoc, !string_app_cons, !string_app_empty, mentionAt_open.
  destruct (idRun_isId id s ">" Hrun eq_refl) as [-> ->].
  cbn [String.length]. rewrite string_length_app.
  destruct id as [|d id]; [done|].
  cbn [String.length Nat.ltb Nat.leb andb]. rewrite Ascii.eqb_refl.
  f_equal. lia.
Qed.

Lemma removeMentions_mention (id s : string) :
  isId id = true ->
  removeMentions 0 (mention id ++ s) = removeMentions 0 s.
Proof.
  intros Hid. pose proof (mentionAt_mention id s Hid) as Hm.
  rewrite <- (removeMentions_skip (mention id) s).
  destruct (mention id ++ s) as [|c r] eqn:Hs; [by destruct id|].
  unfold removeMentions at 1. fold removeMentions. rewrite Hm.
  unfold mention in *. rewrite !string_app_cons in Hs. injection Hs as <- <-.
  rewrite !string_app_cons. cbn [String.length].
  rewrite Nat.sub_succ, Nat.sub_0_r. reflexivity.
Qed.

Lemma removeMentions_piece (piece s : string) :
  noneOf "<" piece = true ->
  removeMentions 0 (piece ++ s) = piece ++ removeMentions 0 s.
Proof.
  induction piece as [|c piece IH]; [done|].
  cbn [noneOf]. intros [Hc Hrest]%andb_true_iff. apply negb_true_iff in Hc.
  rewrite !string_app_cons. cbn [removeMentions].
  rewrite (mentionAt_other _ _ Hc). by rewrite IH.
Qed.

Lemma removeMentions_mentioning (pieces : list (string * string)) :
  Forall (fun p => isId p.1 = true /\ noneOf "<" p.2 = true) pieces ->
  removeMentions 0 (mentioning pieces) = pieceText pieces.
Proof.
  induction 1 as [|[id piece] pieces [Hid Hpiece] _ IH]; [done|].
  cbn [mentioning pieceText]. cbn [fst snd] in Hid, Hpiece.
  by rewrite removeMentions_mention, removeMentions_piece, IH.
Qed.





(** The handler of [app_mention] removes every mention token, [<@]
    followed by an identifier of capital letters and digits and [>], from a
    text whose other parts hold no [<], and leaves these parts as they
    are, in their order. *)
Theorem mention_tokens_are_removed (lead : string) (pieces : list (string * string)) :
  noneOf "<" lead = true ->
  Forall (fun p => isId p.1 = true /\ noneOf "<" p.2 = true) pieces ->
  removeMentions 0 (lead ++ mentioning pieces) = lead ++ pieceText pieces.
Proof.
  intros Hlead Hpieces.
  by rewrite removeMentions_piece, removeMentions_mentioning.
Qed.

Lemma mention_tokens_are_removed_witness :
  removeMentions 0 "Hi <@U04ABC123> how were sales, <@W9>?" = "Hi  how were sales, ?".
Proof.
  apply (mention_tokens_are_removed "Hi "
           [("U04ABC123", " how were sales, "); ("W9", "?")]).
  - reflexivity.
  - repeat constructor.
Defined.



(** ** The bot *)

Lemma zero_metrics_of_uncounted shopId query getDateRange getHours daysAgo daysSpan
  (fetched : Fetched.t) :
  getSales shopId query getDateRange daysAgo daysSpan = Ok fetched ->
  Forall (fun sale => counted sale = false) (Fetched.sales fetched) ->
  getSalesMetrics shopId query getDateRange getHours daysAgo daysSpan
  = Ok (zeroMetrics (dateStr (Fetched.dateRange fetched))).
Proof.
  intros Hfetch Hnone. unfold getSalesMetrics. rewrite Hfetch.
  cbn [mbind mret Result_bind Result_ret]. f_equal. unfold summarize.
  rewrite foldl_saleStep_uncounted by done. apply finish_initial.
Qed.

(** [getTodaysSalesSummary] always produces a text: the notice that
    the POS is not configured when there is no engine, a fixed notice
    that hides the error when the sales request fails, and, when the
    window holds no counted sale, a summary of zeros that names 0:00 as
    the peak hour. *)
Theorem sales_summary_cases
  (getDateRange : Z -> Z -> DateRange) (getHours : string -> option (fin 24))
  (toFixed : nat -> JS.Number -> string) (currentTime : string) (ls : Instance) :
  let summary := getTodaysSalesSummary getDateRange getHours toFixed currentTime in
  let fetch := getSales (shop_id ls) (request ls) getDateRange 0 1 in
  summary None = "Sales data unavailable - Lightspeed not configured." /\
  (forall e,
     fetch = Throw e ->
     summary (Some ls) = "Error fetching sales data. Please check Lightspeed connection.") /\
  (forall fetched,
     fetch = Ok fetched ->
     Forall (fun sale => counted sale = false) (Fetched.sales fetched) ->
     summary (Some ls)
     = "📊 Today's Sales (as of " ++ currentTime ++ "):" ++ newline
       ++ "• Transactions: 0" ++ newline
       ++ "• Revenue: $" ++ toFixed 2 JS.zero ++ newline
       ++ "• Avg Sale: $" ++ toFixed 2 JS.zero ++ newline
       ++ "• Profit: $" ++ toFixed 2 JS.zero ++ " (" ++ toFixed 1 JS.zero
       ++ "% margin)" ++ newline
       ++ "• Items Sold: " ++ toFixed 0 JS.zero ++ newline
       ++ "• Peak Hour: 0:00").
Proof.
  intros summary fetch. subst summary fetch. split; [done|]. split.
  - intros e He. unfold getTodaysSalesSummary, getSalesMetrics. by rewrite He.
  - intros fetched Hfetch Hnone. unfold getTodaysSalesSummary.
    by rewrite (zero_metrics_of_uncounted _ _ _ _ _ _ fetched Hfetch Hnone).
Qed.

Lemma sales_summary_cases_witness :
  let summary :=
    getTodaysSalesSummary Sample.window Sample.isoHour Format.toFixed "02:15 PM" in
  summary (Some {| shop_id := "1";
                   request := fun _ _ => Throw (UpstreamError "timeout") |})
  = "Error fetching sales data. Please check Lightspeed connection." /\
  summary (Some {| shop_id := "1";
                   request := Sample.api (Sample.reply [Sample.refund]) |})
  = "📊 Today's Sales (as of 02:15 PM):" ++ newline
    ++ "• Transactions: 0" ++ newline
    ++ "• Revenue: $0.00" ++ newline
    ++ "• Avg Sale: $0.00" ++ newline
    ++ "• Profit: $0.00 (0.0% margin)" ++ newline
    ++ "• Items Sold: 0" ++ newline
    ++ "• Peak Hour: 0:00".
Proof.
  split.
  - apply (sales_summary_cases Sample.window Sample.isoHour Format.toFixed "02:15 PM"
             {| shop_id := "1"; request := fun _ _ => Throw (UpstreamError "timeout") |})
      with (e := UpstreamError "timeout").
    reflexivity.
  - apply (sales_summary_cases Sample.window Sample.isoHour Format.toFixed "02:15 PM"
             {| shop_id := "1"; request := Sample.api (Sample.reply [Sample.refund]) |})
      with (fetched := {| Fetched.sales := [Sample.refund];
                          Fetched.dateRange := Sample.window 0 1;
                          Fetched.count := 1 |}).
    + reflexivity.
    + repeat constructor.
Defined.

Lemma string_app_nonempty_l (a b : string) : a <> "" -> a ++ b <> "".
Proof. by destruct a. Qed.

Lemma string_app_nonempty_r (a b : string) : b <> "" -> a ++ b <> "".
Proof. destruct a; [done|]. by rewrite string_app_cons. Qed.

Lemma string_app_longer (a m b : string) : a <> "" -> a ++ m ++ b <> m.
Proof.
  intros Ha Heq. apply (f_equal String.length) in Heq.
  rewrite !string_length_app in Heq. destruct a; [done|]. cbn [String.length] in Heq. lia.
Qed.

Section BotFacts.

Variable toFixed : nat -> JS.Number -> string.
Variable numberText : JS.Number -> string.
Variable currentTime : string.

Lemma businessData_empty todayMetrics topProducts comparison :
  businessData toFixed numberText currentTime todayMetrics topProducts comparison = ""
  <-> todayMetrics = None /\ comparison = None /\
      (topProducts = None \/ topProducts = Some []).
Proof.
  split.
  - unfold businessData. cbv zeta. intros Hempty.
    assert (Hgrown : forall a b : string, "" ++ a ++ b = "" -> a <> "" -> False).
    { intros a b Hab Ha. by destruct a. }
    destruct todayMetrics as [m|], comparison as [c|],
      topProducts as [[|p products]|];
      try destruct (channels m) as [|entry entries];
      cbn [length Nat.ltb Nat.leb] in Hempty;
      try tauto; exfalso;
      rewrite ?string_app_assoc in Hempty; by apply Hgrown in Hempty.
  - intros (-> & -> & [->| ->]); reflexivity.
Qed.

End BotFacts.

Lemma dataPrompt_longer (data userMessage : string) : dataPrompt data userMessage <> userMessage.
Proof.
  intros Heq. apply (f_equal String.length) in Heq. unfold dataPrompt in Heq.
  rewrite !string_length_app in Heq. change (String.length quoteMark) with 1%nat in Heq.
  lia.
Qed.

(** What [processWithClaude] sends to the language model is either the
    message of the user as it is, or the data prompt around a data text
    that is not empty.  The message goes out as it is exactly when the POS
    is not configured, or no context is asked for and the message is no
    business query, or nothing was fetched: the metrics and the
    comparison failed and the product fetch failed or found no product.
    The reply of the model is returned as it is, and an error of the call
    as a text that names it. *)
Theorem prompt_is_message_without_data
  (getDateRange : Z -> Z -> DateRange) (getHours : string -> option (fin 24))
  (sortOrder : list Product.t -> list nat)
  (toFixed : nat -> JS.Number -> string) (numberText : JS.Number -> string)
  (currentTime systemPrompt : string) (create : string -> string -> Result string)
  (lightspeedIntelligence : option Instance)
  (userMessage : string) (includeContext : bool) :
  let prompt :=
    userPrompt getDateRange getHours sortOrder toFixed numberText currentTime
      lightspeedIntelligence userMessage includeContext in
  let answer :=
    processWithClaude getDateRange getHours sortOrder toFixed numberText currentTime systemPrompt
      create lightspeedIntelligence userMessage includeContext in
  (prompt = userMessage \/
   exists data, data <> "" /\ prompt = dataPrompt data userMessage) /\
  (prompt = userMessage <->
   match lightspeedIntelligence with
   | None => True
   | Some ls =>
       (includeContext = false /\ isBusinessQuery userMessage = false) \/
       (orNull (getSalesMetrics (shop_id ls) (request ls) getDateRange getHours 0 1)
        = None /\
        orNull (getComparison (shop_id ls) (request ls) getDateRange getHours
                  (Some "daily")) = None /\
        (orNull (getTopProducts (shop_id ls) (request ls) getDateRange sortOrder 0 1 10) = None \/
         orNull (getTopProducts (shop_id ls) (request ls) getDateRange sortOrder 0 1 10)
         = Some []))
   end) /\
  (forall text, create systemPrompt prompt = Ok text -> answer = text) /\
  (forall error,
     create systemPrompt prompt = Throw error ->
     answer = "❌ Error processing your request: " ++ messageOf error).
Proof.
  intros prompt answer. subst prompt answer. unfold processWithClaude, userPrompt.
  cbv zeta. split; [|split; [|split]].
  - destruct lightspeedIntelligence as [ls|]; [|by left].
    destruct (includeContext || isBusinessQuery userMessage); [|by left].
    case_bool_decide as Hdata; [by left|right]. by eexists.
  - destruct lightspeedIntelligence as [ls|]; [|done].
    destruct (includeContext || isBusinessQuery userMessage) eqn:Hask.
    + rewrite <- businessData_empty with (toFixed := toFixed) (numberText := numberText)
        (currentTime := currentTime).
      case_bool_decide as Hdata.
      * split; [by right|done].
      * split; [by intros ?%dataPrompt_longer|].
        intros [[-> Hb]|?]; [by rewrite Hb in Hask|done].
    + apply orb_false_iff in Hask as [-> ->]. split; [by left|done].
  - by intros text ->.
  - by intros error ->.
Qed.

Example router_reply_of_scenario :
  getIntelligentResponse "1" (Sample.api (Sample.reply Sample.scenario)) Sample.window
    Sample.isoHour Sample.keepOrder Format.toFixed
    Format.numberText
    "Today vs yesterday, best channel this week"
  = Ok "📊 TODAY'S PERFORMANCE:
• Revenue: $30.00
• Transactions: 1
• Avg Sale: $30.00
• Profit: $20.00 (66.7%)
• Peak Hour: 14:00

📈 VS YESTERDAY:
• Revenue: 0.0%
• Transactions: 0.0%

🏆 TOP PRODUCTS TODAY:
1. Item 9: $30.00 (2 units)

📅 THIS WEEK:
• Revenue: $30.00
• Transactions: 1
• Profit: $20.00

🚚 CHANNEL BREAKDOWN:
• In-Store: 1 orders

".
Proof. vm_compute. reflexivity. Qed.

Example business_data_of_scenario :
  let api := Sample.api (Sample.reply Sample.scenario) in
  businessData Format.toFixed Format.numberText "02:15 PM"
    (orNull (getSalesMetrics "1" api Sample.window Sample.isoHour 0 1))
    (orNull (getTopProducts "1" api Sample.window Sample.keepOrder 0 1 10))
    (orNull (getComparison "1" api Sample.window Sample.isoHour (Some "daily")))
  = "📊 TODAY'S PERFORMANCE (as of 02:15 PM):
• Revenue: $30.00
• Transactions: 1
• Average Sale: $30.00
• Profit: $20.00 (66.7% margin)
• Items Sold: 2
• Avg Items/Sale: 2.0
• Peak Sales Hour: 14:00

🚚 CHANNEL BREAKDOWN:
• In-Store: 1 orders (100.0%)

📈 COMPARED TO YESTERDAY:
• Revenue Change: 0.0%
• Transaction Change: 0.0%
• Avg Sale Change: $0.00

🏆 TOP SELLING PRODUCTS TODAY:
1. Item 9: $30.00 revenue (2 units)

".
Proof. vm_compute. reflexivity. Qed.

(** ** Totals that are not numbers *)

Lemma counted_cases (sale : SaleRec) :
  counted sale = true
  <-> isVoided sale = false /\
      (JS.gt (parseFloatOr0 (calcTotal sale)) JS.zero = true \/ unreadable sale = true).
Proof.
  unfold counted, unreadable. destruct (isVoided sale); cbn [negb andb].
  { split; [done|]. by intros [? _]. }
  destruct (parseFloatOr0 (calcTotal sale)) as [q| | |]; cbn.
  - rewrite negb_true_iff, bool_decide_eq_false, bool_decide_eq_true.
    split.
    + intros Hq. split; [done|]. left. by apply Qcnot_le_lt.
    + intros [_ [Hq|?]]; [|done]. by apply Qclt_not_le.
  - split; [|done]. intros _. split; [done|by left].
  - split; [done|]. by intros [_ [?|?]].
  - split; [|done]. intros _. split; [done|by right].
Qed.

Lemma legacy_step_count (acc : JS.Number * nat) (sale : SaleRec * option string) :
  (Legacy.step acc (legacyView sale)).2
  = (acc.2 + if counted sale.1 && negb (unreadable sale.1) then 1 else 0)%nat.
Proof.
  destruct acc as [revenue count]. unfold Legacy.step, legacyView. cbn [snd fst
    Legacy.voided Legacy.calcTotal Legacy.calcSubtotal].
  pose proof (counted_cases sale.1) as Hc. unfold isVoided in Hc.
  destruct (bool_decide (voided sale.1 = Some "true")).
  { cbn [snd]. destruct (counted sale.1); [|cbn; lia].
    by destruct (proj1 Hc eq_refl). }
  destruct (JS.gt _ _) eqn:Hgt; cbn [snd].
  - assert (counted sale.1 = true) as -> by (apply Hc; auto).
    assert (unreadable sale.1 = false) as ->; [|cbn; lia].
    unfold unreadable. apply bool_decide_eq_false. intros Hnan.
    by rewrite Hnan in Hgt.
  - destruct (counted sale.1); [|cbn; lia].
    destruct (proj1 Hc eq_refl) as [_ [?| ->]]; [done|]. cbn. lia.
Qed.

Lemma legacy_count (sales : list (SaleRec * option string)) (acc : JS.Number * nat) :
  (foldl Legacy.step acc (legacyView <$> sales)).2
  = (acc.2
     + countIf (fun sale => counted sale && negb (unreadable sale)) sales.*1)%nat.
Proof.
  revert acc. induction sales as [|sale sales IH]; intros acc.
  - cbn. unfold countIf. cbn. lia.
  - rewrite !fmap_cons. cbn [foldl]. rewrite IH, legacy_step_count.
    unfold countIf. rewrite filter_cons.
    destruct (counted sale.1 && negb (unreadable sale.1)).
    + rewrite decide_True by done. cbn [length]. lia.
    + rewrite decide_False by done. lia.
Qed.

Lemma countIf_all (P : SaleRec -> bool) (sales : list SaleRec) :
  Forall (fun sale => P sale = true) sales -> countIf P sales = length sales.
Proof.
  unfold countIf. induction 1 as [|sale sales Hsale _ IH]; [done|].
  rewrite filter_cons, decide_True by done. cbn [length]. by rewrite IH.
Qed.

(** A sale that is not voided and whose total is not a number is counted
    by [getSalesMetrics], since the test [total <= 0] fails for it: when
    no fetched sale is voided and no total can be read, every sale is a
    transaction.  A sale is counted exactly when it is not voided and its
    total is positive or not a number. *)
Theorem unreadable_total_is_counted
  (shopId : string) (query : string -> list (string * string) -> Result Response)
  (getDateRange : Z -> Z -> DateRange) (getHours : string -> option (fin 24))
  (daysAgo daysSpan : Z) (fetched : Fetched.t) :
  getSales shopId query getDateRange daysAgo daysSpan = Ok fetched ->
  Forall (fun sale => isVoided sale = false /\ unreadable sale = true)
         (Fetched.sales fetched) ->
  (exists m,
     getSalesMetrics shopId query getDateRange getHours daysAgo daysSpan = Ok m /\
     totalTransactions m = Fetched.count fetched) /\
  (forall sale,
     counted sale = true
     <-> isVoided sale = false /\
         (JS.gt (parseFloatOr0 (calcTotal sale)) JS.zero = true \/
          parseFloatOr0 (calcTotal sale) = JS.NaN)).
Proof.
  intros Hfetch Hall. split.
  - unfold getSalesMetrics. rewrite Hfetch. eexists. split; [reflexivity|].
    destruct (aggregate_fields getHours (Fetched.sales fetched)) as (Ht & _).
    unfold summarize, finish. cbn [totalTransactions]. rewrite Ht.
    unfold getSales in Hfetch. destruct (query _ _); [|done].
    cbn in Hfetch. injection Hfetch as <-. cbn [Fetched.sales Fetched.count] in *.
    apply countIf_all.
    eapply Forall_impl; [exact Hall|]. intros sale [Hv Hu].
    apply counted_cases. auto.
  - intros sale. rewrite counted_cases. unfold unreadable.
    by rewrite bool_decide_eq_true.
Qed.

Lemma unreadable_total_is_counted_witness :
  exists m,
    getSalesMetrics "1"
      (Sample.api (Sample.reply [Sample.sale "false" "n/a" "2024-01-15T09:00:00-05:00"
                                   None [Sample.line "9" "1" "10.00" "4.00"]]))
      Sample.window Sample.isoHour 0 1 = Ok m /\
    totalTransactions m = 1%nat.
Proof.
  apply (unreadable_total_is_counted "1"
           (Sample.api (Sample.reply [Sample.sale "false" "n/a" "2024-01-15T09:00:00-05:00"
                                        None [Sample.line "9" "1" "10.00" "4.00"]]))
           Sample.window Sample.isoHour 0 1
           {| Fetched.sales := [Sample.sale "false" "n/a" "2024-01-15T09:00:00-05:00"
                                  None [Sample.line "9" "1" "10.00" "4.00"]];
              Fetched.dateRange := Sample.window 0 1;
              Fetched.count := 1 |}).
  - reflexivity.
  - repeat constructor.
Defined.

Lemma countIf_split (P Q : SaleRec -> bool) (sales : list SaleRec) :
  countIf P sales
  = (countIf (fun sale => P sale && negb (Q sale)) sales
     + countIf (fun sale => P sale && Q sale) sales)%nat.
Proof.
  unfold countIf. induction sales as [|sale rest IH]; [done|].
  rewrite !filter_cons.
  destruct (P sale), (Q sale); cbn [andb negb]; repeat case_decide; try done;
    cbn [length]; lia.
Qed.

Lemma countIf_none (P : SaleRec -> bool) (sales : list SaleRec) :
  Forall (fun sale => P sale = false) sales -> countIf P sales = 0%nat.
Proof.
  unfold countIf. induction 1 as [|sale rest Hsale _ IH]; [done|].
  rewrite filter_cons, Hsale. by case_decide.
Qed.

(** The older summary of the bot counts a sale only when its total is
    positive: the number of transactions it reports is the number of sales
    that the engine counts and whose total is a number.  It therefore
    never reports more transactions than [getSalesMetrics] does for the
    same sales, and reports as many when every total can be read. *)
Theorem legacy_summary_counts_fewer
  (host : Clock.Host) (toFixed : nat -> JS.Number -> string) (currentTime : string)
  (get : string -> string -> Result (Shape Legacy.Sale)) (config : Legacy.Config)
  (getHours : string -> option (fin 24)) (dateStr : string)
  (sales : list (SaleRec * option string)) :
  get (Legacy.url host config) (Legacy.token config) = Ok (Many (legacyView <$> sales)) ->
  let legacy := countIf (fun sale => counted sale && negb (unreadable sale)) sales.*1 in
  let engine := totalTransactions (summarize getHours dateStr sales.*1) in
  (exists revenue average,
     Legacy.getTodaysSalesSummary host toFixed currentTime get (Some config)
     = "📊 Today's Sales (as of " ++ currentTime ++ "):" ++ newline
       ++ "• Transactions: " ++ Clock.decimal legacy ++ newline
       ++ "• Revenue: $" ++ toFixed 2 revenue ++ newline
       ++ "• Avg Sale: $" ++ toFixed 2 average) /\
  engine = (legacy + countIf (fun sale => counted sale && unreadable sale) sales.*1)%nat /\
  (legacy <= engine)%nat /\
  (Forall (fun sale => unreadable sale.1 = false) sales -> legacy = engine).
Proof.
  intros Hget legacy engine.
  assert (Hengine : engine = countIf counted sales.*1).
  { subst engine. unfold summarize, finish. cbn [totalTransactions].
    by destruct (aggregate_fields getHours sales.*1) as (-> & _). }
  pose proof (countIf_split counted unreadable sales.*1) as Hsplit.
  fold legacy in Hsplit. split.
  - unfold Legacy.getTodaysSalesSummary. rewrite Hget.
    pose proof (legacy_count sales (JS.zero, O)) as Hcount. fold legacy in Hcount.
    destruct (foldl Legacy.step (JS.zero, O) (legacyView <$> sales))
      as [revenue count].
    cbn [snd] in Hcount. rewrite Nat.add_0_l in Hcount. subst count.
    by eexists _, _.
  - rewrite Hengine, Hsplit. split; [done|]. split; [lia|].
    intros Hread.
    assert (countIf (fun sale => counted sale && unreadable sale) sales.*1 = 0%nat) as ->;
      [|lia].
    apply countIf_none, Forall_fmap.
    eapply Forall_impl; [exact Hread|]. intros sale Hsale. cbn.
    by rewrite Hsale, andb_false_r.
Qed.

Lemma legacy_summary_counts_fewer_witness :
  let sales :=
    [ (Sample.sale "false" "n/a" "2024-01-15T09:00:00-05:00" None
         [Sample.line "9" "1" "10.00" "4.00"], Some "10.00");
      (Sample.walkIn "2024-01-15T10:00:00-05:00", Some "10.00") ] in
  let get := fun _ _ => Ok (Many (legacyView <$> sales)) in
  let config :=
    {| Legacy.base_url := "https://api.lightspeedapp.com/API/Account";
       Legacy.account_id := "42";
       Legacy.shop_id := "6";
       Legacy.token := "secret" |} in
  (exists revenue average,
     Legacy.getTodaysSalesSummary SampleHost.host Format.toFixed "02:15 PM" get
       (Some config)
     = "📊 Today's Sales (as of " ++ "02:15 PM" ++ "):" ++ newline
       ++ "• Transactions: " ++ Clock.decimal 1 ++ newline
       ++ "• Revenue: $" ++ Format.toFixed 2 revenue ++ newline
       ++ "• Avg Sale: $" ++ Format.toFixed 2 average) /\
  totalTransactions (summarize Sample.isoHour "1/15/2024" sales.*1) = (1 + 1)%nat.
Proof.
  intros sales get config.
  destruct (legacy_summary_counts_fewer SampleHost.host Format.toFixed "02:15 PM" get
              config Sample.isoHour "1/15/2024" sales eq_refl)
    as (Htext & Hengine & _).
  split; [exact Htext|exact Hengine].
Defined.
